(** * Fast-food nutrition scraper: a shallow embedding of the scraping pipeline

    The development follows the Python sources:
    - [scrapers/base_scraper.py]      (statistics, [fetch_page], [with_error_handling]),
    - [scrapers/restaurant_scraper.py] ([extract_restaurant_cards]),
    - [scrapers/menu_item_scraper.py]  ([extract_menu_items], [scrape]),
    - [scrapers/nutrition_scraper.py]  (the extractors, [process_menu_item], [scrape]),
    - [src/utils.py]                   ([load_checkpoints], [save_checkpoint],
                                        [sanitize_filename]),
    - [main.py]                        ([scrape_restaurants], [scrape_menu_items],
                                        [scrape_nutrition_data]).

    Conventions.
    - Python [str] is [string]; a character is a code point below 256
      (Rocq's [ascii]), with the Unicode classification of that range.
    - A Python [dict] is an insertion-ordered association list ([Dict]).
    - A parsed page is a tree of text and element nodes ([node]); the
      BeautifulSoup queries the scrapers use are functions over it.
    - The network is an oracle [net]: the answer to the [n]-th GET.
    - The clock is an oracle [clock]: the [n]-th reading of [time.time()].
    - Delays and times are exact rationals.  [time.sleep] accepts a delay
      between 0 and [sleep_limit]; it raises [ValueError] on a negative
      one and [OverflowError] on one it cannot convert.
    - Effects (statistics, sleeps, requests, the rate limiter) are
      threaded through a state-and-exception monad [M]. *)

From Stdlib Require Import String Ascii List ZArith NArith QArith Lia Bool Arith.
From Stdlib Require Import Lqa.
From Stdlib Require Import DecimalString.
From Equations Require Import Equations.
Import ListNotations.

Set Warnings "-register-all".
Local Open Scope string_scope.
Local Open Scope list_scope.
Local Open Scope nat_scope.

(* ===================================================================== *)
(** ** Python text primitives *)
(* ===================================================================== *)

Module Py.

Definition code (c : ascii) : N := N_of_ascii c.

Definition between (lo hi : N) (c : ascii) : bool :=
  ((lo <=? code c) && (code c <=? hi))%N.

Definition is_code (n : N) (c : ascii) : bool := (code c =? n)%N.

(** [str.isspace] on one character (code points below 256). *)
Definition isspace (c : ascii) : bool :=
  between 9 13 c || between 28 32 c || is_code 133 c || is_code 160 c.

(** [str.isalnum] on one character: letters, decimal digits and the
    other numeric characters of the Latin-1 range. *)
Definition isalnum (c : ascii) : bool :=
  between 48 57 c || between 65 90 c || between 97 122 c
  || is_code 170 c || is_code 178 c || is_code 179 c || is_code 181 c
  || is_code 185 c || is_code 186 c
  || between 188 190 c
  || between 192 214 c || between 216 246 c || between 248 255 c.

(** [str.lower] on one character. *)
Definition lower_char (c : ascii) : ascii :=
  if between 65 90 c || between 192 214 c || between 216 222 c
  then ascii_of_N (code c + 32)
  else c.

Fixpoint smap (f : ascii -> ascii) (s : string) : string :=
  match s with
  | EmptyString => EmptyString
  | String c r => String (f c) (smap f r)
  end.

Definition lower (s : string) : string := smap lower_char s.

(** Truthiness of a [str]. *)
Definition truthy (s : string) : bool :=
  match s with EmptyString => false | String _ _ => true end.

Fixpoint lstrip_with (p : ascii -> bool) (s : string) : string :=
  match s with
  | EmptyString => EmptyString
  | String c r => if p c then lstrip_with p r else s
  end.

Fixpoint rstrip_with (p : ascii -> bool) (s : string) : string :=
  match s with
  | EmptyString => EmptyString
  | String c r =>
      match rstrip_with p r with
      | EmptyString => if p c then EmptyString else String c EmptyString
      | r' => String c r'
      end
  end.

Definition strip_with (p : ascii -> bool) (s : string) : string :=
  rstrip_with p (lstrip_with p s).

(** [s.strip()] *)
Definition strip (s : string) : string := strip_with isspace s.

Fixpoint mem_char (c : ascii) (chars : string) : bool :=
  match chars with
  | EmptyString => false
  | String d r => Ascii.eqb c d || mem_char c r
  end.

(** [s.strip(chars)] *)
Definition strip_chars (chars : string) (s : string) : string :=
  strip_with (fun c => mem_char c chars) s.

(** [s.startswith(p)] *)
Fixpoint startswith (s p : string) {struct p} : bool :=
  match p with
  | EmptyString => true
  | String d p' =>
      match s with
      | EmptyString => false
      | String c s' => Ascii.eqb c d && startswith s' p'
      end
  end.

(** [s.startswith((p1, ..., pn))] *)
Definition startswith_any (s : string) (ps : list string) : bool :=
  existsb (startswith s) ps.

(** [sub in s] *)
Fixpoint contains (s sub : string) : bool :=
  startswith s sub ||
  match s with
  | EmptyString => false
  | String _ r => contains r sub
  end.

(** [s.replace(old, new)] for a non-empty [old]: occurrences are replaced
    from left to right and do not overlap.  [skip] counts the characters
    of the current occurrence still to be dropped. *)
Fixpoint replace_from (old new : string) (skip : nat) (s : string) : string :=
  match s with
  | EmptyString => EmptyString
  | String c r =>
      match skip with
      | S k => replace_from old new k r
      | O =>
          if startswith s old
          then new ++ replace_from old new (String.length old - 1) r
          else String c (replace_from old new 0 r)
      end
  end.

Definition replace (old new s : string) : string := replace_from old new 0 s.

(** [sep.join(parts)] *)
Fixpoint join (sep : string) (parts : list string) : string :=
  match parts with
  | [] => EmptyString
  | [p] => p
  | p :: rest => p ++ sep ++ join sep rest
  end.

(** [str(n)] for an [int]. *)
Definition str_of_int (z : Z) : string := NilZero.string_of_int (Z.to_int z).

End Py.

(* ===================================================================== *)
(** ** nutrition_scraper.py: snake-casing of field names *)
(* ===================================================================== *)

(** One pass of [cleaned.replace("__", "_")]. *)
Definition squeeze (cleaned : string) : string := Py.replace "__" "_" cleaned.

Lemma squeeze_pair (r : string) :
  squeeze (String "_" (String "_" r)) = String "_" (squeeze r).
Proof. reflexivity. Qed.

Lemma squeeze_other (c : ascii) (r : string) :
  Py.startswith (String c r) "__" = false ->
  squeeze (String c r) = String c (squeeze r).
Proof.
  unfold squeeze, Py.replace. intros H. cbn [Py.replace_from]. rewrite H. reflexivity.
Qed.

Lemma startswith_uu (s : string) :
  Py.startswith s "__" = true -> exists r, s = String "_" (String "_" r).
Proof.
  destruct s as [|c [|d r]]; cbn; try discriminate.
  - rewrite andb_false_r. discriminate.
  - rewrite andb_true_r. intros H. apply andb_prop in H as [H1 H2].
    apply Ascii.eqb_eq in H1, H2. subst. eauto.
Qed.

Lemma squeeze_length_le (n : nat) :
  forall s, String.length s <= n ->
            String.length (squeeze s) <= String.length s
            /\ (Py.contains s "__" = true ->
                String.length (squeeze s) < String.length s).
Proof.
  induction n as [|n IH]; intros s Hn.
  - destruct s; [|cbn in Hn; lia]. cbn. split; [lia | discriminate].
  - destruct s as [|c r]; [cbn; split; [lia|discriminate]|].
    destruct (Py.startswith (String c r) "__") eqn:Hs.
    + destruct (startswith_uu _ Hs) as [r' E]. inversion E; subst.
      rewrite squeeze_pair. cbn [String.length] in *.
      destruct (IH r' ltac:(lia)) as [Hle _]. split; intros; lia.
    + rewrite squeeze_other by exact Hs. cbn [String.length] in *.
      destruct (IH r ltac:(lia)) as [Hle Hlt]. split; [lia|].
      intros Hc. cbn [Py.contains] in Hc. rewrite Hs in Hc. cbn in Hc.
      specialize (Hlt Hc). lia.
Qed.

Lemma squeeze_shrinks (s : string) :
  Py.contains s "__" = true -> String.length (squeeze s) < String.length s.
Proof. intros H. exact (proj2 (squeeze_length_le _ s (le_n _)) H). Qed.

(** Remember the value of a test together with the equation it satisfies. *)
Definition inspect {A : Type} (x : A) : {y : A | x = y} := exist _ x eq_refl.

Equations? squeeze_loop (cleaned : string) : string
  by wf (String.length cleaned) lt :=
  squeeze_loop cleaned with inspect (Py.contains cleaned "__") => {
    | exist _ true more => squeeze_loop (squeeze cleaned);
    | exist _ false _ => cleaned }.
Proof. apply squeeze_shrinks. exact more. Qed.

(** [NutritionScraper._to_snake_case] *)
Definition _to_snake_case (text : string) : string :=
  let cleaned :=
    Py.smap (fun ch => if Py.isalnum ch then ch else "_"%char)
            (Py.lower (Py.strip text)) in
  let cleaned := squeeze_loop cleaned in
  Py.strip_chars "_" cleaned.

(** Runs of ['_'] collapsed to a single one, in one pass. *)
Fixpoint collapse_underscores (s : string) : string :=
  match s with
  | EmptyString => EmptyString
  | String c r =>
      if Ascii.eqb c "_" && Py.startswith r "_"
      then collapse_underscores r
      else String c (collapse_underscores r)
  end.

(** Snake-casing as the specification words it: the lower-cased text
    with every non-alphanumeric character replaced by ['_'], runs of ['_']
    collapsed to one, leading and trailing ['_'] stripped. *)
Definition snake_case_spec (text : string) : string :=
  Py.strip_chars "_"
    (collapse_underscores
       (Py.smap (fun ch => if Py.isalnum ch then ch else "_"%char)
                (Py.lower text))).

(** What lower-casing and the replacement do to one character. *)
Definition fold_char (ch : ascii) : ascii :=
  if Py.isalnum (Py.lower_char ch) then Py.lower_char ch else "_"%char.

Definition is_underscore (c : ascii) : bool := Py.mem_char c "_".

(** The collapsed string without its trailing underscores. *)
Definition collapsed_rstrip (s : string) : string :=
  Py.rstrip_with is_underscore (collapse_underscores s).

(* ===================================================================== *)
(** ** Insertion-ordered dictionaries *)
(* ===================================================================== *)

Module Dict.
Section Dict.
Context {V : Type}.

Definition t : Type := list (string * V).

(** [d.get(k)] *)
Fixpoint get (k : string) (d : t) : option V :=
  match d with
  | [] => None
  | (k', v) :: r => if String.eqb k k' then Some v else get k r
  end.

(** [k in d] *)
Definition mem (k : string) (d : t) : bool :=
  match get k d with Some _ => true | None => false end.

(** [d[k] = v]: an existing key keeps its position, a new one goes last. *)
Fixpoint set (k : string) (v : V) (d : t) : t :=
  match d with
  | [] => [(k, v)]
  | (k', v') :: r =>
      if String.eqb k k' then (k, v) :: r else (k', v') :: set k v r
  end.

(** [del d[k]] *)
Definition del (k : string) (d : t) : t :=
  filter (fun kv => negb (String.eqb k (fst kv))) d.

Definition keys (d : t) : list string := map fst d.
Definition values (d : t) : list V := map snd d.

(** [d.update(other)] *)
Definition update (d other : t) : t :=
  fold_left (fun acc kv => set (fst kv) (snd kv) acc) other d.

(** [{**a, **b}] *)
Definition merge (a b : t) : t := update (update [] a) b.
End Dict.
Arguments t V : clear implicits.
End Dict.

(** JSON-like values: what the pipeline stores in its output mappings. *)
Inductive json : Type :=
| JNull
| JBool (b : bool)
| JNum (z : Z)
| JStr (s : string)
| JList (l : list json)
| JDict (d : list (string * json)).

(** A [Dict[str, str]] seen as a [Dict[str, Any]]. *)
Definition as_json (d : Dict.t string) : Dict.t json :=
  map (fun kv => (fst kv, JStr (snd kv))) d.

Definition json_opt_str (o : option string) : json :=
  match o with Some s => JStr s | None => JNull end.

(* ===================================================================== *)
(** ** Parsed documents and the BeautifulSoup queries *)
(* ===================================================================== *)

(** A node of the parse tree: a string or a tag.  The [class] attribute
    is kept apart, as the list of its names; [attrs] holds the other
    attributes.  Comments and other special strings are left out. *)
Inductive node : Type :=
| Text (s : string)
| Elem (tag : string) (classes : list string)
       (attrs : list (string * string)) (kids : list node).

(** A tag together with its ancestors (nearest first). *)
Definition loc : Type := (list node * node)%type.

Definition root (n : node) : loc := ([], n).

Module Soup.

Definition attr (name : string) (n : node) : option string :=
  match n with
  | Text _ => None
  | Elem _ _ attrs _ => Dict.get name attrs
  end.

Definition children (n : node) : list node :=
  match n with
  | Text _ => []
  | Elem _ _ _ kids => kids
  end.

(** All strings below a node, in document order. *)
Fixpoint strings (n : node) : list string :=
  match n with
  | Text s => [s]
  | Elem _ _ _ kids => flat_map strings kids
  end.

(** [tag.get_text(sep, strip=True)] *)
Definition get_text (sep : string) (l : loc) : string :=
  Py.join sep (filter Py.truthy (map Py.strip (strings (snd l)))).

(** [tag.find(string=True, recursive=False)]: the first child that is a
    string. *)
Fixpoint first_text (kids : list node) : option string :=
  match kids with
  | [] => None
  | Text s :: _ => Some s
  | Elem _ _ _ _ :: r => first_text r
  end.

Definition find_string_direct (l : loc) : option string :=
  first_text (children (snd l)).

(** The tags below a node, in document order, each with its ancestors. *)
Fixpoint below (anc : list node) (n : node) : list loc :=
  match n with
  | Text _ => []
  | Elem _ _ _ kids =>
      flat_map (fun k =>
                  match k with
                  | Text _ => []
                  | Elem _ _ _ _ => (n :: anc, k) :: below (n :: anc) k
                  end) kids
  end.

Definition descendants (l : loc) : list loc := below (fst l) (snd l).

(** Attribute tests of a selector: [[name]] and [[name^='prefix']]. *)
Inductive attr_test : Type :=
| HasAttr (name : string)
| AttrPrefix (name : string) (prefix : string).

(** A compound selector: [tag#id.class1.class2[attr]]. *)
Record simple : Type := mkSimple {
  s_tag : option string;
  s_id : option string;
  s_classes : list string;
  s_attrs : list attr_test
}.

Definition str_in (s : string) (l : list string) : bool :=
  existsb (String.eqb s) l.

Definition attr_ok (n : node) (a : attr_test) : bool :=
  match a with
  | HasAttr name =>
      match attr name n with Some _ => true | None => false end
  | AttrPrefix name p =>
      match attr name n with Some v => Py.startswith v p | None => false end
  end.

Definition matches (c : simple) (n : node) : bool :=
  match n with
  | Text _ => false
  | Elem tag classes _ _ =>
      match s_tag c with Some t => String.eqb t tag | None => true end
      && match s_id c with
         | Some i => match attr "id" n with
                     | Some v => String.eqb i v
                     | None => false
                     end
         | None => true
         end
      && forallb (fun cl => str_in cl classes) (s_classes c)
      && forallb (attr_ok n) (s_attrs c)
  end.

(** Descendant combinators: [need] lists the compounds still to be found
    among the ancestors, innermost first. *)
Fixpoint chain_ok (need : list simple) (anc : list node) {struct anc} : bool :=
  match need with
  | [] => true
  | c :: need' =>
      match anc with
      | [] => false
      | a :: anc' =>
          if matches c a then chain_ok need' anc' else chain_ok need anc'
      end
  end.

(** A complex selector [c1 c2 ... cn] is the list of its compounds, the
    subject [cn] last. *)
Definition complex : Type := list simple.

Definition matches_complex (sel : complex) (l : loc) : bool :=
  match rev sel with
  | [] => false
  | subject :: outer => matches subject (snd l) && chain_ok outer (fst l)
  end.

(** A selector list [sel1, sel2, ...]. *)
Definition selector : Type := list complex.

(** [tag.select(sel)] *)
Definition select (sel : selector) (l : loc) : list loc :=
  filter (fun d => existsb (fun c => matches_complex c d) sel) (descendants l).

(** [tag.select_one(sel)] *)
Definition select_one (sel : selector) (l : loc) : option loc :=
  hd_error (select sel l).

(** [tag.find_all(name)] and [tag.find(name, ...)]. *)
Definition find_all (c : simple) (l : loc) : list loc := select [[c]] l.
Definition find (c : simple) (l : loc) : option loc := hd_error (find_all c l).

(** Selector building blocks. *)
Definition tag_ (t : string) : simple := mkSimple (Some t) None [] [].
Definition cls_ (cs : list string) : simple := mkSimple None None cs [].
Definition tag_cls (t : string) (cs : list string) : simple :=
  mkSimple (Some t) None cs [].
Definition tag_id (t : string) (i : string) : simple :=
  mkSimple (Some t) (Some i) [] [].
Definition id_ (i : string) : simple := mkSimple None (Some i) [] [].
Definition tag_attr (t : string) (a : attr_test) : simple :=
  mkSimple (Some t) None [] [a].

End Soup.

(* ===================================================================== *)
(** ** base_scraper.py: configuration, statistics, effects *)
(* ===================================================================== *)

Record ScraperConfig : Type := mkConfig {
  base_url : string;
  max_retries : Z;
  retry_delay : Q;
  timeout : Z;
  rate_limit_delay : Q
}.

Record ScraperStats : Type := mkStats {
  total_requests : nat;
  successful_requests : nat;
  failed_requests : nat;
  total_retries : nat
}.

(** [ScraperStats()] *)
Definition fresh_stats : ScraperStats := mkStats 0 0 0 0.

Definition stats_record_success (st : ScraperStats) : ScraperStats :=
  mkStats (total_requests st + 1) (successful_requests st + 1)
          (failed_requests st) (total_retries st).

Definition stats_record_failure (st : ScraperStats) : ScraperStats :=
  mkStats (total_requests st + 1) (successful_requests st)
          (failed_requests st + 1) (total_retries st).

Definition stats_record_retry (st : ScraperStats) : ScraperStats :=
  mkStats (total_requests st) (successful_requests st)
          (failed_requests st) (total_retries st + 1).

(** What a scraper does to the outside world, in order. *)
Inductive event : Type :=
| RateLimitWait                (* [self.rate_limiter.wait()] is entered *)
| LimiterSleep (seconds : Q)   (* [time.sleep(...)] inside [RateLimiter.wait] *)
| Get (url : string)           (* [self.session.get(url, ...)] *)
| Sleep (seconds : Q).         (* [time.sleep(seconds)] of a scraper *)

(** [RateLimiter]: the configured delay and the time of the last request. *)
Record RateLimiter : Type := mkLimiter {
  min_delay : Q;
  last_request_time : option Q
}.

(** The sleep of [RateLimiter.wait], when [time.time()] reads [now]:
    [min_delay - elapsed] if a request was made less than [min_delay]
    ago, none otherwise. *)
Definition limiter_sleep (rl : RateLimiter) (now : Q) : option Q :=
  match last_request_time rl with
  | Some last =>
      let elapsed := (now - last)%Q in
      if Qlt_le_dec elapsed (min_delay rl)
      then Some (min_delay rl - elapsed)%Q
      else None
  | None => None
  end.

(** [RateLimiter.wait]: [now] is the clock read before the sleep (it is
    read only when a request was made before), [after] the clock read
    when [last_request_time] is set. *)
Definition RateLimiter_wait (rl : RateLimiter) (now after : Q)
  : option Q * RateLimiter :=
  (limiter_sleep rl now, mkLimiter (min_delay rl) (Some after)).

(** The mutable part of a scraper instance: its statistics, the number of
    requests it has sent, the trace of its effects, the
    [last_request_time] of its rate limiter (whose [min_delay] is the
    [rate_limit_delay] of the configuration) and the number of times it
    has read the clock. *)
Record scraper : Type := mkScraper {
  stats : ScraperStats;
  sent : nat;
  trace : list event;
  limiter_last : option Q;
  clock_reads : nat
}.

(** [BaseScraper.__init__] *)
Definition fresh_scraper : scraper := mkScraper fresh_stats 0 [] None 0.

Inductive exn : Type :=
| NetworkException (msg : string)
| ValueError (msg : string)
| OverflowError (msg : string)
| AttributeError (msg : string)
| TypeError (msg : string).

(** [str(e)] *)
Definition exn_str (e : exn) : string :=
  match e with
  | NetworkException msg => msg
  | ValueError msg => msg
  | OverflowError msg => msg
  | AttributeError msg => msg
  | TypeError msg => msg
  end.

Inductive outcome (A : Type) : Type :=
| Ret (a : A)
| Raise (e : exn).
Arguments Ret {A} a.
Arguments Raise {A} e.

(** Computations of a scraper: state passing with exceptions. *)
Definition M (A : Type) : Type := scraper -> outcome A * scraper.

Definition ret {A} (a : A) : M A := fun s => (Ret a, s).
Definition raise {A} (e : exn) : M A := fun s => (Raise e, s).

Definition bind {A B} (m : M A) (k : A -> M B) : M B :=
  fun s =>
    match m s with
    | (Ret a, s') => k a s'
    | (Raise e, s') => (Raise e, s')
    end.

(** [try: m  except Exception as e: h(e)] *)
Definition try_except {A} (m : M A) (h : exn -> M A) : M A :=
  fun s =>
    match m s with
    | (Ret a, s') => (Ret a, s')
    | (Raise e, s') => h e s'
    end.

Notation "x <- m ;; k" := (bind m (fun x => k))
  (at level 61, m at next level, right associativity).
Notation "m ;;; k" := (bind m (fun _ => k))
  (at level 61, right associativity).

(** The decorator [with_error_handling(default_return)]. *)
Definition with_error_handling {A} (default_return : A) (m : M A) : M A :=
  try_except m (fun _ => ret default_return).

Definition emit (e : event) : M unit :=
  fun s => (Ret tt, mkScraper (stats s) (sent s) (trace s ++ [e])
                              (limiter_last s) (clock_reads s)).

Definition update_stats (f : ScraperStats -> ScraperStats) : M unit :=
  fun s => (Ret tt, mkScraper (f (stats s)) (sent s) (trace s)
                              (limiter_last s) (clock_reads s)).

Definition record_success : M unit := update_stats stats_record_success.
Definition record_failure : M unit := update_stats stats_record_failure.
Definition record_retry : M unit := update_stats stats_record_retry.

(** [time.sleep] turns its argument into a signed 64-bit count of
    nanoseconds: [sleep_limit] is the longest delay it accepts and
    [sleep_floor] the least number it converts, both in seconds. *)
Definition sleep_limit : Q := 9223372036854775807 # 1000000000.
Definition sleep_floor : Q := -9223372036854775808 # 1000000000.

(** [time.sleep(seconds)], recorded as the event [label seconds]: a
    number out of range raises [OverflowError], a negative one
    [ValueError]. *)
Definition sleep_as (label : Q -> event) (seconds : Q) : M unit :=
  if Qle_bool sleep_floor seconds && Qle_bool seconds sleep_limit
  then if Qle_bool 0 seconds
       then emit (label seconds)
       else raise (ValueError "sleep length must be non-negative")
  else raise (OverflowError "timestamp too large to convert to C _PyTime_t").

Definition sleep (seconds : Q) : M unit := sleep_as Sleep seconds.

(** The delays [time.sleep] accepts. *)
Definition sleepable (seconds : Q) : Prop :=
  (0 <= seconds)%Q /\ (seconds <= sleep_limit)%Q.

(** [a or b] on an optional [int] / [float] argument. *)
Definition or_int (a : option Z) (b : Z) : Z :=
  match a with
  | Some x => if (x =? 0)%Z then b else x
  | None => b
  end.

Definition or_float (a : option Q) (b : Q) : Q :=
  match a with
  | Some x => if Qeq_bool x 0 then b else x
  | None => b
  end.

(** [retry_delay * (2 ** attempt)] *)
Definition backoff (retry_delay : Q) (attempt : nat) : Q :=
  (retry_delay * inject_Z (2 ^ Z.of_nat attempt))%Q.

(** The sleeps of a scraper in a trace, in order (the sleeps of its rate
    limiter are [LimiterSleep] events). *)
Fixpoint sleeps (t : list event) : list Q :=
  match t with
  | [] => []
  | Sleep q :: r => q :: sleeps r
  | _ :: r => sleeps r
  end.

(** The requests and the sleeps of a scraper in a trace, in order. *)
Fixpoint outline (t : list event) : list event :=
  match t with
  | [] => []
  | Get u :: r => Get u :: outline r
  | Sleep q :: r => Sleep q :: outline r
  | _ :: r => outline r
  end.

(** The sleeps of the rate limiter in a trace, in order. *)
Fixpoint limiter_sleeps (t : list event) : list Q :=
  match t with
  | [] => []
  | LimiterSleep q :: r => q :: limiter_sleeps r
  | _ :: r => limiter_sleeps r
  end.

Section Scrapers.

(** [urllib.parse.urljoin] *)
Variable urljoin : string -> string -> string.

(** The network: the answer to the [n]-th request sent by the scraper,
    either the parsed body of a 2xx response or the message of the
    exception that [get] / [raise_for_status] raised. *)
Variable net : nat -> string -> string + node.

(** The clock: the value of the [n]-th reading of [time.time()] by the
    scraper. *)
Variable clock : nat -> Q.

Variable config : ScraperConfig.

(** [time.time()] *)
Definition read_clock : M Q :=
  fun s => (Ret (clock (clock_reads s)),
            mkScraper (stats s) (sent s) (trace s) (limiter_last s)
                      (S (clock_reads s))).

(** [self.last_request_time = t] of the rate limiter. *)
Definition set_limiter_last (t : Q) : M unit :=
  fun s => (Ret tt, mkScraper (stats s) (sent s) (trace s) (Some t)
                              (clock_reads s)).

(** [self.rate_limiter.wait()], for the limiter
    [RateLimiter(config.rate_limit_delay)] of the scraper. *)
Definition rate_limiter_wait : M unit :=
  emit RateLimitWait ;;;
  (fun s =>
     match limiter_last s with
     | Some last =>
         (now <- read_clock ;;
          match limiter_sleep (mkLimiter (rate_limit_delay config) (Some last))
                              now with
          | Some seconds => sleep_as LimiterSleep seconds
          | None => ret tt
          end) s
     | None => (Ret tt, s)
     end) ;;;
  after <- read_clock ;;
  set_limiter_last after.

(** [response = self.session.get(url, ...); response.raise_for_status();
    BeautifulSoup(response.text, 'html.parser')] *)
Definition session_get (url : string) : M (string + loc) :=
  fun s =>
    (Ret (match net (sent s) url with
          | inl e => inl e
          | inr doc => inr (root doc)
          end),
     mkScraper (stats s) (S (sent s)) (trace s ++ [Get url])
               (limiter_last s) (clock_reads s)).

(** The body of the [try] of [fetch_page]: the parsed page, or [str(e)]
    for the exception [e] that the [except] clause catches, raised by the
    request or by the rate limiter. *)
Definition attempt (url : string) : M (string + loc) :=
  try_except (rate_limiter_wait ;;; session_get url)
             (fun e => ret (inl (exn_str e))).

Definition fetch_failure_message (url : string) (max_retries : Z)
           (cause : string) : string :=
  "Failed to fetch " ++ url ++ " after " ++ Py.str_of_int max_retries
    ++ " attempts: " ++ cause.

(** The body of [for attempt in range(max_retries)], with [remaining]
    iterations left.  Falling out of the loop returns [None]. *)
Fixpoint fetch_attempts (url : string) (max_retries : Z) (retry_delay : Q)
         (remaining : nat) (attempt_no : nat) : M (option loc) :=
  match remaining with
  | O => ret None
  | S remaining' =>
      r <- attempt url ;;
      match r with
      | inr soup =>
          record_success ;;;
          ret (Some soup)
      | inl e =>
          record_retry ;;;
          if (Z.of_nat attempt_no <? max_retries - 1)%Z
          then
            sleep (backoff retry_delay attempt_no) ;;;
            fetch_attempts url max_retries retry_delay remaining' (S attempt_no)
          else
            record_failure ;;;
            raise (NetworkException (fetch_failure_message url max_retries e))
      end
  end.

(** [BaseScraper.fetch_page] *)
Definition fetch_page_with (url : string) (max_retries_arg : option Z)
           (retry_delay_arg : option Q) : M (option loc) :=
  let max_retries := or_int max_retries_arg (max_retries config) in
  let retry_delay := or_float retry_delay_arg (retry_delay config) in
  fetch_attempts url max_retries retry_delay (Z.to_nat max_retries) 0.

(** [self.fetch_page(url)] *)
Definition fetch_page (url : string) : M (option loc) :=
  fetch_page_with url None None.

(* =================================================================== *)
(** ** nutrition_scraper.py: the extractors *)
(* =================================================================== *)

(** The key and value texts of one [<tr>]: the header cell and the first
    data cell when both exist, else the first two data cells. *)
Definition row_texts (row : loc) : option string * option string :=
  let header_cell := Soup.find (Soup.tag_ "th") row in
  let data_cells := Soup.find_all (Soup.tag_ "td") row in
  match header_cell, data_cells with
  | Some th, td0 :: _ =>
      (Some (Soup.get_text " " th), Some (Soup.get_text " " td0))
  | _, _ =>
      if 2 <=? length data_cells then
        match data_cells with
        | td0 :: td1 :: _ =>
            (Some (Soup.get_text " " td0),
             if 3 <=? length data_cells
             then Some (Soup.get_text " " td1)
             else Some (Soup.get_text " " td1))
        | _ => (None, None)
        end
      else (None, None)
  end.

Definition header_prefixes : list string :=
  ["amount per serving"; "% daily value"; "percent daily"].

Definition placeholders : list string := [""; "?"; "&nbsp;"; "-"].

Definition opt_truthy (o : option string) : bool :=
  match o with Some s => Py.truthy s | None => false end.

(** What one row does to the [nutrition] dictionary. *)
Definition nutrition_row (nutrition : Dict.t string) (row : loc)
  : Dict.t string :=
  match row_texts row with
  | (Some key_text, value_text) =>
      if Py.truthy key_text
         && negb (Py.startswith_any (Py.lower key_text) header_prefixes)
      then
        match value_text with
        | Some value_text =>
            if Py.truthy value_text
               && Py.truthy (Py.strip value_text)
               && negb (Soup.str_in (Py.strip value_text) placeholders)
            then Dict.set (_to_snake_case key_text) (Py.strip value_text)
                          nutrition
            else nutrition
        | None => nutrition
        end
      else nutrition
  | (None, _) => nutrition
  end.

Definition nutrition_table_selectors : list Soup.selector :=
  [ [[Soup.tag_cls "table" ["item_nutrition"]]];
    [[Soup.tag_id "table" "item_nutrition"]];
    [[Soup.tag_cls "table" ["nutrition"]]] ].

(** [a or b or c] over [select_one] results. *)
Fixpoint first_hit (sels : list Soup.selector) (l : loc) : option loc :=
  match sels with
  | [] => None
  | sel :: rest =>
      match Soup.select_one sel l with
      | Some t => Some t
      | None => first_hit rest l
      end
  end.

(** [NutritionScraper.extract_nutrition_table].  A missing document
    ([None]) makes the body raise; the decorator returns [{}]. *)
Definition extract_nutrition_table (document : option loc) : Dict.t string :=
  match document with
  | None => []
  | Some document =>
      match first_hit nutrition_table_selectors document with
      | None => []
      | Some table =>
          fold_left nutrition_row (Soup.select [[Soup.tag_ "tr"]] table) []
      end
  end.

Record ScrapedAllergens : Type := mkAllergens {
  contains : list string;
  does_not_contain : list string;
  unknown : list string;
  allergy_information : string
}.

(** [ScrapedAllergens()] *)
Definition no_allergens : ScrapedAllergens := mkAllergens [] [] [] "".

Definition allergen_column (acc : ScrapedAllergens) (col : loc)
  : ScrapedAllergens :=
  match Soup.find (Soup.tag_ "strong") col with
  | None => acc
  | Some header =>
      let header_text := Py.lower (Soup.get_text "" header) in
      let dots := Soup.select [[Soup.cls_ ["dot"]]] col in
      let allergen_list :=
        filter Py.truthy (map (Soup.get_text "") dots) in
      if Py.contains header_text "contains"
         && negb (Py.contains header_text "not")
         && negb (Py.contains header_text "may")
      then mkAllergens allergen_list (does_not_contain acc) (unknown acc)
                       (allergy_information acc)
      else if Py.contains header_text "does not contain"
      then mkAllergens (contains acc) allergen_list (unknown acc)
                       (allergy_information acc)
      else if Py.contains header_text "unknown"
              || Py.contains header_text "aren't sure"
      then mkAllergens (contains acc) (does_not_contain acc) allergen_list
                       (allergy_information acc)
      else acc
  end.

Definition allergen_paragraph (acc : ScrapedAllergens) (p : loc)
  : ScrapedAllergens :=
  let text := Soup.get_text " " p in
  if Py.truthy text
     && (Py.contains (Py.lower text) "allergy"
         || Py.contains (Py.lower text) "allergen")
  then mkAllergens (contains acc) (does_not_contain acc) (unknown acc) text
  else acc.

(** [NutritionScraper.extract_allergens] *)
Definition extract_allergens (document : option loc) : ScrapedAllergens :=
  match document with
  | None => no_allergens
  | Some document =>
      match Soup.select_one [[Soup.id_ "allergens"]] document with
      | None => no_allergens
      | Some allergen_section =>
          let columns := Soup.select [[Soup.cls_ ["col-12"]]] allergen_section in
          let allergens_data := fold_left allergen_column columns no_allergens in
          let info_paragraphs := Soup.select [[Soup.tag_ "p"]] allergen_section in
          fold_left allergen_paragraph info_paragraphs allergens_data
      end
  end.

(** [NutritionScraper.extract_title] *)
Definition extract_title (document : option loc) : string :=
  match document with
  | None => ""
  | Some document =>
      match Soup.find (Soup.tag_ "h1") document with
      | Some h1 => Soup.get_text " " h1
      | None =>
          match Soup.find (Soup.tag_ "title") document with
          | Some title => Soup.get_text " " title
          | None => ""
          end
      end
  end.

(** One entry of the serving-size dropdown: [{"title": ..., "url": ...}]. *)
Record dropdown_option : Type := mkOption {
  title : string;
  url : string
}.

(** Remove duplicates by URL while preserving order. *)
Fixpoint unique_by_url (seen : list string) (options : list dropdown_option)
  : list dropdown_option :=
  match options with
  | [] => []
  | opt :: rest =>
      if Soup.str_in (url opt) seen
      then unique_by_url seen rest
      else opt :: unique_by_url (url opt :: seen) rest
  end.

Definition href (anchor : loc) : string :=
  match Soup.attr "href" (snd anchor) with Some h => h | None => "" end.

(** [NutritionScraper.extract_dropdown_options] *)
Definition extract_dropdown_options (document : option loc)
  : list dropdown_option :=
  match document with
  | None => []
  | Some document =>
      match Soup.select_one [[Soup.tag_cls "div" ["dropdown-menu"]]] document with
      | None => []
      | Some dropdown_menu =>
          let options :=
            map (fun anchor =>
                   mkOption (Soup.get_text " " anchor)
                            (urljoin (base_url config) (href anchor)))
                (Soup.select [[Soup.tag_attr "a" (Soup.HasAttr "href")]]
                             dropdown_menu) in
          unique_by_url [] options
      end
  end.

(** [NutritionScraper.extract_ingredients] *)
Definition extract_ingredients (document : option loc) : string :=
  match document with
  | None => ""
  | Some document =>
      match Soup.select_one [[Soup.id_ "ingredients2"]] document with
      | Some ingredients_section =>
          let text := Soup.get_text " " ingredients_section in
          if Py.truthy text then text else ""
      | None => ""
      end
  end.

(** The first image of the content columns that is neither a logo nor
    an icon. *)
Fixpoint first_content_image (imgs : list loc) : option string :=
  match imgs with
  | [] => None
  | img :: rest =>
      let src := match Soup.attr "src" (snd img) with
                 | Some v => v
                 | None => ""
                 end in
      if Py.truthy src
         && negb (Py.contains src "/logos/")
         && negb (Py.contains src "/icons/")
      then Some (urljoin (base_url config) src)
      else first_content_image rest
  end.

Definition content_images : Soup.selector :=
  [ [Soup.tag_cls "div" ["col-12"]; Soup.tag_ "img"];
    [Soup.tag_cls "div" ["col-md-6"]; Soup.tag_ "img"] ].

(** [NutritionScraper.extract_item_image] *)
Definition extract_item_image (document : option loc) : option string :=
  match document with
  | None => None
  | Some document =>
      let item_image :=
        Soup.select_one
          [[Soup.tag_attr "img" (Soup.AttrPrefix "src" "/item-photos/")]]
          document in
      match item_image with
      | Some img =>
          match Soup.attr "src" (snd img) with
          | Some src =>
              if Py.truthy src
              then Some (urljoin (base_url config) src)
              else first_content_image (Soup.select content_images document)
          | None => first_content_image (Soup.select content_images document)
          end
      | None => first_content_image (Soup.select content_images document)
      end
  end.

(** The declared fields of the model [ScrapedNutrition]. *)
Definition nutrition_fields : list string :=
  [ "serving_size"; "calories"; "total_fat"; "saturated_fat"; "trans_fat";
    "cholesterol"; "sodium"; "total_carbohydrates"; "dietary_fiber";
    "sugars"; "added_sugars"; "protein"; "vitamin_d"; "calcium"; "iron";
    "potassium" ].

(** The model [ScrapedNutrition] built from the keyword arguments
    [nutrition_dict], then [.dict()]: the declared fields ([None] when
    absent), then the extra ones. *)
Definition ScrapedNutrition_dict (nutrition_dict : Dict.t string)
  : Dict.t json :=
  map (fun f => (f, json_opt_str (Dict.get f nutrition_dict))) nutrition_fields
  ++ as_json (filter (fun kv => negb (Soup.str_in (fst kv) nutrition_fields))
                     nutrition_dict).

Record ScrapedServingSize : Type := mkServing {
  size_label : string;
  nutrition : Dict.t string
}.

(** [serving_size.dict()] followed by
    [serving_dict['image_url'] = image_url]. *)
Definition serving_dict (serving_size : ScrapedServingSize)
           (image_url : option string) : json :=
  JDict (Dict.set "image_url" (json_opt_str image_url)
           [ ("size_label", JStr (size_label serving_size));
             ("nutrition", JDict (ScrapedNutrition_dict (nutrition serving_size))) ]).

Definition json_strs (l : list string) : json := JList (map JStr l).

(** [allergens.dict()] *)
Definition allergens_dict (a : ScrapedAllergens) : json :=
  JDict [ ("contains", json_strs (contains a));
          ("does_not_contain", json_strs (does_not_contain a));
          ("unknown", json_strs (unknown a));
          ("allergy_information", JStr (allergy_information a)) ].

(** [a or b] on strings. *)
Definition or_str (a b : string) : string := if Py.truthy a then a else b.

(** [NutritionScraper.extract_item_nutrition_data] *)
Definition extract_item_nutrition_data (item_url size_label fallback_title : string)
  : M (ScrapedServingSize * ScrapedAllergens * string * option string) :=
  doc <- fetch_page item_url ;;
  let title := or_str (extract_title doc) fallback_title in
  let nutrition_dict := extract_nutrition_table doc in
  let allergens := extract_allergens doc in
  let ingredients := extract_ingredients doc in
  let image_url := extract_item_image doc in
  let serving_size := mkServing (or_str size_label title) nutrition_dict in
  ret (serving_size, allergens, ingredients, image_url).

(** [d.get(k, default)] on a [Dict[str, str]]. *)
Definition get_or (k default : string) (d : Dict.t string) : string :=
  match Dict.get k d with Some v => v | None => default end.

(** Truthiness of a list. *)
Definition nonempty {A} (l : list A) : bool :=
  match l with [] => false | _ :: _ => true end.

(** [allergens.contains or allergens.does_not_contain or allergens.unknown] *)
Definition has_allergen_lists (a : ScrapedAllergens) : bool :=
  nonempty (contains a) || nonempty (does_not_contain a) || nonempty (unknown a).

(** The accumulators of the serving-size loop. *)
Definition variants_acc : Type :=
  (list json * ScrapedAllergens * string)%type.

(** [for i, opt in enumerate(options, 1): ...] of [process_menu_item]. *)
Fixpoint variants_loop (item_name : string) (options : list dropdown_option)
         (acc : variants_acc) : M variants_acc :=
  match options with
  | [] => ret acc
  | opt :: rest =>
      let '(serving_sizes, aggregated_allergens, aggregated_ingredients) := acc in
      let size_label := title opt in
      r <- extract_item_nutrition_data (url opt) size_label item_name ;;
      let '(serving_size, allergens, ingredients, image_url) := r in
      let serving_sizes := serving_sizes ++ [serving_dict serving_size image_url] in
      let aggregated_allergens :=
        if has_allergen_lists allergens then allergens else aggregated_allergens in
      let aggregated_ingredients :=
        if Py.truthy ingredients then ingredients else aggregated_ingredients in
      variants_loop item_name rest
                    (serving_sizes, aggregated_allergens, aggregated_ingredients)
  end.

(** The three assignments that close both branches of [process_menu_item]. *)
Definition with_nutrition (item : Dict.t json) (serving_sizes : list json)
           (allergens : ScrapedAllergens) (ingredients : string) : Dict.t json :=
  let item := Dict.set "nutritional_values"
                       (JDict [("serving_sizes", JList serving_sizes)]) item in
  let item := Dict.set "allergens" (allergens_dict allergens) item in
  Dict.set "ingredients" (JStr ingredients) item.

(** The undecorated body of [NutritionScraper.process_menu_item]. *)
Definition process_menu_item_body (item : Dict.t string) : M (Dict.t json) :=
  let item_url := get_or "url" "" item in
  let item_name := get_or "name" "" item in
  if negb (Py.truthy item_url) then ret (as_json item)
  else
    doc <- fetch_page item_url ;;
    let options := extract_dropdown_options doc in
    item' <-
      (if nonempty options then
         acc <- variants_loop item_name options ([], no_allergens, "") ;;
         let '(serving_sizes, aggregated_allergens, aggregated_ingredients) := acc in
         ret (with_nutrition (as_json item) serving_sizes
                             aggregated_allergens aggregated_ingredients)
       else
         r <- extract_item_nutrition_data item_url "1 serving" item_name ;;
         let '(serving_size, allergens, ingredients, image_url) := r in
         ret (with_nutrition (as_json item)
                             [serving_dict serving_size image_url]
                             allergens ingredients)) ;;
    sleep (rate_limit_delay config) ;;;
    ret item'.

(** [NutritionScraper.process_menu_item], decorated with
    [@with_error_handling(default_return={})]. *)
Definition process_menu_item (item : Dict.t string) : M (Dict.t json) :=
  with_error_handling [] (process_menu_item_body item).

(** One restaurant of the stage-2 output.  [None] is an absent key. *)
Record menu_info : Type := mkInfo {
  info_url : option string;
  info_logo : option string;
  info_items : option (list (Dict.t string));
  info_error : option string
}.

(** One restaurant of the stage-3 output. *)
Record enriched_info : Type := mkEnriched {
  enriched_url : string;
  enriched_logo : string;
  enriched_items : list (Dict.t json)
}.

(** The placeholder item of the [except] branch of [scrape]. *)
Definition placeholder_item (item : Dict.t string) (e : exn) : Dict.t json :=
  let d := Dict.set "nutritional_values"
                    (JDict [("serving_sizes", JList [])]) (as_json item) in
  let d := Dict.set "allergens" (JDict []) d in
  Dict.set "error" (JStr (exn_str e)) d.

(** [for j, item in enumerate(items, 1): try: ... except Exception: ...] *)
Fixpoint process_items (items : list (Dict.t string))
         (processed_items : list (Dict.t json)) : M (list (Dict.t json)) :=
  match items with
  | [] => ret processed_items
  | item :: rest =>
      entry <- try_except (process_menu_item item)
                          (fun e => ret (placeholder_item item e)) ;;
      process_items rest (processed_items ++ [entry])
  end.

Definition opt_or {A} (o : option A) (default : A) : A :=
  match o with Some a => a | None => default end.

(** [for i, (restaurant_name, info) in enumerate(menu_data.items(), 1)] *)
Fixpoint scrape_loop (entries : list (string * menu_info))
         (enriched_data : Dict.t enriched_info) : M (Dict.t enriched_info) :=
  match entries with
  | [] => ret enriched_data
  | (restaurant_name, info) :: rest =>
      let items := opt_or (info_items info) [] in
      processed_items <- process_items items [] ;;
      let enriched_data :=
        Dict.set restaurant_name
                 (mkEnriched (opt_or (info_url info) "")
                             (opt_or (info_logo info) "")
                             processed_items)
                 enriched_data in
      sleep 2 ;;;
      scrape_loop rest enriched_data
  end.

(** [NutritionScraper.scrape] *)
Definition NutritionScraper_scrape (menu_data : Dict.t menu_info)
  : M (Dict.t enriched_info) :=
  scrape_loop menu_data [].

(* =================================================================== *)
(** ** restaurant_scraper.py *)
(* =================================================================== *)

(** The name read from the label [div.logo_box_text] of a card: the
    first direct text node, else the full text without [" Nutrition"]. *)
Definition label_name (label : loc) : option string :=
  let fallback :=
    let text := Soup.get_text " " label in
    if Py.truthy text
    then Some (Py.strip (Py.replace " Nutrition" "" text))
    else None in
  match Soup.find_string_direct label with
  | Some raw_name =>
      if Py.truthy raw_name then Some (Py.strip raw_name) else fallback
  | None => fallback
  end.

Definition card_name (card : loc) : option string :=
  match Soup.find (Soup.tag_cls "div" ["logo_box_text"]) card with
  | Some label => label_name label
  | None => None
  end.

(** The body of [for card in cards]. *)
Definition restaurant_card (results_by_url : Dict.t (Dict.t string))
           (card : loc) : Dict.t (Dict.t string) :=
  match Soup.find (Soup.tag_attr "a" (Soup.HasAttr "href")) card with
  | None => results_by_url
  | Some anchor =>
      let absolute_url := urljoin (base_url config) (href anchor) in
      if opt_truthy (card_name card) && Py.truthy absolute_url
      then Dict.set absolute_url
                    [("name", opt_or (card_name card) "");
                     ("url", absolute_url)]
                    results_by_url
      else results_by_url
  end.

(** [RestaurantScraper.extract_restaurant_cards] *)
Definition extract_restaurant_cards (document : option loc)
  : list (Dict.t string) :=
  match document with
  | None => []
  | Some document =>
      match Soup.select_one [[Soup.cls_ ["rest_item_list"; "category"]]] document with
      | None => []
      | Some container =>
          let cards := Soup.select [[Soup.cls_ ["filter_target"]]] container in
          Dict.values (fold_left restaurant_card cards [])
      end
  end.

Definition restaurants_url : string :=
  (base_url config ++ "/fast-food-restaurants")%string.

(** [RestaurantScraper.scrape] *)
Definition RestaurantScraper_scrape : M (list (Dict.t string)) :=
  document <- fetch_page restaurants_url ;;
  ret (extract_restaurant_cards document).

(* =================================================================== *)
(** ** menu_item_scraper.py *)
(* =================================================================== *)

(** [MenuItemScraper.extract_logo_url] *)
Definition extract_logo_url (document : option loc) : string :=
  match document with
  | None => ""
  | Some document =>
      match Soup.select_one
              [[Soup.mkSimple (Some "img") None ["logo_float"]
                              [Soup.HasAttr "src"]]] document with
      | Some logo_img =>
          match Soup.attr "src" (snd logo_img) with
          | Some src =>
              if Py.truthy src then urljoin (base_url config) src else ""
          | None => ""
          end
      | None => ""
      end
  end.

Definition category_heading : Soup.selector :=
  [ [Soup.tag_cls "a" ["toggle_category"; "topround"; "nomobileround"; "toggle_div"];
     Soup.tag_ "h2"] ].

Definition category_items : Soup.selector :=
  [ [Soup.tag_cls "ul" ["list"; "rest_item_list"; "ab1"];
     Soup.tag_attr "a" (Soup.HasAttr "href")] ].

Definition anchor_item (category_name : string) (anchor : loc) : Dict.t string :=
  let item_name :=
    match Soup.find_string_direct anchor with
    | Some raw_name =>
        if Py.truthy raw_name then Py.strip raw_name
        else Soup.get_text " " anchor
    | None => Soup.get_text " " anchor
    end in
  [ ("name", item_name);
    ("url", urljoin (base_url config) (href anchor));
    ("category", category_name) ].

Definition category_block_items (category_block : loc) : list (Dict.t string) :=
  let category_name :=
    match Soup.select_one category_heading category_block with
    | Some heading => Soup.get_text "" heading
    | None => "Uncategorized"
    end in
  map (anchor_item category_name) (Soup.select category_items category_block).

(** De-duplicate by URL while preserving order. *)
Fixpoint unique_items (seen : list string) (items : list (Dict.t string))
  : list (Dict.t string) :=
  match items with
  | [] => []
  | item :: rest =>
      if Soup.str_in (get_or "url" "" item) seen
      then unique_items seen rest
      else item :: unique_items (get_or "url" "" item :: seen) rest
  end.

(** [MenuItemScraper.extract_menu_items] *)
Definition extract_menu_items (document : option loc) : list (Dict.t string) :=
  match document with
  | None => []
  | Some document =>
      let category_blocks :=
        Soup.select [[Soup.tag_cls "div" ["category"]]] document in
      unique_items [] (flat_map category_block_items category_blocks)
  end.

(** [MenuItemScraper.scrape_restaurant_menu] *)
Definition scrape_restaurant_menu (restaurant_name restaurant_url : string)
  : M (string * list (Dict.t string)) :=
  document <- fetch_page restaurant_url ;;
  let logo_url := extract_logo_url document in
  let menu_items := extract_menu_items document in
  ret (logo_url, menu_items).

(** The entry [scrape] stores for a restaurant whose page was scraped. *)
Definition scraped_entry (url : string) (r : string * list (Dict.t string))
  : menu_info :=
  mkInfo (Some url) (Some (fst r)) (Some (snd r)) None.

(** The placeholder [scrape] stores when the restaurant failed. *)
Definition placeholder_entry (url : string) (e : exn) : menu_info :=
  mkInfo (Some url) (Some "") (Some []) (Some (exn_str e)).

(** The body of [for i, restaurant in enumerate(restaurants, 1)]. *)
Definition menu_step (menu_index : Dict.t menu_info)
           (restaurant : Dict.t string) : M (Dict.t menu_info) :=
  let name := Dict.get "name" restaurant in
  let url := Dict.get "url" restaurant in
  if negb (opt_truthy name) || negb (opt_truthy url) then ret menu_index
  else
    let name := opt_or name "" in
    let url := opt_or url "" in
    try_except
      (r <- scrape_restaurant_menu name url ;;
       ret (Dict.set name (scraped_entry url r) menu_index))
      (fun e => ret (Dict.set name (placeholder_entry url e) menu_index)).

Fixpoint menu_loop (restaurants : list (Dict.t string))
         (menu_index : Dict.t menu_info) : M (Dict.t menu_info) :=
  match restaurants with
  | [] => ret menu_index
  | restaurant :: rest =>
      menu_index <- menu_step menu_index restaurant ;;
      menu_loop rest menu_index
  end.

(** [MenuItemScraper.scrape] *)
Definition MenuItemScraper_scrape (restaurants : list (Dict.t string))
  : M (Dict.t menu_info) :=
  menu_loop restaurants [].

(* =================================================================== *)
(** ** src/utils.py and main.py: checkpoints and stage 3 *)
(* =================================================================== *)

(** [DataPersistence.load_checkpoints].  Each checkpoint file is given by
    what [json.load] returns for it; [None] stands for a file that could
    not be read, which is logged and skipped. *)
Definition load_checkpoints (files : list (option (Dict.t json))) : Dict.t json :=
  fold_left (fun merged_data f =>
               match f with
               | Some checkpoint_data => Dict.update merged_data checkpoint_data
               | None => merged_data
               end) files [].

(** [for restaurant_name in checkpoints.keys():
       if restaurant_name in menu_data: del menu_data[restaurant_name]] *)
Definition drop_checkpointed (checkpoints : Dict.t json)
           (menu_data : Dict.t menu_info) : Dict.t menu_info :=
  fold_left (fun menu_data restaurant_name =>
               if Dict.mem restaurant_name menu_data
               then Dict.del restaurant_name menu_data
               else menu_data)
            (Dict.keys checkpoints) menu_data.

(** The input of stage 3. *)
Definition stage3_input (resume_from_checkpoint : bool)
           (checkpoints : Dict.t json) (menu_data : Dict.t menu_info)
  : Dict.t menu_info :=
  if resume_from_checkpoint && nonempty checkpoints
  then drop_checkpointed checkpoints menu_data
  else menu_data.

Definition enriched_json (e : enriched_info) : json :=
  JDict [ ("url", JStr (enriched_url e));
          ("restaurant_logo", JStr (enriched_logo e));
          ("items", JList (map JDict (enriched_items e))) ].

Definition enriched_data_json (d : Dict.t enriched_info) : Dict.t json :=
  map (fun kv => (fst kv, enriched_json (snd kv))) d.

(** The name Python gives to the type of a JSON value. *)
Definition type_name (v : json) : string :=
  match v with
  | JNull => "NoneType"
  | JBool _ => "bool"
  | JNum _ => "int"
  | JStr _ => "str"
  | JList _ => "list"
  | JDict _ => "dict"
  end.

Definition no_attribute_get (v : json) : exn :=
  AttributeError ("'" ++ type_name v ++ "' object has no attribute 'get'").

Definition not_iterable (v : json) : exn :=
  TypeError ("'" ++ type_name v ++ "' object is not iterable").

Definition no_len (v : json) : exn :=
  TypeError ("object of type '" ++ type_name v ++ "' has no len()").

(** [len(v)] *)
Definition py_len (v : json) : exn + nat :=
  match v with
  | JList l => inr (length l)
  | JStr s => inr (String.length s)
  | JDict d => inr (length d)
  | _ => inl (no_len v)
  end.

(** The values [for x in v] goes through: the elements of a list, the
    characters of a string, the keys of a dict. *)
Definition py_iter (v : json) : exn + list json :=
  match v with
  | JList l => inr l
  | JStr s => inr (map (fun c => JStr (String c EmptyString))
                       (list_ascii_of_string s))
  | JDict d => inr (map JStr (Dict.keys d))
  | _ => inl (not_iterable v)
  end.

(** [len(item.get('nutritional_values', {}).get('serving_sizes', []))] *)
Definition item_variations (item : json) : exn + nat :=
  match item with
  | JDict d =>
      match Dict.get "nutritional_values" d with
      | None => inr 0
      | Some (JDict nutritional_values) =>
          match Dict.get "serving_sizes" nutritional_values with
          | None => inr 0
          | Some serving_sizes => py_len serving_sizes
          end
      | Some v => inl (no_attribute_get v)
      end
  | _ => inl (no_attribute_get item)
  end.

(** [sum(f(x) for x in l)]: the first exception ends the sum. *)
Fixpoint sum_of {A : Type} (f : A -> exn + nat) (l : list A) : exn + nat :=
  match l with
  | [] => inr 0
  | x :: r =>
      match f x with
      | inl e => inl e
      | inr n =>
          match sum_of f r with
          | inl e => inl e
          | inr m => inr (n + m)
          end
      end
  end.

(** [sum(... for item in data.get('items', []))] *)
Definition restaurant_variations (data : json) : exn + nat :=
  match data with
  | JDict d =>
      match Dict.get "items" d with
      | None => inr 0
      | Some items =>
          match py_iter items with
          | inl e => inl e
          | inr l => sum_of item_variations l
          end
      end
  | _ => inl (no_attribute_get data)
  end.

(** [total_variations = sum(... for data in enriched_data.values())] *)
Definition total_variations (enriched_data : Dict.t json) : exn + nat :=
  sum_of restaurant_variations (Dict.values enriched_data).

(** [FastFoodNutritionScraper.scrape_nutrition_data]: the checkpoints
    are loaded when resuming, the scraper is a new [NutritionScraper],
    and the serving sizes of the result are counted for the log before
    the result is returned. *)
Definition scrape_nutrition_data (resume_from_checkpoint : bool)
           (files : list (option (Dict.t json)))
           (menu_data : Dict.t menu_info) : outcome (Dict.t json) :=
  let checkpoints :=
    if resume_from_checkpoint then load_checkpoints files else [] in
  let menu_data := stage3_input resume_from_checkpoint checkpoints menu_data in
  match NutritionScraper_scrape menu_data fresh_scraper with
  | (Ret enriched_data, _) =>
      let enriched_data :=
        if resume_from_checkpoint
        then Dict.merge checkpoints (enriched_data_json enriched_data)
        else enriched_data_json enriched_data in
      match total_variations enriched_data with
      | inr _ => Ret enriched_data
      | inl e => Raise e
      end
  | (Raise e, _) => Raise e
  end.

(* =================================================================== *)
(** ** Vocabulary of the statements about a site *)
(* =================================================================== *)

(** The pages [pages] are what [fetch_page] returns for [urls], fetched
    one after the other from the state [s] on; [s'] is the state after
    the last one. *)
Fixpoint fetched (s : scraper) (urls : list string) (pages : list node)
         (s' : scraper) : Prop :=
  match urls, pages with
  | [], [] => s' = s
  | u :: urls, p :: pages =>
      exists s1, fetch_page u s = (Ret (Some (root p)), s1)
                 /\ fetched s1 urls pages s'
  | _, _ => False
  end.

(** The clock never goes back. *)
Definition steady : Prop := forall n, (clock n <= clock (S n))%Q.

(** The rate limiter of a scraper in state [s] does not raise: it has to
    sleep for [rate_limit_delay] at most, which [time.sleep] accepts. *)
Definition calm (s : scraper) : Prop :=
  steady
  /\ (rate_limit_delay config <= sleep_limit)%Q
  /\ match limiter_last s with
     | Some last => (last <= clock (clock_reads s))%Q
     | None => True
     end.

(** The events of one [wait] of a calm rate limiter: it sleeps once at
    most, and then for [rate_limit_delay] at most. *)
Definition limiter_wait (t : list event) : Prop :=
  t = [RateLimitWait]
  \/ exists seconds,
       (0 < seconds)%Q /\ (seconds <= rate_limit_delay config)%Q
       /\ t = [RateLimitWait; LimiterSleep seconds].

(** What one serving-size page contributes. *)
Definition variant_result (item_name : string) (opt : dropdown_option)
           (pg : node)
  : ScrapedServingSize * ScrapedAllergens * string * option string :=
  let doc := Some (root pg) in
  (mkServing (or_str (title opt) (or_str (extract_title doc) item_name))
             (extract_nutrition_table doc),
   extract_allergens doc, extract_ingredients doc, extract_item_image doc).

Definition variant_step (item_name : string) (acc : variants_acc)
           (op : dropdown_option * node) : variants_acc :=
  let '(serving_sizes, aggregated_allergens, aggregated_ingredients) := acc in
  let '(serving_size, allergens, ingredients, image_url) :=
    variant_result item_name (fst op) (snd op) in
  (serving_sizes ++ [serving_dict serving_size image_url],
   if has_allergen_lists allergens then allergens else aggregated_allergens,
   if Py.truthy ingredients then ingredients else aggregated_ingredients).



End Scrapers.

(* ===================================================================== *)
(** ** Vocabulary of the statements *)
(* ===================================================================== *)

(** The test a row passes to reach the dictionary. *)
Definition row_kept (key_text value_text : string) : bool :=
  Py.truthy key_text
  && negb (Py.startswith_any (Py.lower key_text) header_prefixes)
  && (Py.truthy value_text
      && Py.truthy (Py.strip value_text)
      && negb (Soup.str_in (Py.strip value_text) placeholders)).

(** The last result that passes [nonempty], or [default] when none does:
    "last non-empty wins". *)
Definition last_nonempty {A : Type} (nonempty : A -> bool) (default : A)
           (results : list A) : A :=
  last (filter nonempty results) default.


(* ===================================================================== *)
(** ** Sample markup and sample sites *)
(* ===================================================================== *)

(** Sample markup. *)
Definition td (s : string) : node := Elem "td" [] [] [Text s].
Definition th (s : string) : node := Elem "th" [] [] [Text s].
Definition tr (cells : list node) : node := Elem "tr" [] [] cells.
Definition page (body : list node) : node := Elem "[document]" [] [] body.
Definition nutrition_page (rows : list node) : option loc :=
  Some (root (page [Elem "table" ["item_nutrition"] [] rows])).

(** [urljoin] of the site root and an absolute path. *)
Definition urljoin0 (base href : string) : string := (base ++ href)%string.

(** A clock that advances by one second from one reading to the next. *)
Definition clock0 : nat -> Q := fun n => inject_Z (Z.of_nat n).

(** The default configuration. *)
Definition config0 : ScraperConfig :=
  mkConfig "https://fastfoodnutrition.org" 3 1 30 (1 # 2).

(** A site that never answers. *)
Definition net_down : nat -> string -> string + node :=
  fun _ _ => inl "timed out".

(** A negative [retry_delay], and a negative [rate_limit_delay] (the
    environment variable [SCRAPER_RATE_LIMIT]). *)
Definition config_negative_retry : ScraperConfig :=
  mkConfig "https://fastfoodnutrition.org" 3 (-1) 30 (1 # 2).
Definition config_negative_rate : ScraperConfig :=
  mkConfig "https://fastfoodnutrition.org" 3 1 30 (-1 # 2).

(** Two failures, then an answer. *)
Definition net_flaky : nat -> string -> string + node :=
  fun n _ => match n with
             | 0 | 1 => inl "timed out"
             | _ => inr (page [])
             end.

Definition cheeseburger : Dict.t string :=
  [ ("name", "Cheeseburger");
    ("url", "https://fastfoodnutrition.org/burger-barn/cheeseburger");
    ("category", "Burgers") ].

Definition burger_barn_menu : Dict.t menu_info :=
  [ ("Burger Barn",
     mkInfo (Some "https://fastfoodnutrition.org/burger-barn") (Some "")
            (Some [cheeseburger]) None) ].

(** An item page without dropdown. *)
Definition plain_page : node :=
  page [ Elem "h1" [] [] [Text "Cheeseburger"];
         Elem "table" ["item_nutrition"] []
              [tr [td "Protein"; td "25g"; td "50%"]] ].

Definition net_plain : nat -> string -> string + node :=
  fun _ _ => inr plain_page.





(** An item page with two sizes, and the pages of the sizes. *)
Definition small_url : string :=
  "https://fastfoodnutrition.org/burger-barn/cheeseburger/small".
Definition large_url : string :=
  "https://fastfoodnutrition.org/burger-barn/cheeseburger/large".

Definition sized_page : node :=
  page [ Elem "div" ["dropdown-menu"] []
           [ Elem "a" [] [("href", "/burger-barn/cheeseburger/small")] [Text "Small"];
             Elem "a" [] [("href", "/burger-barn/cheeseburger/large")] [Text "Large"] ] ].

Definition small_page : node :=
  page [ Elem "div" [] [("id", "allergens")]
           [ Elem "div" ["col-12"] []
               [ Elem "strong" [] [] [Text "Contains"];
                 Elem "span" ["dot"] [] [Text "Milk"] ] ];
         Elem "div" [] [("id", "ingredients2")] [Text "Beef, Bun"] ].

Definition large_page : node := page [].

Definition net_sizes : nat -> string -> string + node :=
  fun _ u =>
    if String.eqb u small_url then inr small_page
    else if String.eqb u large_url then inr large_page
    else inr sized_page.

(** The page of the large size is down. *)
Definition net_large_down : nat -> string -> string + node :=
  fun _ u =>
    if String.eqb u small_url then inr small_page
    else if String.eqb u large_url then inl "timed out"
    else inr sized_page.

(** A page whose allergens section holds a paragraph and no list. *)
Definition advisory_page : node :=
  page [ Elem "div" [] [("id", "allergens")]
           [ Elem "p" [] [] [Text "Allergy information: cooked in shared fryers"] ] ].

Definition net_advisory : nat -> string -> string + node :=
  fun _ u =>
    if String.eqb u small_url then inr small_page
    else if String.eqb u large_url then inr advisory_page
    else inr sized_page.

(** A checkpoint of the shape stage 3 produces, a second restaurant, and
    a checkpoint that is not of that shape. *)
Definition burger_barn_checkpoint : json :=
  JDict [ ("url", JStr "https://fastfoodnutrition.org/burger-barn");
          ("restaurant_logo", JStr "");
          ("items",
           JList [ JDict [ ("name", JStr "Cheeseburger");
                           ("nutritional_values",
                            JDict [ ("serving_sizes",
                                     JList [ JDict [("size_label", JStr "1 serving")] ]) ]) ] ]) ].

Definition taco : Dict.t string :=
  [ ("name", "Taco");
    ("url", "https://fastfoodnutrition.org/taco-town/taco");
    ("category", "Tacos") ].

Definition two_menus : Dict.t menu_info :=
  [ ("Burger Barn",
     mkInfo (Some "https://fastfoodnutrition.org/burger-barn") (Some "")
            (Some [cheeseburger]) None);
    ("Taco Town",
     mkInfo (Some "https://fastfoodnutrition.org/taco-town") (Some "")
            (Some [taco]) None) ].

(** An item without url that carries a [nutritional_values] text. *)
Definition odd_menu : Dict.t menu_info :=
  [ ("Burger Barn",
     mkInfo (Some "https://fastfoodnutrition.org/burger-barn") (Some "")
            (Some [ [ ("name", "Cheeseburger"); ("nutritional_values", "n/a") ] ])
            None) ].

Definition taco_bell_label : node :=
  Elem "div" ["logo_box_text"] []
       [ Text "Taco Bell"; Elem "span" [] [] [Text " Nutrition"] ].

(** A card whose label has no text of its own. *)
Definition sports_label : node :=
  Elem "div" ["logo_box_text"] []
       [ Elem "b" [] [] [Text "Sports Nutrition Depot"];
         Elem "span" [] [] [Text " Nutrition"] ].

Definition sports_listing : node :=
  page [ Elem "div" ["rest_item_list"; "category"] []
           [ Elem "div" ["filter_target"] []
               [ Elem "a" [] [("href", "/sports-nutrition-depot")]
                      [sports_label] ] ] ].

(** Two listed restaurants with the same name. *)
Definition subway : Dict.t string :=
  [ ("name", "Subway"); ("url", "https://fastfoodnutrition.org/subway") ].
Definition subway_cafe : Dict.t string :=
  [ ("name", "Subway"); ("url", "https://fastfoodnutrition.org/subway-cafe") ].

Definition subway_page : node :=
  page [ Elem "img" ["logo_float"] [("src", "/logos/subway.png")] [];
         Elem "div" ["category"] []
           [ Elem "a" ["toggle_category"; "topround"; "nomobileround"; "toggle_div"]
                  [] [Elem "h2" [] [] [Text "Sandwiches"]];
             Elem "ul" ["list"; "rest_item_list"; "ab1"] []
                  [ Elem "li" [] []
                      [Elem "a" [] [("href", "/subway/blt")] [Text "BLT"]] ] ] ].

(** The first request is answered, the later ones fail. *)
Definition net_first_only : nat -> string -> string + node :=
  fun n _ => match n with 0 => inr subway_page | _ => inl "timed out" end.

(* ===================================================================== *)
(** ** base_scraper.py: the success rate *)
(* ===================================================================== *)

(** [ScraperStats.get_success_rate] *)
Definition get_success_rate (st : ScraperStats) : Q :=
  if total_requests st =? 0 then 0%Q
  else (inject_Z (Z.of_nat (successful_requests st))
        / inject_Z (Z.of_nat (total_requests st)) * 100)%Q.

(** Every request counted is counted as a success or as a failure. *)
Definition accounted (st : ScraperStats) : Prop :=
  total_requests st = successful_requests st + failed_requests st.


(* ===================================================================== *)
(** ** src/utils.py: file names *)
(* ===================================================================== *)

(** [s[:n]] for [n >= 0]. *)
Fixpoint take_str (n : nat) (s : string) : string :=
  match n, s with
  | S n', String c r => String c (take_str n' r)
  | _, _ => EmptyString
  end.

(** [s.endswith(p)]: a suffix of [s] is [p]. *)
Fixpoint endswith (s p : string) : bool :=
  String.eqb s p
  || match s with
     | EmptyString => false
     | String _ r => endswith r p
     end.

(** All characters of [s] pass [p]. *)
Fixpoint all_chars (p : ascii -> bool) (s : string) : bool :=
  match s with
  | EmptyString => true
  | String c r => p c && all_chars p r
  end.

(** The backslash, and the three characters [save_checkpoint] replaces:
    space, slash and backslash. *)
Definition backslash : string := String (ascii_of_nat 92) EmptyString.
Definition path_chars : string := " /" ++ backslash.

(** The sanitised name of [save_checkpoint]: the name with its spaces,
    then its slashes, then its backslashes replaced by ['_']. *)
Definition safe_name (checkpoint_name : string) : string :=
  Py.replace backslash "_" (Py.replace "/" "_" (Py.replace " " "_" checkpoint_name)).

(** [f"checkpoint_{safe_name}.json"] *)
Definition checkpoint_filename (checkpoint_name : string) : string :=
  "checkpoint_" ++ safe_name checkpoint_name ++ ".json".

(** A file name matches the pattern ["checkpoint_*.json"] of
    [load_checkpoints]. *)
Definition matches_checkpoint_pattern (filename : string) : bool :=
  Py.startswith filename "checkpoint_"
  && endswith filename ".json"
  && (String.length "checkpoint_" + String.length ".json" <=? String.length filename).

(** The characters [sanitize_filename] replaces: less-than, greater-than,
    colon, double quote, slash, backslash, bar, question mark, star. *)
Definition unsafe_chars : string :=
  "<>:" ++ String (ascii_of_nat 34) ("/" ++ backslash ++ "|?*").

(** [for char in unsafe_chars: filename = filename.replace(char, '_')] *)
Fixpoint replace_each (chars : string) (filename : string) : string :=
  match chars with
  | EmptyString => filename
  | String char rest =>
      replace_each rest (Py.replace (String char EmptyString) "_" filename)
  end.

(** [sanitize_filename] *)
Definition sanitize_filename (filename : string) : string :=
  let filename := replace_each unsafe_chars filename in
  let filename := Py.strip_chars ". " filename in
  let max_length := 200 in
  if max_length <? String.length filename
  then take_str max_length filename
  else filename.

(* ===================================================================== *)
(** ** main.py: the filters of stages 1 and 2 *)
(* ===================================================================== *)

(** [l[:n]]: the first [n] elements, or all but the last [-n] ones when
    [n] is negative. *)
Definition slice_to {A : Type} (n : Z) (l : list A) : list A :=
  if (0 <=? n)%Z
  then firstn (Z.to_nat n) l
  else firstn (length l - Z.to_nat (- n)) l.

(** [[r for r in restaurants if r['name'] in specific_restaurants]];
    [None] stands for the [KeyError] of a restaurant without ['name']. *)
Fixpoint keep_specific (specific_restaurants : list string)
         (restaurants : list (Dict.t string)) : option (list (Dict.t string)) :=
  match restaurants with
  | [] => Some []
  | r :: rest =>
      match Dict.get "name" r with
      | None => None
      | Some name =>
          match keep_specific specific_restaurants rest with
          | None => None
          | Some kept =>
              Some (if Soup.str_in name specific_restaurants
                    then r :: kept else kept)
          end
      end
  end.

(** What [FastFoodNutritionScraper.scrape_restaurants] does to the result
    of the scraper: the filter by name when [specific_restaurants] is a
    non-empty list, then the cap when [max_restaurants] is a non-zero
    number. *)
Definition select_restaurants (specific_restaurants : option (list string))
           (max_restaurants : option Z) (restaurants : list (Dict.t string))
  : option (list (Dict.t string)) :=
  let filtered :=
    match specific_restaurants with
    | Some (n :: l) => keep_specific (n :: l) restaurants
    | _ => Some restaurants
    end in
  match filtered with
  | None => None
  | Some restaurants =>
      Some (match max_restaurants with
            | Some m => if (m =? 0)%Z then restaurants else slice_to m restaurants
            | None => restaurants
            end)
  end.

(** The item cap of [FastFoodNutritionScraper.scrape_menu_items] on one
    restaurant. *)
Definition limit_entry (max_items : Z) (data : menu_info) : menu_info :=
  let items := opt_or (info_items data) [] in
  if (max_items <? Z.of_nat (length items))%Z
  then mkInfo (info_url data) (info_logo data) (Some (slice_to max_items items))
              (info_error data)
  else data.

(** [if self.settings.max_items_per_restaurant: for ... in menu_data.items()] *)
Definition limit_items (max_items_per_restaurant : option Z)
           (menu_data : Dict.t menu_info) : Dict.t menu_info :=
  match max_items_per_restaurant with
  | Some m =>
      if (m =? 0)%Z then menu_data
      else map (fun kv => (fst kv, limit_entry m (snd kv))) menu_data
  | None => menu_data
  end.

Section MorePipeline.
Variable urljoin : string -> string -> string.
Variable net : nat -> string -> string + node.
Variable clock : nat -> Q.
Variable config : ScraperConfig.

(** [FastFoodNutritionScraper.scrape_menu_items]: a new [MenuItemScraper]
    scrapes, then the items are capped. *)
Definition scrape_menu_items (max_items_per_restaurant : option Z)
           (restaurants : list (Dict.t string)) : outcome (Dict.t menu_info) :=
  match MenuItemScraper_scrape urljoin net clock config restaurants fresh_scraper with
  | (Ret menu_data, _) => Ret (limit_items max_items_per_restaurant menu_data)
  | (Raise e, _) => Raise e
  end.

End MorePipeline.
(* ===================================================================== *)
(** ** More vocabulary of the statements *)
(* ===================================================================== *)

(** The last character of a string. *)
Fixpoint last_char (s : string) : option ascii :=
  match s with
  | EmptyString => None
  | String c EmptyString => Some c
  | String _ r => last_char r
  end.

(** A character of a snake-cased name: alphanumeric and unchanged by
    [str.lower], or the underscore. *)
Definition snake_char (c : ascii) : bool :=
  (Py.isalnum c && Ascii.eqb (Py.lower_char c) c) || Ascii.eqb c "_".

(** Every member of the three lists is a non-empty string, and the note
    is empty or mentions allergies. *)
Definition allergens_wellformed (a : ScrapedAllergens) : Prop :=
  Forall (fun x => Py.truthy x = true) (contains a)
  /\ Forall (fun x => Py.truthy x = true) (does_not_contain a)
  /\ Forall (fun x => Py.truthy x = true) (unknown a)
  /\ (allergy_information a = ""
      \/ Py.contains (Py.lower (allergy_information a)) "allergy" = true
      \/ Py.contains (Py.lower (allergy_information a)) "allergen" = true).

(** Computations that keep a property of the statistics. *)
Definition keeps_stats (P : ScraperStats -> Prop) {A : Type} (m : M A) : Prop :=
  forall s, P (stats s) -> P (stats (snd (m s))).
(** What the index of [MenuItemScraper.scrape] holds once the loop has
    gone through the restaurants [done]: one entry for each name of a
    restaurant with a non-empty name and url, either scraped or the
    placeholder of a failure. *)
Definition index_of (done : list (Dict.t string))
           (menu_index : Dict.t menu_info) : Prop :=
  NoDup (Dict.keys menu_index)
  /\ (forall k,
         In k (Dict.keys menu_index) <->
         exists r url,
           In r done /\ Dict.get "name" r = Some k /\ Dict.get "url" r = Some url
           /\ Py.truthy k = true /\ Py.truthy url = true)
  /\ (forall k info,
         Dict.get k menu_index = Some info ->
         exists r url,
           In r done /\ Dict.get "name" r = Some k /\ Dict.get "url" r = Some url
           /\ ((exists logo items,
                   info = mkInfo (Some url) (Some logo) (Some items) None)
               \/ (exists msg,
                      info = mkInfo (Some url) (Some "") (Some []) (Some msg)))).
(** The invariant of the loop over the cards of the listing: one entry
    for each url, made of a non-empty name and that url. *)
Definition cards_ok (results_by_url : Dict.t (Dict.t string)) : Prop :=
  NoDup (Dict.keys results_by_url)
  /\ forall u r, In (u, r) results_by_url ->
                 exists n, r = [("name", n); ("url", u)]
                           /\ Py.truthy n = true /\ Py.truthy u = true.

(* ===================================================================== *)
(** * Properties *)
(* ===================================================================== *)

(** ** The fetch primitive *)

Section FetchFacts.
Variable urljoin : string -> string -> string.
Variable net : nat -> string -> string + node.
Variable clock : nat -> Q.
Variable config : ScraperConfig.

Lemma sleeps_app t1 t2 : sleeps (t1 ++ t2) = sleeps t1 ++ sleeps t2.
Proof.
  induction t1 as [|[| |u|q] t1 IH]; cbn; rewrite ?IH; reflexivity.
Qed.

Lemma outline_app t1 t2 : outline (t1 ++ t2) = outline t1 ++ outline t2.
Proof.
  induction t1 as [|[| |u|q] t1 IH]; cbn; rewrite ?IH; reflexivity.
Qed.

Lemma sleeps_outline t : sleeps (outline t) = sleeps t.
Proof.
  induction t as [|[| |u|q] t IH]; cbn; rewrite ?IH; reflexivity.
Qed.

Lemma limiter_sleeps_app t1 t2 :
  limiter_sleeps (t1 ++ t2) = limiter_sleeps t1 ++ limiter_sleeps t2.
Proof.
  induction t1 as [|[| |u|q] t1 IH]; cbn; rewrite ?IH; reflexivity.
Qed.

(** A wait of the rate limiter is neither a request nor a sleep of the
    scraper. *)
Lemma limiter_wait_outline t :
  limiter_wait config t -> outline t = [] /\ sleeps t = [].
Proof. intros [->|(d & _ & _ & ->)]; split; reflexivity. Qed.

Lemma limiter_wait_sleeps t :
  limiter_wait config t ->
  length (limiter_sleeps t) <= 1
  /\ Forall (fun d => (0 < d)%Q /\ (d <= rate_limit_delay config)%Q)
            (limiter_sleeps t).
Proof.
  intros [->|(d & H0 & H1 & ->)]; cbn; split; auto.
Qed.

(** A delay that [time.sleep] accepts is slept. *)
Lemma sleep_as_ok (label : Q -> event) (seconds : Q) (s : scraper) :
  sleepable seconds ->
  sleep_as label seconds s
  = (Ret tt, mkScraper (stats s) (sent s) (trace s ++ [label seconds])
                       (limiter_last s) (clock_reads s)).
Proof.
  intros [H0 H1]. unfold sleep_as.
  assert (E0 : Qle_bool 0 seconds = true) by (apply Qle_bool_iff; exact H0).
  assert (E1 : Qle_bool seconds sleep_limit = true) by (apply Qle_bool_iff; exact H1).
  assert (E2 : Qle_bool sleep_floor seconds = true).
  { apply Qle_bool_iff. apply Qle_trans with (y := 0%Q); [|exact H0].
    unfold sleep_floor, Qle. cbn. lia. }
  rewrite E0, E1, E2. reflexivity.
Qed.

(** States that differ by what a rate limiter does not look at. *)
Lemma calm_frame (s s' : scraper) :
  limiter_last s' = limiter_last s ->
  clock_reads s' = clock_reads s ->
  calm clock config s -> calm clock config s'.
Proof. unfold calm. intros -> ->. tauto. Qed.

(** A calm rate limiter lets the scraper through. *)
Lemma rate_limiter_wait_calm (s : scraper) :
  calm clock config s ->
  exists s' t,
    rate_limiter_wait clock config s = (Ret tt, s')
    /\ calm clock config s'
    /\ stats s' = stats s
    /\ sent s' = sent s
    /\ trace s' = trace s ++ t
    /\ limiter_wait config t.
Proof.
  intros (Hst & Hlim & Hlast). unfold rate_limiter_wait, bind, emit. cbn.
  destruct (limiter_last s) as [last|] eqn:El.
  - destruct (Qlt_le_dec (clock (clock_reads s) - last) (rate_limit_delay config))
      as [Hlt|Hge].
    + rewrite sleep_as_ok; [|cbn in *; split; lra].
      cbn. eexists _, _. split; [reflexivity|]. cbn.
      split; [split; [exact Hst|]; split; [exact Hlim|]; cbn; apply Hst|].
      split; [reflexivity|]. split; [reflexivity|].
      split; [rewrite <- app_assoc; reflexivity|].
      right. eexists. split; [|split; [|reflexivity]]; cbn in *; lra.
    + cbn. eexists _, [RateLimitWait]. split; [reflexivity|]. cbn.
      split; [split; [exact Hst|]; split; [exact Hlim|]; cbn; apply Hst|].
      repeat split; try reflexivity. left. reflexivity.
  - cbn. eexists _, [RateLimitWait]. split; [reflexivity|]. cbn.
    split; [split; [exact Hst|]; split; [exact Hlim|]; cbn; apply Hst|].
    repeat split; try reflexivity. left. reflexivity.
Qed.

(** With a calm rate limiter an attempt is one request, and it fails when
    the request does. *)
Lemma attempt_calm (url : string) (s : scraper) :
  calm clock config s ->
  exists s' t,
    attempt net clock config url s
    = (Ret (match net (sent s) url with
            | inl e => inl e
            | inr doc => inr (root doc)
            end), s')
    /\ calm clock config s'
    /\ stats s' = stats s
    /\ sent s' = S (sent s)
    /\ trace s' = trace s ++ t ++ [Get url]
    /\ limiter_wait config t.
Proof.
  intros Hc. destruct (rate_limiter_wait_calm s Hc)
    as (s1 & t & E & Hc1 & Hst & Hse & Htr & Ho).
  unfold attempt, try_except, bind. rewrite E. unfold session_get. cbn.
  eexists _, t. rewrite Hse. split; [reflexivity|]. cbn.
  split; [exact (calm_frame s1 _ eq_refl eq_refl Hc1)|].
  rewrite Hst, Htr, <- app_assoc. repeat split; try reflexivity. exact Ho.
Qed.

Lemma fetch_attempts_ok url mr rd k a s soup s1 :
  attempt net clock config url s = (Ret (inr soup), s1) ->
  fetch_attempts net clock config url mr rd (S k) a s
  = (Ret (Some soup),
     mkScraper (stats_record_success (stats s1)) (sent s1) (trace s1)
               (limiter_last s1) (clock_reads s1)).
Proof. intros E. cbn [fetch_attempts]. unfold bind. rewrite E. reflexivity. Qed.

Lemma fetch_attempts_give_up url mr rd k a s e s1 :
  attempt net clock config url s = (Ret (inl e), s1) ->
  (Z.of_nat a <? mr - 1)%Z = false ->
  fetch_attempts net clock config url mr rd (S k) a s
  = (Raise (NetworkException (fetch_failure_message url mr e)),
     mkScraper (stats_record_failure (stats_record_retry (stats s1))) (sent s1)
               (trace s1) (limiter_last s1) (clock_reads s1)).
Proof.
  intros E Hlt. cbn [fetch_attempts]. unfold bind. rewrite E. cbn. rewrite Hlt.
  reflexivity.
Qed.

Lemma fetch_attempts_retry url mr rd k a s e s1 :
  attempt net clock config url s = (Ret (inl e), s1) ->
  (Z.of_nat a <? mr - 1)%Z = true ->
  sleepable (backoff rd a) ->
  fetch_attempts net clock config url mr rd (S k) a s
  = fetch_attempts net clock config url mr rd k (S a)
      (mkScraper (stats_record_retry (stats s1)) (sent s1)
                 (trace s1 ++ [Sleep (backoff rd a)])
                 (limiter_last s1) (clock_reads s1)).
Proof.
  intros E Hlt Hsl. cbn [fetch_attempts]. unfold bind at 1. rewrite E.
  unfold bind at 1. cbn [record_retry update_stats fst snd]. rewrite Hlt.
  unfold bind at 1, sleep. rewrite (sleep_as_ok Sleep _ _ Hsl). reflexivity.
Qed.

(** What a run of the retry loop leaves behind, whatever the network
    answers, when the rate limiter is calm and the backoff delays are
    accepted by [time.sleep]. *)
Lemma fetch_attempts_outcome (url : string) (mr : Z) (rd : Q) :
  forall k a s,
    Z.of_nat (a + S k) = mr ->
    calm clock config s ->
    (forall i, a <= i < a + k -> sleepable (backoff rd i)) ->
    exists n o s',
      1 <= n <= S k
      /\ fetch_attempts net clock config url mr rd (S k) a s = (o, s')
      /\ calm clock config s'
      /\ sent s' = sent s + n
      /\ total_requests (stats s') = total_requests (stats s) + 1
      /\ outline (trace s')
         = outline (trace s)
             ++ flat_map (fun i => [Get url; Sleep (backoff rd i)]) (seq a (n - 1))
             ++ [Get url]
      /\ (exists t, trace s' = t ++ [Get url])
      /\ (exists ls,
             limiter_sleeps (trace s') = limiter_sleeps (trace s) ++ ls
             /\ length ls <= n
             /\ Forall (fun d => (0 < d)%Q /\ (d <= rate_limit_delay config)%Q) ls)
      /\ (forall i, i < n - 1 -> exists e, net (sent s + i) url = inl e)
      /\ ((exists doc,
              o = Ret (Some (root doc))
              /\ net (sent s + (n - 1)) url = inr doc
              /\ successful_requests (stats s') = successful_requests (stats s) + 1
              /\ failed_requests (stats s') = failed_requests (stats s)
              /\ total_retries (stats s') = total_retries (stats s) + (n - 1))
          \/ (exists e,
                 o = Raise (NetworkException (fetch_failure_message url mr e))
                 /\ net (sent s + (n - 1)) url = inl e
                 /\ n = S k
                 /\ successful_requests (stats s') = successful_requests (stats s)
                 /\ failed_requests (stats s') = failed_requests (stats s) + 1
                 /\ total_retries (stats s') = total_retries (stats s) + n)).
Proof.
  induction k as [|k IH]; intros a s Hmr Hc Hsl;
    destruct (attempt_calm url s Hc) as (s1 & t & E & Hc1 & Hst & Hse & Htr & Hw);
    destruct (limiter_wait_outline t Hw) as [Ho _];
    destruct (limiter_wait_sleeps t Hw) as [Hl1 Hl2];
    destruct (net (sent s) url) as [e|doc] eqn:En.
  - exists 1. eexists _, _. split; [lia|].
    split; [apply (fetch_attempts_give_up url mr rd 0 a s e s1 E);
            apply Z.ltb_ge; lia|].
    cbn [stats sent trace limiter_last clock_reads].
    split; [exact (calm_frame s1 _ eq_refl eq_refl Hc1)|].
    rewrite Hst, Hse, Htr. cbn.
    split; [lia|]. split; [lia|].
    split; [rewrite !outline_app, Ho; reflexivity|].
    split; [exists (trace s ++ t); rewrite <- app_assoc; reflexivity|].
    split.
    { exists (limiter_sleeps t). rewrite !limiter_sleeps_app. cbn.
      rewrite app_nil_r. auto. }
    split; [intros i Hi; lia|].
    right. exists e. rewrite Nat.add_0_r. repeat split; try lia. exact En.
  - exists 1. eexists _, _. split; [lia|].
    split; [apply (fetch_attempts_ok url mr rd 0 a s _ s1 E)|].
    cbn [stats sent trace limiter_last clock_reads].
    split; [exact (calm_frame s1 _ eq_refl eq_refl Hc1)|].
    rewrite Hst, Hse, Htr. cbn.
    split; [lia|]. split; [lia|].
    split; [rewrite !outline_app, Ho; reflexivity|].
    split; [exists (trace s ++ t); rewrite <- app_assoc; reflexivity|].
    split.
    { exists (limiter_sleeps t). rewrite !limiter_sleeps_app. cbn.
      rewrite app_nil_r. auto. }
    split; [intros i Hi; lia|].
    left. exists doc. rewrite Nat.add_0_r. repeat split; try lia. exact En.
  - rewrite (fetch_attempts_retry url mr rd (S k) a s e s1 E)
      by (try (apply Z.ltb_lt; lia); apply Hsl; lia).
    set (s2 := mkScraper (stats_record_retry (stats s1)) (sent s1)
                         (trace s1 ++ [Sleep (backoff rd a)])
                         (limiter_last s1) (clock_reads s1)).
    assert (Hc2 : calm clock config s2)
      by (exact (calm_frame s1 s2 eq_refl eq_refl Hc1)).
    destruct (IH (S a) s2 ltac:(lia) Hc2 ltac:(intros i Hi; apply Hsl; lia))
      as (n & o & s' & Hn & Hrun & Hc' & Hsent & Htot & Hout & Hend
          & (ls & Hls & Hlen & Hall) & Hfail & Hres).
    exists (S n), o, s'.
    cbn [s2 sent stats trace stats_record_retry total_requests
            successful_requests failed_requests total_retries] in *.
    rewrite Hst, Hse, Htr in *.
    split; [lia|]. split; [exact Hrun|]. split; [exact Hc'|].
    split; [lia|]. split; [exact Htot|].
    split.
    { rewrite Hout. replace (S n - 1) with (S (n - 1)) by lia.
      cbn [seq flat_map]. rewrite !outline_app, Ho. cbn [outline app].
      rewrite <- !app_assoc. reflexivity. }
    split; [exact Hend|].
    split.
    { exists (limiter_sleeps t ++ ls). rewrite Hls, !limiter_sleeps_app. cbn.
      rewrite !app_nil_r, <- app_assoc. split; [reflexivity|].
      split; [rewrite length_app; lia | apply Forall_app; auto]. }
    split.
    { intros i Hi. destruct i as [|i].
      - rewrite Nat.add_0_r. eauto.
      - replace (sent s + S i) with (S (sent s) + i) by lia.
        apply Hfail. lia. }
    replace (sent s + (S n - 1)) with (S (sent s) + (n - 1)) by lia.
    destruct Hres as [(doc & Ho' & Hd & H1 & H2 & H3)
                     | (e' & Ho' & He & Hk & H1 & H2 & H3)].
    + left. exists doc. repeat split; try assumption; lia.
    + right. exists e'. repeat split; try assumption; lia.
  - exists 1. eexists _, _. split; [lia|].
    split; [apply (fetch_attempts_ok url mr rd (S k) a s _ s1 E)|].
    cbn [stats sent trace limiter_last clock_reads].
    split; [exact (calm_frame s1 _ eq_refl eq_refl Hc1)|].
    rewrite Hst, Hse, Htr. cbn.
    split; [lia|]. split; [lia|].
    split; [rewrite !outline_app, Ho; reflexivity|].
    split; [exists (trace s ++ t); rewrite <- app_assoc; reflexivity|].
    split.
    { exists (limiter_sleeps t). rewrite !limiter_sleeps_app. cbn.
      rewrite app_nil_r. auto. }
    split; [intros i Hi; lia|].
    left. exists doc. rewrite Nat.add_0_r. repeat split; try lia. exact En.
Qed.


(** C2.  The rate limiter is calm and [time.sleep] accepts the two
    delays [retry_delay * 2^0] and [retry_delay * 2^1].  With
    [max_retries = 3]: two failed attempts followed by a successful one
    return the parsed document, with 2 more retries, 1 more success and
    no more failure in the statistics; three failed attempts raise
    [NetworkException], with exactly 1 more failure.  In both cases the
    scraper sleeps [retry_delay * 2^0] after the first failed request and
    [retry_delay * 2^1] after the second, each attempt is a wait of the
    rate limiter followed by the request, and nothing follows the last
    request.  For any positive [max_retries], when all attempts fail the
    call raises, records exactly one failure, and its sleeps are
    [retry_delay * 2^i] for [i] from 0 to [max_retries - 2]. *)
Theorem fetch_page_retry_backoff (url : string) (s : scraper) :
  calm clock config s ->
  (max_retries config = 3%Z ->
   sleepable (retry_delay config * inject_Z (2 ^ 0)) ->
   sleepable (retry_delay config * inject_Z (2 ^ 1)) ->
   (forall e1 e2 doc,
       net (sent s) url = inl e1 ->
       net (sent s + 1) url = inl e2 ->
       net (sent s + 2) url = inr doc ->
       exists s' w1 w2 w3,
         fetch_page net clock config url s = (Ret (Some (root doc)), s')
         /\ total_retries (stats s') = total_retries (stats s) + 2
         /\ successful_requests (stats s') = successful_requests (stats s) + 1
         /\ failed_requests (stats s') = failed_requests (stats s)
         /\ limiter_wait config w1 /\ limiter_wait config w2
         /\ limiter_wait config w3
         /\ trace s' = trace s
              ++ w1 ++ [Get url; Sleep (retry_delay config * inject_Z (2 ^ 0))]
              ++ w2 ++ [Get url; Sleep (retry_delay config * inject_Z (2 ^ 1))]
              ++ w3 ++ [Get url])
   /\
   (forall e1 e2 e3,
       net (sent s) url = inl e1 ->
       net (sent s + 1) url = inl e2 ->
       net (sent s + 2) url = inl e3 ->
       exists s' w1 w2 w3,
         fetch_page net clock config url s
         = (Raise (NetworkException (fetch_failure_message url 3 e3)), s')
         /\ total_retries (stats s') = total_retries (stats s) + 3
         /\ successful_requests (stats s') = successful_requests (stats s)
         /\ failed_requests (stats s') = failed_requests (stats s) + 1
         /\ limiter_wait config w1 /\ limiter_wait config w2
         /\ limiter_wait config w3
         /\ trace s' = trace s
              ++ w1 ++ [Get url; Sleep (retry_delay config * inject_Z (2 ^ 0))]
              ++ w2 ++ [Get url; Sleep (retry_delay config * inject_Z (2 ^ 1))]
              ++ w3 ++ [Get url]))
  /\
  (forall n,
      max_retries config = Z.of_nat (S n) ->
      (forall i, i < n ->
                 sleepable (retry_delay config * inject_Z (2 ^ Z.of_nat i))) ->
      (forall i, i <= n -> exists e, net (sent s + i) url = inl e) ->
      exists e s',
        fetch_page net clock config url s
        = (Raise (NetworkException
                    (fetch_failure_message url (max_retries config) e)), s')
        /\ failed_requests (stats s') = failed_requests (stats s) + 1
        /\ total_retries (stats s') = total_retries (stats s) + S n
        /\ sleeps (trace s')
           = sleeps (trace s)
               ++ map (fun i => (retry_delay config * inject_Z (2 ^ Z.of_nat i))%Q)
                      (seq 0 n)
        /\ exists t, trace s' = t ++ [Get url]).
Proof.
  intros Hc. split; [intros Hmr Hd0 Hd1; split|].
  - intros e1 e2 doc H1 H2 H3.
    unfold fetch_page, fetch_page_with. cbn [or_int or_float]. rewrite Hmr.
    change (Z.to_nat 3) with 3.
    destruct (attempt_calm url s Hc) as (s1 & w1 & E1 & Hc1 & St1 & Se1 & Tr1 & W1).
    rewrite H1 in E1.
    rewrite (fetch_attempts_retry url 3 _ 2 0 s e1 s1 E1 eq_refl Hd0).
    match goal with |- context [fetch_attempts _ _ _ _ _ _ 2 1 ?st] =>
      set (s1' := st) end.
    assert (Hc1' : calm clock config s1')
      by (exact (calm_frame s1 s1' eq_refl eq_refl Hc1)).
    destruct (attempt_calm url s1' Hc1')
      as (s2 & w2 & E2 & Hc2 & St2 & Se2 & Tr2 & W2).
    cbn [s1' sent] in E2. rewrite Se1 in E2.
    replace (S (sent s)) with (sent s + 1) in E2 by lia. rewrite H2 in E2.
    rewrite (fetch_attempts_retry url 3 _ 1 1 s1' e2 s2 E2 eq_refl Hd1).
    match goal with |- context [fetch_attempts _ _ _ _ _ _ 1 2 ?st] =>
      set (s2' := st) end.
    assert (Hc2' : calm clock config s2')
      by (exact (calm_frame s2 s2' eq_refl eq_refl Hc2)).
    destruct (attempt_calm url s2' Hc2')
      as (s3 & w3 & E3 & Hc3 & St3 & Se3 & Tr3 & W3).
    cbn [s2' sent] in E3. rewrite Se2 in E3. cbn [s1' sent] in E3.
    rewrite Se1 in E3.
    replace (S (S (sent s))) with (sent s + 2) in E3 by lia. rewrite H3 in E3.
    rewrite (fetch_attempts_ok url 3 _ 0 2 s2' _ s3 E3).
    eexists _, w1, w2, w3. split; [reflexivity|].
    cbn [stats sent trace]. rewrite St3, Tr3. cbn [s2' stats trace].
    rewrite St2, Tr2. cbn [s1' stats trace]. rewrite St1, Tr1. cbn.
    repeat split; try lia; try assumption.
    rewrite <- !app_assoc. reflexivity.
  - intros e1 e2 e3 H1 H2 H3.
    unfold fetch_page, fetch_page_with. cbn [or_int or_float]. rewrite Hmr.
    change (Z.to_nat 3) with 3.
    destruct (attempt_calm url s Hc) as (s1 & w1 & E1 & Hc1 & St1 & Se1 & Tr1 & W1).
    rewrite H1 in E1.
    rewrite (fetch_attempts_retry url 3 _ 2 0 s e1 s1 E1 eq_refl Hd0).
    match goal with |- context [fetch_attempts _ _ _ _ _ _ 2 1 ?st] =>
      set (s1' := st) end.
    assert (Hc1' : calm clock config s1')
      by (exact (calm_frame s1 s1' eq_refl eq_refl Hc1)).
    destruct (attempt_calm url s1' Hc1')
      as (s2 & w2 & E2 & Hc2 & St2 & Se2 & Tr2 & W2).
    cbn [s1' sent] in E2. rewrite Se1 in E2.
    replace (S (sent s)) with (sent s + 1) in E2 by lia. rewrite H2 in E2.
    rewrite (fetch_attempts_retry url 3 _ 1 1 s1' e2 s2 E2 eq_refl Hd1).
    match goal with |- context [fetch_attempts _ _ _ _ _ _ 1 2 ?st] =>
      set (s2' := st) end.
    assert (Hc2' : calm clock config s2')
      by (exact (calm_frame s2 s2' eq_refl eq_refl Hc2)).
    destruct (attempt_calm url s2' Hc2')
      as (s3 & w3 & E3 & Hc3 & St3 & Se3 & Tr3 & W3).
    cbn [s2' sent] in E3. rewrite Se2 in E3. cbn [s1' sent] in E3.
    rewrite Se1 in E3.
    replace (S (S (sent s))) with (sent s + 2) in E3 by lia. rewrite H3 in E3.
    rewrite (fetch_attempts_give_up url 3 _ 0 2 s2' e3 s3 E3 eq_refl).
    eexists _, w1, w2, w3. split; [reflexivity|].
    cbn [stats sent trace]. rewrite St3, Tr3. cbn [s2' stats trace].
    rewrite St2, Tr2. cbn [s1' stats trace]. rewrite St1, Tr1. cbn.
    repeat split; try lia; try assumption.
    rewrite <- !app_assoc. reflexivity.
  - intros n Hmr Hsl Hfail.
    unfold fetch_page, fetch_page_with. cbn [or_int or_float]. rewrite Hmr.
    rewrite Nat2Z.id.
    destruct (fetch_attempts_outcome url (Z.of_nat (S n)) (retry_delay config)
                                     n 0 s ltac:(lia) Hc)
      as (k & o & s' & Hk & Hrun & _ & _ & _ & Hout & Hend & _ & Hfl & Hres).
    { intros i Hi. apply Hsl. lia. }
    destruct Hres as [(doc & _ & Hd & _) | (e & -> & He & -> & H1 & H2 & H3)].
    + exfalso. destruct (Hfail (k - 1) ltac:(lia)) as [e He].
      rewrite Hd in He. discriminate He.
    + exists e, s'. split; [exact Hrun|]. split; [exact H2|]. split; [exact H3|].
      split; [|exact Hend].
      rewrite <- (sleeps_outline (trace s')), Hout, !sleeps_app, sleeps_outline.
      cbn [sleeps]. rewrite app_nil_r. f_equal.
      replace (S n - 1) with n by lia. clear.
      generalize 0. induction n as [|n IH]; intros a; [reflexivity|].
      cbn [seq flat_map map app sleeps]. unfold backoff at 1. f_equal. apply IH.
Qed.

End FetchFacts.

(** ** Snake-casing *)

Lemma startswith_u_cons (c : ascii) (r : string) :
  Py.startswith (String c r) "_" = Ascii.eqb c "_".
Proof. cbn. apply andb_true_r. Qed.

Lemma startswith_uu_cons (c : ascii) (r : string) :
  Py.startswith (String c r) "__" = Ascii.eqb c "_" && Py.startswith r "_".
Proof. destruct r; reflexivity. Qed.

Lemma squeeze_cases (s : string) :
  s = EmptyString
  \/ (exists r, s = String "_" (String "_" r)
                /\ squeeze s = String "_" (squeeze r))
  \/ (exists c r, s = String c r
                  /\ Ascii.eqb c "_" && Py.startswith r "_" = false
                  /\ squeeze s = String c (squeeze r)).
Proof.
  destruct s as [|c r]; [left; reflexivity|right].
  destruct (Py.startswith (String c r) "__") eqn:H.
  - left. destruct (startswith_uu _ H) as [r' E]. exists r'. split; [exact E|].
    rewrite E. apply squeeze_pair.
  - right. exists c, r. split; [reflexivity|]. split.
    + rewrite <- startswith_uu_cons. exact H.
    + apply squeeze_other. exact H.
Qed.

Lemma startswith_squeeze (s : string) :
  Py.startswith (squeeze s) "_" = Py.startswith s "_".
Proof.
  destruct (squeeze_cases s) as [E | [(r & E & Hs) | (c & r & E & _ & Hs)]].
  - subst. reflexivity.
  - rewrite Hs, E. reflexivity.
  - rewrite Hs, E. rewrite !startswith_u_cons. reflexivity.
Qed.

Lemma collapse_squeeze_upto (n : nat) :
  forall s, String.length s <= n ->
            collapse_underscores (squeeze s) = collapse_underscores s.
Proof.
  induction n as [|n IH]; intros s Hn.
  - destruct s; [reflexivity | cbn in Hn; lia].
  - destruct (squeeze_cases s) as [E | [(r & E & Hs) | (c & r & E & Hc & Hs)]].
    + subst. reflexivity.
    + rewrite Hs, E. subst s. cbn [String.length] in Hn.
      cbn [collapse_underscores]. rewrite startswith_squeeze.
      rewrite startswith_u_cons. cbn [Ascii.eqb andb].
      change (Ascii.eqb "_" "_") with true. cbn [andb].
      rewrite (IH r) by lia. reflexivity.
    + rewrite Hs, E. subst s. cbn [String.length] in Hn.
      cbn [collapse_underscores]. rewrite startswith_squeeze, Hc.
      rewrite (IH r) by lia. reflexivity.
Qed.

Lemma collapse_squeeze (s : string) :
  collapse_underscores (squeeze s) = collapse_underscores s.
Proof. apply (collapse_squeeze_upto (String.length s)). apply le_n. Qed.

Lemma collapse_without_run (s : string) :
  Py.contains s "__" = false -> collapse_underscores s = s.
Proof.
  induction s as [|c r IH]; [reflexivity|].
  cbn [Py.contains]. intros H. apply orb_false_elim in H as [H1 H2].
  rewrite startswith_uu_cons in H1. cbn [collapse_underscores].
  rewrite H1, (IH H2). reflexivity.
Qed.

(** The [while "__" in cleaned] loop computes the one-pass collapse. *)
Lemma squeeze_loop_collapse (s : string) :
  squeeze_loop s = collapse_underscores s.
Proof.
  funelim (squeeze_loop s).
  - match goal with IH : squeeze_loop _ = collapse_underscores _ |- _ =>
      rewrite IH end.
    apply collapse_squeeze.
  - symmetry. apply collapse_without_run. assumption.
Qed.

(** Stripping the white space first changes nothing: it would become
    leading and trailing underscores. *)
Lemma space_folds_to_underscore (c : ascii) :
  Py.isspace c = true -> fold_char c = "_"%char.
Proof.
  destruct c as [[] [] [] [] [] [] [] []]; vm_compute;
    intros H; try reflexivity; discriminate H.
Qed.

Lemma is_underscore_eqb (c : ascii) : is_underscore c = Ascii.eqb c "_".
Proof. unfold is_underscore. cbn. apply orb_false_r. Qed.

Lemma strip_with_comm (p : ascii -> bool) (x : string) :
  Py.rstrip_with p (Py.lstrip_with p x) = Py.lstrip_with p (Py.rstrip_with p x).
Proof.
  induction x as [|c r IH]; [reflexivity|]. cbn [Py.lstrip_with Py.rstrip_with].
  destruct (p c) eqn:Hc.
  - rewrite IH. destruct (Py.rstrip_with p r) as [|d r'] eqn:E.
    + reflexivity.
    + cbn [Py.lstrip_with]. rewrite Hc. reflexivity.
  - cbn [Py.rstrip_with].
    destruct (Py.rstrip_with p r) as [|d r'] eqn:E; rewrite ?Hc;
      cbn [Py.lstrip_with]; rewrite Hc; reflexivity.
Qed.

Lemma rstrip_keeps_head (p : ascii -> bool) (r : string) (d : ascii) (r' : string) :
  Py.rstrip_with p r = String d r' -> exists r0, r = String d r0.
Proof.
  destruct r as [|c r0]; cbn; [discriminate|].
  destruct (Py.rstrip_with p r0); [destruct (p c)|]; intros H;
    try discriminate; inversion H; subst; eauto.
Qed.

Lemma collapsed_rstrip_cons (d : ascii) (s : string) :
  collapsed_rstrip (String d s)
  = if Ascii.eqb d "_" && Py.startswith s "_"
    then collapsed_rstrip s
    else match collapsed_rstrip s with
         | EmptyString => if is_underscore d then EmptyString else String d EmptyString
         | x => String d x
         end.
Proof.
  unfold collapsed_rstrip. cbn [collapse_underscores].
  destruct (Ascii.eqb d "_" && Py.startswith s "_"); reflexivity.
Qed.

Lemma collapsed_lstrip_underscore (s : string) :
  Py.lstrip_with is_underscore (collapse_underscores (String "_" s))
  = Py.lstrip_with is_underscore (collapse_underscores s).
Proof.
  cbn [collapse_underscores]. change (Ascii.eqb "_" "_") with true. cbn [andb].
  destruct (Py.startswith s "_"); reflexivity.
Qed.

Lemma smap_cons f c r : Py.smap f (String c r) = String (f c) (Py.smap f r).
Proof. reflexivity. Qed.

Lemma lstrip_space_folded (t : string) :
  Py.lstrip_with is_underscore
    (collapse_underscores (Py.smap fold_char (Py.lstrip_with Py.isspace t)))
  = Py.lstrip_with is_underscore (collapse_underscores (Py.smap fold_char t)).
Proof.
  induction t as [|c r IH]; [reflexivity|]. cbn [Py.lstrip_with].
  destruct (Py.isspace c) eqn:Hc; [|reflexivity].
  rewrite IH, smap_cons, (space_folds_to_underscore c Hc).
  symmetry. apply collapsed_lstrip_underscore.
Qed.

Lemma rstrip_space_all (r : string) :
  Py.rstrip_with Py.isspace r = EmptyString ->
  collapsed_rstrip (Py.smap fold_char r) = EmptyString.
Proof.
  induction r as [|c r IH]; [reflexivity|]. cbn [Py.rstrip_with].
  destruct (Py.rstrip_with Py.isspace r) eqn:E; [|discriminate].
  destruct (Py.isspace c) eqn:Hc; [|discriminate]. intros _.
  rewrite smap_cons, collapsed_rstrip_cons, (IH eq_refl).
  rewrite (space_folds_to_underscore c Hc).
  destruct (Ascii.eqb "_" "_" && Py.startswith (Py.smap fold_char r) "_");
    reflexivity.
Qed.

Lemma rstrip_space_folded (t : string) :
  collapsed_rstrip (Py.smap fold_char (Py.rstrip_with Py.isspace t))
  = collapsed_rstrip (Py.smap fold_char t).
Proof.
  induction t as [|c r IH]; [reflexivity|]. cbn [Py.rstrip_with].
  destruct (Py.rstrip_with Py.isspace r) as [|d r'] eqn:E.
  - pose proof (rstrip_space_all r E) as Hall.
    rewrite (smap_cons _ c r), (collapsed_rstrip_cons _ (Py.smap fold_char r)), Hall.
    destruct (Py.isspace c) eqn:Hc.
    + rewrite (space_folds_to_underscore c Hc).
      destruct (Ascii.eqb "_" "_" && Py.startswith (Py.smap fold_char r) "_");
        reflexivity.
    + rewrite smap_cons, collapsed_rstrip_cons.
      change (Py.smap fold_char "") with "".
      change (collapsed_rstrip "") with "".
      change (Py.startswith "" "_") with false. rewrite andb_false_r.
      rewrite is_underscore_eqb.
      destruct (Ascii.eqb (fold_char c) "_"); cbn [andb];
        [destruct (Py.startswith (Py.smap fold_char r) "_")|]; reflexivity.
  - destruct (rstrip_keeps_head _ _ _ _ E) as [r0 ->].
    rewrite (smap_cons _ c (String d r')), (smap_cons _ c (String d r0)).
    rewrite !collapsed_rstrip_cons. rewrite IH.
    rewrite (smap_cons _ d r'), (smap_cons _ d r0), !startswith_u_cons.
    reflexivity.
Qed.

Lemma smap_smap f g s : Py.smap f (Py.smap g s) = Py.smap (fun c => f (g c)) s.
Proof. induction s as [|c r IH]; [reflexivity|]. cbn. rewrite IH. reflexivity. Qed.

Lemma strip_before_snake_case (t : string) :
  Py.strip_chars "_" (collapse_underscores (Py.smap fold_char (Py.strip t)))
  = Py.strip_chars "_" (collapse_underscores (Py.smap fold_char t)).
Proof.
  unfold Py.strip_chars, Py.strip, Py.strip_with.
  change (fun c => Py.mem_char c "_") with is_underscore.
  rewrite (strip_with_comm Py.isspace t), lstrip_space_folded.
  rewrite !(strip_with_comm is_underscore).
  change (Py.lstrip_with is_underscore
            (collapsed_rstrip (Py.smap fold_char (Py.rstrip_with Py.isspace t)))
          = Py.lstrip_with is_underscore (collapsed_rstrip (Py.smap fold_char t))).
  rewrite rstrip_space_folded. reflexivity.
Qed.

Lemma to_snake_case_spec (text : string) :
  _to_snake_case text = snake_case_spec text.
Proof.
  unfold _to_snake_case, snake_case_spec. rewrite squeeze_loop_collapse.
  unfold Py.lower. rewrite !smap_smap. apply strip_before_snake_case.
Qed.

(** ** Dictionaries *)

Section DictFacts.
Context {V : Type}.
Implicit Types (d other a b : Dict.t V) (k : string) (v : V).

Lemma get_set_same k v d : Dict.get k (Dict.set k v d) = Some v.
Proof.
  induction d as [|[k' v'] d IH]; cbn.
  - rewrite String.eqb_refl. reflexivity.
  - destruct (String.eqb k k') eqn:E; cbn.
    + rewrite String.eqb_refl. reflexivity.
    + rewrite E. exact IH.
Qed.

Lemma get_set_other k k' v d :
  k <> k' -> Dict.get k (Dict.set k' v d) = Dict.get k d.
Proof.
  intros Hne. induction d as [|[k0 v0] d IH]; cbn.
  - apply String.eqb_neq in Hne. rewrite Hne. reflexivity.
  - destruct (String.eqb k' k0) eqn:E; cbn.
    + apply String.eqb_eq in E. subst k0.
      apply String.eqb_neq in Hne. rewrite Hne. reflexivity.
    + rewrite IH. reflexivity.
Qed.

Lemma get_set k k' v d :
  Dict.get k (Dict.set k' v d)
  = if String.eqb k k' then Some v else Dict.get k d.
Proof.
  destruct (String.eqb k k') eqn:E.
  - apply String.eqb_eq in E. subst. apply get_set_same.
  - apply String.eqb_neq in E. apply get_set_other. exact E.
Qed.

Lemma get_del_same k d : Dict.get k (Dict.del k d) = None.
Proof.
  unfold Dict.del.
  induction d as [|[k' v'] d IH]; cbn; [reflexivity|].
  destruct (String.eqb k k') eqn:E; cbn; [exact IH|].
  rewrite E. exact IH.
Qed.

Lemma get_del_other k k' d :
  k <> k' -> Dict.get k (Dict.del k' d) = Dict.get k d.
Proof.
  intros Hne. unfold Dict.del.
  induction d as [|[k0 v0] d IH]; cbn; [reflexivity|].
  destruct (String.eqb k' k0) eqn:E; cbn.
  - apply String.eqb_eq in E. subst k0.
    apply String.eqb_neq in Hne. rewrite Hne. exact IH.
  - rewrite IH. reflexivity.
Qed.

Lemma get_none_not_in k d : Dict.get k d = None <-> ~ In k (Dict.keys d).
Proof.
  induction d as [|[k' v'] d IH]; cbn; [tauto|].
  destruct (String.eqb k k') eqn:E.
  - apply String.eqb_eq in E. subst. split; [discriminate |].
    intros H. exfalso. apply H. left. reflexivity.
  - apply String.eqb_neq in E. rewrite IH. split; [|tauto].
    intros H [H1|H1]; [congruence | tauto].
Qed.

Lemma get_some_in k v d : Dict.get k d = Some v -> In k (Dict.keys d).
Proof.
  intros H. destruct (in_dec string_dec k (Dict.keys d)) as [Hin|Hn]; [exact Hin|].
  apply get_none_not_in in Hn. congruence.
Qed.

Lemma set_fresh k v d :
  ~ In k (Dict.keys d) -> Dict.set k v d = d ++ [(k, v)].
Proof.
  induction d as [|[k' v'] d IH]; cbn; [reflexivity|].
  intros Hn. destruct (String.eqb k k') eqn:E.
  - apply String.eqb_eq in E. subst. exfalso. apply Hn. left. reflexivity.
  - rewrite IH by tauto. reflexivity.
Qed.

Lemma keys_set k v d :
  forall x, In x (Dict.keys (Dict.set k v d)) <-> x = k \/ In x (Dict.keys d).
Proof.
  intros x. induction d as [|[k' v'] d IH]; cbn.
  - intuition.
  - destruct (String.eqb k k') eqn:E; cbn.
    + apply String.eqb_eq in E. subst. intuition.
    + rewrite IH. intuition.
Qed.


Lemma update_fresh d other :
  NoDup (Dict.keys (d ++ other)) -> Dict.update d other = d ++ other.
Proof.
  unfold Dict.update. revert d.
  induction other as [|[k v] other IH]; intros d Hnd; cbn.
  - rewrite app_nil_r. reflexivity.
  - assert (Hk : ~ In k (Dict.keys d)).
    { unfold Dict.keys in *. rewrite map_app in Hnd. cbn in Hnd.
      apply NoDup_remove_2 in Hnd. rewrite in_app_iff in Hnd. tauto. }
    rewrite (set_fresh k v d Hk). rewrite IH.
    + rewrite <- app_assoc. reflexivity.
    + rewrite <- app_assoc. exact Hnd.
Qed.

Lemma set_nodup k v d : NoDup (Dict.keys d) -> NoDup (Dict.keys (Dict.set k v d)).
Proof.
  induction d as [|[k' v'] d IH]; cbn; intros Hnd.
  - constructor; [tauto | constructor].
  - inversion Hnd as [|? ? Hn Hd]; subst.
    destruct (String.eqb k k') eqn:E; cbn.
    + apply String.eqb_eq in E. subst. constructor; assumption.
    + constructor; [|apply IH; exact Hd].
      intros Hin. apply keys_set in Hin. apply String.eqb_neq in E.
      destruct Hin; [congruence | tauto].
Qed.

Lemma update_nodup d other :
  NoDup (Dict.keys d) -> NoDup (Dict.keys (Dict.update d other)).
Proof.
  unfold Dict.update. revert d.
  induction other as [|[k v] other IH]; intros d Hnd; cbn; [exact Hnd|].
  apply IH. apply set_nodup. exact Hnd.
Qed.

End DictFacts.

(** ** The nutrition table *)

Lemma nutrition_row_texts (nutrition : Dict.t string) (row : loc)
      (key_text value_text : string) :
  row_texts row = (Some key_text, Some value_text) ->
  nutrition_row nutrition row
  = if row_kept key_text value_text
    then Dict.set (_to_snake_case key_text) (Py.strip value_text) nutrition
    else nutrition.
Proof.
  intros H. unfold nutrition_row, row_kept. rewrite H.
  destruct (Py.truthy key_text
            && negb (Py.startswith_any (Py.lower key_text) header_prefixes));
    [|reflexivity].
  cbn [andb].
  destruct (Py.truthy value_text && Py.truthy (Py.strip value_text)
            && negb (Soup.str_in (Py.strip value_text) placeholders));
    reflexivity.
Qed.

(** C4.  A row with a header cell and data cells is keyed by the header
    cell's text and valued by its first data cell; a row without header
    cell and with at least two data cells is keyed by its first cell and
    valued by its second one, whether or not a third cell follows.  The
    entry stored is that key, snake-cased, with that value.  The row
    [Protein | 25g | 50%] gives [{"protein": "25g"}] and the row
    [Sodium | 460mg] gives [{"sodium": "460mg"}]. *)
Theorem extract_nutrition_table_row_cells (row : loc) (nutrition : Dict.t string) :
  (forall header_cell td0 tds,
      Soup.find (Soup.tag_ "th") row = Some header_cell ->
      Soup.find_all (Soup.tag_ "td") row = td0 :: tds ->
      let key_text := Soup.get_text " " header_cell in
      let value_text := Soup.get_text " " td0 in
      row_texts row = (Some key_text, Some value_text)
      /\ (row_kept key_text value_text = true ->
          nutrition_row nutrition row
          = Dict.set (_to_snake_case key_text) (Py.strip value_text) nutrition))
  /\ (forall td0 td1 tds,
         Soup.find (Soup.tag_ "th") row = None ->
         Soup.find_all (Soup.tag_ "td") row = td0 :: td1 :: tds ->
         let key_text := Soup.get_text " " td0 in
         let value_text := Soup.get_text " " td1 in
         row_texts row = (Some key_text, Some value_text)
         /\ (row_kept key_text value_text = true ->
             nutrition_row nutrition row
             = Dict.set (_to_snake_case key_text) (Py.strip value_text) nutrition))
  /\ extract_nutrition_table
       (nutrition_page [tr [td "Protein"; td "25g"; td "50%"]])
     = [("protein", "25g")]
  /\ extract_nutrition_table (nutrition_page [tr [td "Sodium"; td "460mg"]])
     = [("sodium", "460mg")].
Proof.
  split; [|split; [|split; reflexivity]].
  - intros header_cell td0 tds Hth Htd key_text value_text.
    assert (E : row_texts row = (Some key_text, Some value_text)).
    { unfold row_texts. rewrite Hth, Htd. reflexivity. }
    split; [exact E|]. intros Hk.
    rewrite (nutrition_row_texts _ _ _ _ E), Hk. reflexivity.
  - intros td0 td1 tds Hth Htd key_text value_text.
    assert (E : row_texts row = (Some key_text, Some value_text)).
    { unfold row_texts. rewrite Hth, Htd. cbn.
      destruct (match length tds with 0 => false | S _ => true end); reflexivity. }
    split; [exact E|]. intros Hk.
    rewrite (nutrition_row_texts _ _ _ _ E), Hk. reflexivity.
Qed.

Lemma startswith_lower (s p : string) :
  Py.startswith s p = true -> Py.startswith (Py.lower s) (Py.lower p) = true.
Proof.
  revert s. induction p as [|d p IH]; intros s; [reflexivity|].
  destruct s as [|c s]; cbn; [discriminate|].
  intros H. apply andb_prop in H as [H1 H2].
  apply Ascii.eqb_eq in H1. subst d. rewrite Ascii.eqb_refl. cbn.
  apply IH. exact H2.
Qed.

Lemma header_prefix_lower (key_text : string) :
  Py.startswith_any key_text header_prefixes = true ->
  Py.startswith_any (Py.lower key_text) header_prefixes = true.
Proof.
  unfold Py.startswith_any, header_prefixes. cbn [existsb].
  intros H. repeat (apply orb_prop in H as [H|H]); try discriminate;
    apply startswith_lower in H; cbn [Py.lower] in H;
    change (Py.lower "amount per serving") with "amount per serving" in H;
    change (Py.lower "% daily value") with "% daily value" in H;
    change (Py.lower "percent daily") with "percent daily" in H;
    rewrite H; rewrite ?orb_true_r; reflexivity.
Qed.

Lemma nutrition_row_entry (nutrition : Dict.t string) (row : loc) (k v : string) :
  Dict.get k (nutrition_row nutrition row) = Some v ->
  Dict.get k nutrition = Some v
  \/ exists key_text value_text,
      row_texts row = (Some key_text, Some value_text)
      /\ row_kept key_text value_text = true
      /\ k = snake_case_spec key_text
      /\ v = Py.strip value_text.
Proof.
  destruct (row_texts row) as [[key_text|] [value_text|]] eqn:E;
    try (unfold nutrition_row; rewrite E;
         repeat match goal with |- context [if ?b then _ else _] => destruct b end;
         intros H; left; exact H).
  rewrite (nutrition_row_texts _ _ _ _ E).
  destruct (row_kept key_text value_text) eqn:Hk; [|intros H; left; exact H].
  rewrite get_set. destruct (String.eqb k (_to_snake_case key_text)) eqn:Ek.
  - intros H. inversion H; subst. right. exists key_text, value_text.
    apply String.eqb_eq in Ek. rewrite to_snake_case_spec in Ek.
    repeat split; assumption.
  - intros H. left. exact H.
Qed.

Lemma nutrition_rows_entry (rows : list loc) :
  forall (nutrition : Dict.t string) (k v : string),
    Dict.get k (fold_left nutrition_row rows nutrition) = Some v ->
    Dict.get k nutrition = Some v
    \/ exists row key_text value_text,
        In row rows
        /\ row_texts row = (Some key_text, Some value_text)
        /\ row_kept key_text value_text = true
        /\ k = snake_case_spec key_text
        /\ v = Py.strip value_text.
Proof.
  induction rows as [|row rows IH]; intros nutrition k v H; cbn in H.
  - left. exact H.
  - destruct (IH _ _ _ H) as [H1 | (r & kt & vt & Hin & Hrest)].
    + destruct (nutrition_row_entry _ _ _ _ H1) as [H2 | (kt & vt & Hrest)].
      * left. exact H2.
      * right. exists row, kt, vt. split; [left; reflexivity | exact Hrest].
    + right. exists r, kt, vt. split; [right; exact Hin | exact Hrest].
Qed.

(** C7.  A row whose key text starts with ["amount per serving"],
    ["% daily value"] or ["percent daily"] leaves the nutrition map as it
    is, and so does a row whose value is empty or one of ["?"],
    ["&nbsp;"], ["-"].  Every entry of the extracted map comes from a row
    that passes both tests; its key is the snake-cased key text of that row
    (lower-cased, non-alphanumeric characters replaced by ['_'], runs of
    ['_'] collapsed, leading and trailing ['_'] stripped) and its value is
    the row's value text. *)
Theorem nutrition_rows_filtered_and_snake_cased
        (row : loc) (nutrition : Dict.t string) (key_text value_text : string) :
  row_texts row = (Some key_text, Some value_text) ->
  (Py.startswith_any key_text header_prefixes = true ->
   nutrition_row nutrition row = nutrition)
  /\ (Soup.str_in (Py.strip value_text) placeholders = true ->
      nutrition_row nutrition row = nutrition)
  /\ (nutrition_row nutrition row = nutrition
      \/ nutrition_row nutrition row
         = Dict.set (snake_case_spec key_text) (Py.strip value_text) nutrition)
  /\ (forall document table k v,
         first_hit nutrition_table_selectors document = Some table ->
         Dict.get k (extract_nutrition_table (Some document)) = Some v ->
         exists r kt vt,
           In r (Soup.select [[Soup.tag_ "tr"]] table)
           /\ row_texts r = (Some kt, Some vt)
           /\ Py.startswith_any kt header_prefixes = false
           /\ Soup.str_in (Py.strip vt) placeholders = false
           /\ k = snake_case_spec kt
           /\ v = Py.strip vt).
Proof.
  intros E. rewrite (nutrition_row_texts _ _ _ _ E). unfold row_kept.
  split; [|split; [|split]].
  - intros H. rewrite (header_prefix_lower _ H). cbn. rewrite andb_false_r.
    reflexivity.
  - intros H. rewrite H. cbn. rewrite !andb_false_r. reflexivity.
  - rewrite <- to_snake_case_spec.
    match goal with |- context [if ?b then _ else _] => destruct b end;
      [right | left]; reflexivity.
  - intros document table k v Ht Hget. cbn [extract_nutrition_table] in Hget.
    rewrite Ht in Hget.
    destruct (nutrition_rows_entry _ _ _ _ Hget)
      as [H | (r & kt & vt & Hin & Hr & Hk & Hkey & Hv)]; [discriminate|].
    exists r, kt, vt. unfold row_kept in Hk.
    apply andb_prop in Hk as [Hk1 Hk2].
    apply andb_prop in Hk1 as [_ Hk1]. apply andb_prop in Hk2 as [_ Hk2].
    apply negb_true_iff in Hk1, Hk2.
    repeat split; try assumption.
    destruct (Py.startswith_any kt header_prefixes) eqn:Hp; [|reflexivity].
    rewrite (header_prefix_lower _ Hp) in Hk1. discriminate.
Qed.

(** ** Menu items *)

Lemma last_cons_default {A : Type} (x d : A) (l : list A) :
  last (x :: l) d = last l x.
Proof.
  revert x d. induction l as [|y l IH]; intros x d; [reflexivity|].
  change (last (x :: y :: l) d) with (last (y :: l) d).
  rewrite (IH y d), (IH y x). reflexivity.
Qed.

Lemma last_nonempty_cons {A : Type} (p : A -> bool) (d x : A) (l : list A) :
  last_nonempty p d (x :: l) = last_nonempty p (if p x then x else d) l.
Proof.
  unfold last_nonempty. cbn [filter]. destruct (p x); [|reflexivity].
  apply last_cons_default.
Qed.

Lemma last_nonempty_none {A : Type} (p : A -> bool) (d : A) (l : list A) :
  forallb (fun x => negb (p x)) l = true -> last_nonempty p d l = d.
Proof.
  revert d. induction l as [|x l IH]; intros d; [reflexivity|]. cbn [forallb].
  intros H. apply andb_prop in H as [H1 H2]. rewrite last_nonempty_cons.
  apply negb_true_iff in H1. rewrite H1. apply IH. exact H2.
Qed.

Lemma last_nonempty_last {A : Type} (p : A -> bool) (d x : A) (pre post : list A) :
  p x = true ->
  forallb (fun y => negb (p y)) post = true ->
  last_nonempty p d (pre ++ x :: post) = x.
Proof.
  intros Hx Hpost. revert d. induction pre as [|y pre IH]; intros d.
  - cbn [app]. rewrite last_nonempty_cons, Hx. apply last_nonempty_none.
    exact Hpost.
  - cbn [app]. rewrite last_nonempty_cons. apply IH.
Qed.

Lemma as_json_get (k : string) (d : Dict.t string) :
  Dict.get k (as_json d) = option_map JStr (Dict.get k d).
Proof.
  unfold as_json. induction d as [|[k' v'] d IH]; [reflexivity|]. cbn.
  destruct (String.eqb k k'); [reflexivity | exact IH].
Qed.

Section ItemFacts.
Variable urljoin : string -> string -> string.
Variable net : nat -> string -> string + node.
Variable clock : nat -> Q.
Variable config : ScraperConfig.

Lemma fetched_length s urls pages s' :
  fetched net clock config s urls pages s' -> length pages = length urls.
Proof.
  revert s pages. induction urls as [|u urls IH]; intros s [|p pages]; cbn;
    try tauto.
  intros (s1 & _ & H). f_equal. exact (IH _ _ H).
Qed.

Lemma extract_item_nutrition_data_ok item_url label fallback s pg s1 :
  fetch_page net clock config item_url s = (Ret (Some (root pg)), s1) ->
  extract_item_nutrition_data urljoin net clock config item_url label fallback s
  = (Ret (variant_result urljoin config fallback (mkOption label item_url) pg), s1).
Proof.
  intros H. unfold extract_item_nutrition_data, bind. rewrite H. reflexivity.
Qed.

Lemma variants_loop_fetched item_name :
  forall options pages acc s s',
    fetched net clock config s (map url options) pages s' ->
    variants_loop urljoin net clock config item_name options acc s
    = (Ret (fold_left (variant_step urljoin config item_name)
                      (combine options pages) acc), s').
Proof.
  induction options as [|opt options IH]; intros pages acc s s' Hs.
  - destruct pages; cbn in Hs; [|tauto]. subst s'. reflexivity.
  - destruct pages as [|pg pages]; cbn in Hs; [tauto|].
    destruct Hs as (s1 & Hpg & Hs).
    cbn [variants_loop]. destruct acc as [[sizes agg_a] agg_i].
    unfold bind at 1.
    rewrite (extract_item_nutrition_data_ok _ _ _ _ _ _ Hpg).
    destruct opt as [t u]. cbn [title url] in *.
    exact (IH pages _ s1 s' Hs).
Qed.

Lemma fold_variant_step item_name :
  forall ops sizes a i,
    fold_left (variant_step urljoin config item_name) ops (sizes, a, i)
    = (sizes ++ map (fun op =>
                       let '(sv, _, _, img) :=
                         variant_result urljoin config item_name (fst op) (snd op) in
                       serving_dict sv img) ops,
       last_nonempty has_allergen_lists a
         (map (fun op => extract_allergens (Some (root (snd op)))) ops),
       last_nonempty Py.truthy i
         (map (fun op => extract_ingredients (Some (root (snd op)))) ops)).
Proof.
  induction ops as [|op ops IH]; intros sizes a i.
  - cbn. rewrite app_nil_r. reflexivity.
  - cbn [fold_left map]. rewrite !last_nonempty_cons.
    cbn [variant_step variant_result]. rewrite IH.
    rewrite <- app_assoc. reflexivity.
Qed.



Lemma with_nutrition_get item serving_sizes allergens ingredients :
  Dict.get "nutritional_values"
           (with_nutrition item serving_sizes allergens ingredients)
  = Some (JDict [("serving_sizes", JList serving_sizes)])
  /\ Dict.get "allergens"
              (with_nutrition item serving_sizes allergens ingredients)
     = Some (allergens_dict allergens)
  /\ Dict.get "ingredients"
              (with_nutrition item serving_sizes allergens ingredients)
     = Some (JStr ingredients).
Proof.
  unfold with_nutrition. rewrite !get_set. cbn.
  repeat split; reflexivity.
Qed.


Lemma combine_fst {A B} (l : list A) (l' : list B) :
  length l' = length l -> map fst (combine l l') = l.
Proof.
  revert l'. induction l as [|x l IH]; intros [|y l'] H; cbn in *;
    try discriminate; [reflexivity|]. f_equal. apply IH. lia.
Qed.

Lemma combine_snd {A B C} (f : B -> C) (l : list A) (l' : list B) :
  length l' = length l ->
  map (fun op => f (snd op)) (combine l l') = map f l'.
Proof.
  revert l'. induction l as [|x l IH]; intros [|y l'] H; cbn in *;
    try discriminate; [reflexivity|]. f_equal. apply IH. lia.
Qed.

(** An item whose page shows serving-size options, all of them fetched. *)
Lemma process_menu_item_options item s s1 s2 page1 pages :
  let item_url := get_or "url" "" item in
  let item_name := get_or "name" "" item in
  let options := extract_dropdown_options urljoin config (Some (root page1)) in
  Py.truthy item_url = true ->
  sleepable (rate_limit_delay config) ->
  fetch_page net clock config item_url s = (Ret (Some (root page1)), s1) ->
  nonempty options = true ->
  fetched net clock config s1 (map url options) pages s2 ->
  process_menu_item urljoin net clock config item s
  = (Ret (with_nutrition (as_json item)
            (map (fun op =>
                    let '(sv, _, _, img) :=
                      variant_result urljoin config item_name (fst op) (snd op) in
                    serving_dict sv img) (combine options pages))
            (last_nonempty has_allergen_lists no_allergens
               (map (fun pg => extract_allergens (Some (root pg))) pages))
            (last_nonempty Py.truthy ""
               (map (fun pg => extract_ingredients (Some (root pg))) pages))),
     mkScraper (stats s2) (sent s2)
               (trace s2 ++ [Sleep (rate_limit_delay config)])
               (limiter_last s2) (clock_reads s2)).
Proof.
  intros item_url item_name options Hurl Hrate H1 Hne Hs.
  unfold process_menu_item, with_error_handling, try_except,
    process_menu_item_body.
  fold item_url item_name. rewrite Hurl. cbn [negb].
  unfold bind at 1. rewrite H1. fold options. rewrite Hne.
  unfold bind.
  rewrite (variants_loop_fetched item_name options pages _ s1 s2 Hs).
  rewrite fold_variant_step. cbn [app].
  pose proof (fetched_length _ _ _ _ Hs) as Hlen. rewrite length_map in Hlen.
  rewrite (combine_snd (fun pg => extract_allergens (Some (root pg)))
                       options pages Hlen).
  rewrite (combine_snd (fun pg => extract_ingredients (Some (root pg)))
                       options pages Hlen).
  unfold ret. cbv beta iota. unfold sleep. rewrite (sleep_as_ok Sleep _ s2 Hrate).
  reflexivity.
Qed.





Lemma truthy_nonempty (x : string) : Py.truthy x = true <-> x <> "".
Proof. destruct x; cbn; split; intros H; congruence. Qed.

Lemma has_allergen_lists_spec (a : ScrapedAllergens) :
  has_allergen_lists a = true
  <-> contains a <> [] \/ does_not_contain a <> [] \/ unknown a <> [].
Proof.
  unfold has_allergen_lists.
  destruct (contains a), (does_not_contain a), (unknown a); cbn;
    intuition congruence.
Qed.

Lemma forallb_negb {A : Type} (p : A -> bool) (l : list A) :
  (forall x, In x l -> p x <> true) ->
  forallb (fun x => negb (p x)) l = true.
Proof.
  intros H. apply forallb_forall. intros x Hx. specialize (H x Hx).
  destruct (p x); [congruence | reflexivity].
Qed.

(** C6, as the code has it.  The item has a url and at least one
    serving-size option; its page and the pages of its options are
    fetched, and [time.sleep] accepts [rate_limit_delay].  The allergens
    of the item are those of the last variant, in processing order,
    whose result has a non-empty [contains], [does_not_contain] or
    [unknown] list: a result that holds an [allergy_information] text
    only does not count and is passed over.  The ingredients of the
    item are those of the last variant whose ingredients text is not
    empty.  Earlier results are overwritten.  When no variant has such a
    result the values are the empty defaults. *)
Theorem process_menu_item_last_nonempty_wins (item : Dict.t string)
        (s s1 s2 : scraper) (page1 : node) (pages : list node) :
  let item_url := get_or "url" "" item in
  let options := extract_dropdown_options urljoin config (Some (root page1)) in
  let allergen_results :=
    map (fun pg => extract_allergens (Some (root pg))) pages in
  let ingredient_results :=
    map (fun pg => extract_ingredients (Some (root pg))) pages in
  Py.truthy item_url = true ->
  sleepable (rate_limit_delay config) ->
  fetch_page net clock config item_url s = (Ret (Some (root page1)), s1) ->
  options <> [] ->
  fetched net clock config s1 (map url options) pages s2 ->
  exists item' s',
    process_menu_item urljoin net clock config item s = (Ret item', s')
    /\ Dict.get "allergens" item'
       = Some (allergens_dict
                 (last_nonempty has_allergen_lists no_allergens allergen_results))
    /\ Dict.get "ingredients" item'
       = Some (JStr (last_nonempty Py.truthy "" ingredient_results))
    /\ (forall pre a post,
           allergen_results = pre ++ a :: post ->
           contains a <> [] \/ does_not_contain a <> [] \/ unknown a <> [] ->
           (forall r, In r post ->
                      contains r = [] /\ does_not_contain r = []
                      /\ unknown r = []) ->
           Dict.get "allergens" item'
           = Some (JDict
                     [ ("contains", JList (map JStr (contains a)));
                       ("does_not_contain", JList (map JStr (does_not_contain a)));
                       ("unknown", JList (map JStr (unknown a)));
                       ("allergy_information", JStr (allergy_information a)) ]))
    /\ (forall pre i post,
           ingredient_results = pre ++ i :: post ->
           i <> "" ->
           (forall r, In r post -> r = "") ->
           Dict.get "ingredients" item' = Some (JStr i))
    /\ ((forall r, In r allergen_results ->
                   contains r = [] /\ does_not_contain r = [] /\ unknown r = []) ->
        Dict.get "allergens" item'
        = Some (JDict [ ("contains", JList []);
                        ("does_not_contain", JList []);
                        ("unknown", JList []);
                        ("allergy_information", JStr "") ]))
    /\ ((forall r, In r ingredient_results -> r = "") ->
        Dict.get "ingredients" item' = Some (JStr "")).
Proof.
  intros item_url options allergen_results ingredient_results
         Hurl Hrate H1 Hne Hs.
  assert (Hne' : nonempty options = true)
    by (destruct options; [congruence | reflexivity]).
  pose proof (process_menu_item_options item s s1 s2 page1 pages Hurl Hrate H1
                                        Hne' Hs) as Hrun.
  eexists _, _. split; [exact Hrun|].
  match goal with
  | |- context [with_nutrition ?d ?sz ?a ?i] =>
      destruct (with_nutrition_get d sz a i) as (_ & Ha & Hi)
  end.
  subst allergen_results ingredient_results.
  split; [exact Ha|]. split; [exact Hi|].
  split; [|split; [|split]].
  - intros pre a post E Hp Hpost. rewrite Ha, E.
    rewrite (last_nonempty_last has_allergen_lists no_allergens a pre post).
    + reflexivity.
    + apply has_allergen_lists_spec. exact Hp.
    + apply forallb_negb. intros r Hr Hhas.
      apply has_allergen_lists_spec in Hhas.
      destruct (Hpost r Hr) as (E1 & E2 & E3). tauto.
  - intros pre i post E Hp Hpost. rewrite Hi, E.
    rewrite (last_nonempty_last Py.truthy "" i pre post).
    + reflexivity.
    + apply truthy_nonempty. exact Hp.
    + apply forallb_negb. intros r Hr Ht. apply truthy_nonempty in Ht.
      apply Ht, Hpost, Hr.
  - intros Hall. rewrite Ha, last_nonempty_none; [reflexivity|].
    apply forallb_negb. intros r Hr Hhas.
    apply has_allergen_lists_spec in Hhas.
    destruct (Hall r Hr) as (E1 & E2 & E3). tauto.
  - intros Hall. rewrite Hi, last_nonempty_none; [reflexivity|].
    apply forallb_negb. intros r Hr Ht. apply truthy_nonempty in Ht.
    apply Ht, Hall, Hr.
Qed.

(** C10.  An item without ['url'] key, or whose ['url'] is empty, is
    returned as it is: no request is sent, nothing is recorded, and the
    keys of the item are the keys it came with. *)
Theorem process_menu_item_without_url (item : Dict.t string) (s : scraper) :
  Dict.get "url" item = None \/ Dict.get "url" item = Some "" ->
  process_menu_item urljoin net clock config item s = (Ret (as_json item), s)
  /\ Dict.keys (as_json item) = Dict.keys item
  /\ Dict.get "nutritional_values" (as_json item)
     = option_map JStr (Dict.get "nutritional_values" item)
  /\ Dict.get "allergens" (as_json item)
     = option_map JStr (Dict.get "allergens" item)
  /\ Dict.get "ingredients" (as_json item)
     = option_map JStr (Dict.get "ingredients" item).
Proof.
  intros H.
  assert (E : get_or "url" "" item = "").
  { unfold get_or. destruct H as [H|H]; rewrite H; reflexivity. }
  split; [|split; [|repeat split; apply as_json_get]].
  - unfold process_menu_item, with_error_handling, try_except,
      process_menu_item_body. rewrite E. reflexivity.
  - unfold Dict.keys, as_json. rewrite map_map. reflexivity.
Qed.

End ItemFacts.

(** ** Stage 3 and the checkpoints *)

(** The pause between two restaurants is a delay [time.sleep] accepts. *)
Lemma sleep_2 (s : scraper) :
  sleep 2 s = (Ret tt, mkScraper (stats s) (sent s) (trace s ++ [Sleep 2])
                                 (limiter_last s) (clock_reads s)).
Proof. apply sleep_as_ok. split; vm_compute; discriminate. Qed.

Lemma sum_of_ok {A : Type} (f : A -> exn + nat) (l : list A) :
  (forall x, In x l -> exists n, f x = inr n) ->
  exists n, sum_of f l = inr n.
Proof.
  induction l as [|x l IH]; intros H; cbn; [eauto|].
  destruct (H x (or_introl eq_refl)) as [n ->].
  destruct IH as [m ->]; [intros y Hy; apply H; right; exact Hy | eauto].
Qed.

Lemma sum_of_fails {A : Type} (f : A -> exn + nat) (l : list A) (x : A) (e : exn) :
  In x l -> f x = inl e -> exists e', sum_of f l = inl e'.
Proof.
  induction l as [|y l IH]; intros Hin Hx; [destruct Hin|]. cbn.
  destruct Hin as [->|Hin].
  - rewrite Hx. eauto.
  - destruct (f y); [eauto|]. destruct (IH Hin Hx) as [e' ->]. eauto.
Qed.

Lemma in_set_cases {V : Type} (k : string) (v : V) (d : Dict.t V)
      (k' : string) (v' : V) :
  In (k', v') (Dict.set k v d) -> (k', v') = (k, v) \/ In (k', v') d.
Proof.
  induction d as [|[k0 v0] d IH]; cbn.
  - intros [H|[]]. left. symmetry. exact H.
  - destruct (String.eqb k k0); cbn.
    + intros [H|H]; [left; symmetry; exact H | right; right; exact H].
    + intros [H|H]; [right; left; exact H|].
      destruct (IH H) as [H'|H']; [left; exact H' | right; right; exact H'].
Qed.

Lemma restaurant_variations_enriched (e : enriched_info) :
  (forall d, In d (enriched_items e) -> exists n, item_variations (JDict d) = inr n) ->
  exists n, restaurant_variations (enriched_json e) = inr n.
Proof.
  intros H. unfold restaurant_variations, enriched_json. cbn.
  apply sum_of_ok. intros x Hx. apply in_map_iff in Hx as (d & <- & Hd).
  apply H. exact Hd.
Qed.

Lemma load_checkpoints_nodup files :
  NoDup (Dict.keys (load_checkpoints files)).
Proof.
  unfold load_checkpoints.
  assert (G : forall (acc : Dict.t json),
             NoDup (Dict.keys acc) ->
             NoDup (Dict.keys
                      (fold_left
                         (fun merged_data f =>
                            match f with
                            | Some checkpoint_data =>
                                Dict.update merged_data checkpoint_data
                            | None => merged_data
                            end) files acc))).
  { induction files as [|[f|] files IH]; intros acc Hacc; cbn;
      [exact Hacc | apply IH, update_nodup; exact Hacc | apply IH; exact Hacc]. }
  apply G. constructor.
Qed.

Lemma keys_enriched_data_json (d : Dict.t enriched_info) :
  Dict.keys (enriched_data_json d) = Dict.keys d.
Proof. unfold Dict.keys, enriched_data_json. rewrite map_map. reflexivity. Qed.

Lemma mem_in {V : Type} (k : string) (d : Dict.t V) :
  Dict.mem k d = true <-> In k (Dict.keys d).
Proof.
  unfold Dict.mem. destruct (Dict.get k d) eqn:E.
  - split; [intros _; eapply get_some_in; exact E | reflexivity].
  - split; [discriminate|]. intros H. apply get_none_not_in in E. contradiction.
Qed.

Lemma del_absent {V : Type} (k : string) (d : Dict.t V) :
  Dict.mem k d = false -> Dict.del k d = d.
Proof.
  intros H. unfold Dict.del.
  assert (Hk : ~ In k (Dict.keys d)).
  { intros Hin. apply mem_in in Hin. congruence. }
  clear H. induction d as [|[k' v'] d IH]; [reflexivity|]. cbn in *.
  destruct (String.eqb k k') eqn:E.
  - apply String.eqb_eq in E. subst. tauto.
  - cbn. f_equal. apply IH. tauto.
Qed.

(** Deleting the checkpointed names one by one leaves the entries whose
    name is not checkpointed, in their order. *)
Lemma drop_checkpointed_filter (checkpoints : Dict.t json)
      (menu_data : Dict.t menu_info) :
  drop_checkpointed checkpoints menu_data
  = filter (fun entry => negb (Dict.mem (fst entry) checkpoints)) menu_data.
Proof.
  unfold drop_checkpointed.
  assert (G : forall (ks : list string) (d : Dict.t menu_info),
             fold_left (fun menu_data restaurant_name =>
                          if Dict.mem restaurant_name menu_data
                          then Dict.del restaurant_name menu_data
                          else menu_data) ks d
             = filter (fun entry => negb (Soup.str_in (fst entry) ks)) d).
  { induction ks as [|k ks IH]; intros d; cbn [fold_left].
    - cbn. induction d as [|x d IHd]; [reflexivity|]. cbn. f_equal. exact IHd.
    - rewrite IH.
      replace (if Dict.mem k d then Dict.del k d else d) with (Dict.del k d)
        by (destruct (Dict.mem k d) eqn:E; [reflexivity | apply del_absent, E]).
      unfold Dict.del, Soup.str_in. clear.
      induction d as [|[k' v'] d IHd]; [reflexivity|].
      cbn. rewrite (String.eqb_sym k' k).
      destruct (String.eqb k k'); cbn; [exact IHd|].
      destruct (existsb (String.eqb k') ks); cbn; [exact IHd|]. f_equal. exact IHd. }
  rewrite G. apply filter_ext. intros [k v]. cbn. f_equal.
  destruct (Dict.mem k checkpoints) eqn:E.
  - apply mem_in in E. unfold Soup.str_in. apply existsb_exists.
    exists k. split; [exact E | apply String.eqb_refl].
  - destruct (Soup.str_in k (Dict.keys checkpoints)) eqn:E'; [|reflexivity].
    unfold Soup.str_in in E'. apply existsb_exists in E' as (x & Hx & Ex).
    apply String.eqb_eq in Ex. subst x. apply mem_in in Hx. congruence.
Qed.

Lemma keys_filter_nodup {V : Type} (p : string * V -> bool) (d : Dict.t V) :
  NoDup (Dict.keys d) -> NoDup (Dict.keys (filter p d)).
Proof.
  unfold Dict.keys. induction d as [|[k v] d IH]; cbn; intros H; [constructor|].
  inversion H as [|? ? Hno Hnd]; subst.
  destruct (p (k, v)); cbn; [|apply IH; exact Hnd].
  constructor; [|apply IH; exact Hnd].
  intros Hin. apply Hno. apply in_map_iff in Hin as ([k0 v0] & E & Hin).
  apply filter_In in Hin as [Hin _]. cbn in E. subst k0.
  apply in_map_iff. exists (k, v0). split; [reflexivity | exact Hin].
Qed.

Lemma get_app_left {V : Type} (k : string) (v : V) (a b : Dict.t V) :
  Dict.get k a = Some v -> Dict.get k (a ++ b) = Some v.
Proof.
  induction a as [|[k' v'] a IH]; cbn; [discriminate|].
  destruct (String.eqb k k'); [auto | exact IH].
Qed.

Section PipelineFacts.
Variable urljoin : string -> string -> string.
Variable net : nat -> string -> string + node.
Variable clock : nat -> Q.
Variable config : ScraperConfig.

(** The decorator turns every exception of the body into [{}]. *)
Lemma process_menu_item_returns item s :
  exists d s', process_menu_item urljoin net clock config item s = (Ret d, s').
Proof.
  unfold process_menu_item, with_error_handling, try_except.
  destruct (process_menu_item_body urljoin net clock config item s) as [[d|e] s'];
    unfold ret; eauto.
Qed.

Lemma process_items_returns items :
  forall processed s,
  exists l s',
    process_items urljoin net clock config items processed s = (Ret l, s').
Proof.
  induction items as [|item items IH]; intros processed s; cbn.
  - unfold ret. eauto.
  - unfold bind, try_except.
    destruct (process_menu_item_returns item s) as (d & s1 & E). rewrite E.
    apply IH.
Qed.

Lemma process_items_length (items : list (Dict.t string)) :
  forall processed s,
  exists l s',
    process_items urljoin net clock config items processed s = (Ret l, s')
    /\ length l = length processed + length items.
Proof.
  induction items as [|item items IH]; intros processed s; cbn [process_items].
  - exists processed, s. split; [reflexivity | cbn; lia].
  - unfold bind, try_except.
    destruct (process_menu_item_returns item s) as (d & s1 & E).
    rewrite E.
    destruct (IH (processed ++ [d]) s1) as (l & s' & Hrun & Hlen).
    exists l, s'. split; [exact Hrun|]. rewrite Hlen, length_app. cbn. lia.
Qed.

Lemma scrape_loop_shape (entries : list (string * menu_info)) :
  forall enriched_data s,
    NoDup (Dict.keys entries) ->
    (forall k, In k (Dict.keys entries) -> ~ In k (Dict.keys enriched_data)) ->
    exists out s',
      scrape_loop urljoin net clock config entries enriched_data s = (Ret out, s')
      /\ Dict.keys out = Dict.keys enriched_data ++ Dict.keys entries
      /\ (forall k, ~ In k (Dict.keys entries) ->
                    Dict.get k out = Dict.get k enriched_data)
      /\ (forall name info,
             In (name, info) entries ->
             exists e,
               Dict.get name out = Some e
               /\ enriched_url e = opt_or (info_url info) ""
               /\ enriched_logo e = opt_or (info_logo info) ""
               /\ length (enriched_items e)
                  = length (opt_or (info_items info) [])).
Proof.
  induction entries as [|[name info] entries IH]; intros enriched_data s Hnd Hfresh.
  - exists enriched_data, s. cbn. rewrite app_nil_r.
    repeat split; try reflexivity. intros ? ? [].
  - cbn [scrape_loop]. unfold bind at 1.
    destruct (process_items_length (opt_or (info_items info) []) [] s)
      as (l & s1 & E & Hlen). rewrite E. cbn [length Nat.add] in Hlen.
    unfold bind. rewrite sleep_2.
    cbn [Dict.keys map fst] in Hnd. inversion Hnd as [|? ? Hno Hnd']; subst.
    assert (Hname : ~ In name (Dict.keys enriched_data)).
    { apply Hfresh. left. reflexivity. }
    set (e0 := mkEnriched (opt_or (info_url info) "") (opt_or (info_logo info) "") l).
    assert (Hset : Dict.set name e0 enriched_data = enriched_data ++ [(name, e0)]).
    { apply set_fresh. exact Hname. }
    match goal with
    | |- context [scrape_loop _ _ _ _ entries ?d ?st] =>
        destruct (IH d st Hnd') as (out & s' & Hrun & Hkeys & Hother & Hall)
    end.
    { intros k Hk. rewrite Hset. unfold Dict.keys. rewrite map_app.
      intros Hin. apply in_app_or in Hin as [Hin|[<-|[]]].
      - apply (Hfresh k); [right; exact Hk | exact Hin].
      - apply Hno. exact Hk. }
    exists out, s'. split; [exact Hrun|]. split; [|split].
    + rewrite Hkeys, Hset. unfold Dict.keys. rewrite map_app, <- app_assoc.
      reflexivity.
    + intros k Hk. cbn in Hk. rewrite Hother by tauto.
      apply get_set_other. intros ->. tauto.
    + intros n i [Heq|Hin].
      * inversion Heq; subst n i. exists e0.
        rewrite (Hother name Hno), get_set_same.
        repeat split; try reflexivity. exact Hlen.
      * apply Hall. exact Hin.
Qed.

(** The result of [process_menu_item] can be counted, unless the item
    has no url and carries a [nutritional_values] of its own. *)
Lemma process_menu_item_countable item s :
  (Py.truthy (get_or "url" "" item) = false ->
   Dict.get "nutritional_values" item = None) ->
  exists d s' n,
    process_menu_item urljoin net clock config item s = (Ret d, s')
    /\ item_variations (JDict d) = inr n.
Proof.
  intros Hitem.
  assert (Hwith : forall sz a i,
             exists n, item_variations
                         (JDict (with_nutrition (as_json item) sz a i)) = inr n).
  { intros sz a i. unfold item_variations.
    destruct (with_nutrition_get (as_json item) sz a i) as (-> & _ & _).
    cbn. eauto. }
  unfold process_menu_item, with_error_handling, try_except,
    process_menu_item_body.
  destruct (Py.truthy (get_or "url" "" item)) eqn:Hurl; cbn [negb].
  - match goal with
    | |- context [bind ?m ?k s] => destruct (bind m k s) as [[d|e] s'] eqn:E
    end.
    + unfold bind in E.
      destruct (fetch_page net clock config (get_or "url" "" item) s)
        as [[doc|e] s1]; [|discriminate E].
      destruct (nonempty (extract_dropdown_options urljoin config doc)).
      * unfold bind in E.
        destruct (variants_loop urljoin net clock config (get_or "name" "" item)
                                (extract_dropdown_options urljoin config doc)
                                ([], no_allergens, "") s1)
          as [[[[sz a] i]|e] s2]; [|discriminate E].
        unfold ret in E.
        destruct (sleep (rate_limit_delay config) s2) as [[[]|e] s3];
          [|discriminate E].
        inversion E; subst. destruct (Hwith sz a i) as [n Hn]. eauto.
      * unfold bind in E.
        destruct (extract_item_nutrition_data urljoin net clock config
                    (get_or "url" "" item) "1 serving" (get_or "name" "" item) s1)
          as [[[[[sv al] ing] img]|e] s2]; [|discriminate E].
        unfold ret in E.
        destruct (sleep (rate_limit_delay config) s2) as [[[]|e] s3];
          [|discriminate E].
        inversion E; subst.
        destruct (Hwith [serving_dict sv img] al ing) as [n Hn]. eauto.
    + exists [], s', 0. split; reflexivity.
  - exists (as_json item), s, 0. split; [reflexivity|].
    unfold item_variations. rewrite as_json_get, (Hitem eq_refl). reflexivity.
Qed.

Lemma process_items_countable (items : list (Dict.t string)) :
  forall (processed : list (Dict.t json)) s,
    (forall item, In item items ->
                  Py.truthy (get_or "url" "" item) = false ->
                  Dict.get "nutritional_values" item = None) ->
    (forall d, In d processed -> exists n, item_variations (JDict d) = inr n) ->
    exists l s',
      process_items urljoin net clock config items processed s = (Ret l, s')
      /\ forall d, In d l -> exists n, item_variations (JDict d) = inr n.
Proof.
  induction items as [|item items IH]; intros processed s Hitems Hdone;
    cbn [process_items].
  - exists processed, s. split; [reflexivity | exact Hdone].
  - unfold bind, try_except.
    destruct (process_menu_item_countable item s
                (Hitems item (or_introl eq_refl))) as (d & s1 & n & E & Hn).
    rewrite E. apply IH.
    + intros item' Hin. apply Hitems. right. exact Hin.
    + intros d' Hin. apply in_app_or in Hin as [Hin|[<-|[]]]; eauto.
Qed.

Lemma scrape_loop_countable (entries : list (string * menu_info)) :
  forall enriched_data s,
    (forall name info item,
        In (name, info) entries -> In item (opt_or (info_items info) []) ->
        Py.truthy (get_or "url" "" item) = false ->
        Dict.get "nutritional_values" item = None) ->
    (forall name e d,
        In (name, e) enriched_data -> In d (enriched_items e) ->
        exists n, item_variations (JDict d) = inr n) ->
    exists out s',
      scrape_loop urljoin net clock config entries enriched_data s = (Ret out, s')
      /\ forall name e d,
           In (name, e) out -> In d (enriched_items e) ->
           exists n, item_variations (JDict d) = inr n.
Proof.
  induction entries as [|[name info] entries IH]; intros enriched_data s Hitems Hacc.
  - exists enriched_data, s. split; [reflexivity | exact Hacc].
  - cbn [scrape_loop]. unfold bind at 1.
    destruct (process_items_countable (opt_or (info_items info) []) [] s)
      as (l & s1 & E & Hl).
    { intros item Hin. apply (Hitems name info item); [left; reflexivity | exact Hin]. }
    { intros d []. }
    rewrite E. unfold bind. rewrite sleep_2. apply IH.
    + intros name' info' item Hin. apply (Hitems name' info' item). right. exact Hin.
    + intros name' e d Hin Hd. apply in_set_cases in Hin as [Heq|Hin].
      * inversion Heq; subst. apply Hl. exact Hd.
      * exact (Hacc name' e d Hin Hd).
Qed.

(** C3.  On a resumed run the input of stage 3 is the menu data without
    the restaurants of the loaded checkpoints, in their order, and stage
    3 scrapes those restaurants only.  The merged result is the loaded
    checkpoints followed by the scraped restaurants: a checkpointed
    restaurant is absent from the input of the stage and the merged
    result maps it to its checkpointed data, unchanged.  That result is
    what the run returns once its serving sizes have been counted: the
    run returns it when each checkpoint entry can be counted and no item
    without url carries a [nutritional_values] of its own, and the run
    raises when a checkpoint entry cannot be counted. *)
Theorem resumed_run_keeps_checkpoints
        (files : list (option (Dict.t json))) (menu_data : Dict.t menu_info) :
  let checkpoints := load_checkpoints files in
  let pending :=
    filter (fun entry => negb (Dict.mem (fst entry) checkpoints)) menu_data in
  NoDup (Dict.keys menu_data) ->
  stage3_input true checkpoints menu_data = pending
  /\ exists enriched_data s',
      NutritionScraper_scrape urljoin net clock config pending fresh_scraper
      = (Ret enriched_data, s')
      /\ Dict.keys enriched_data = Dict.keys pending
      /\ let final := checkpoints ++ enriched_data_json enriched_data in
         (forall restaurant_name data,
             Dict.get restaurant_name checkpoints = Some data ->
             Dict.get restaurant_name pending = None
             /\ Dict.get restaurant_name final = Some data)
         /\ scrape_nutrition_data urljoin net clock config true files menu_data
            = match total_variations final with
              | inr _ => Ret final
              | inl e => Raise e
              end
         /\ ((forall restaurant_name data,
                 In (restaurant_name, data) checkpoints ->
                 exists n, restaurant_variations data = inr n) ->
             (forall restaurant_name info item,
                 In (restaurant_name, info) pending ->
                 In item (opt_or (info_items info) []) ->
                 Py.truthy (get_or "url" "" item) = false ->
                 Dict.get "nutritional_values" item = None) ->
             scrape_nutrition_data urljoin net clock config true files menu_data
             = Ret final)
         /\ (forall restaurant_name data e,
                In (restaurant_name, data) checkpoints ->
                restaurant_variations data = inl e ->
                exists e',
                  scrape_nutrition_data urljoin net clock config true files
                                        menu_data
                  = Raise e').
Proof.
  intros checkpoints pending Hnd.
  assert (Hin3 : stage3_input true checkpoints menu_data = pending).
  { unfold stage3_input. cbn [andb].
    destruct (nonempty checkpoints) eqn:Hne.
    - apply drop_checkpointed_filter.
    - destruct checkpoints; [|discriminate Hne]. unfold pending.
      clear. induction menu_data as [|x d IH]; [reflexivity|].
      cbn. f_equal. exact IH. }
  split; [exact Hin3|].
  assert (Hpnd : NoDup (Dict.keys pending)) by (apply keys_filter_nodup, Hnd).
  unfold NutritionScraper_scrape.
  destruct (scrape_loop_shape pending [] fresh_scraper Hpnd)
    as (out & s' & Hrun & Hkeys & _ & _); [intros k _ []|].
  cbn [Dict.keys map app] in Hkeys. fold (Dict.keys pending) in Hkeys.
  exists out, s'. split; [exact Hrun|]. split; [exact Hkeys|].
  assert (Hpending : forall name, In name (Dict.keys checkpoints) ->
                                  ~ In name (Dict.keys pending)).
  { intros name Hc Hp. unfold Dict.keys, pending in Hp.
    apply in_map_iff in Hp as ([k v] & E & Hp). cbn in E. subst k.
    apply filter_In in Hp as [_ Hp]. cbn in Hp.
    apply mem_in in Hc. rewrite Hc in Hp. discriminate Hp. }
  assert (Hfinal : NoDup (Dict.keys (checkpoints ++ enriched_data_json out))).
  { unfold Dict.keys. rewrite map_app. apply NoDup_app.
    - apply load_checkpoints_nodup.
    - fold (Dict.keys (enriched_data_json out)).
      rewrite keys_enriched_data_json, Hkeys. exact Hpnd.
    - intros name Hc Hp. fold (Dict.keys (enriched_data_json out)) in Hp.
      rewrite keys_enriched_data_json, Hkeys in Hp.
      exact (Hpending name Hc Hp). }
  assert (Hmerge : Dict.merge checkpoints (enriched_data_json out)
                   = checkpoints ++ enriched_data_json out).
  { unfold Dict.merge. rewrite (update_fresh [] checkpoints).
    - apply update_fresh. exact Hfinal.
    - apply load_checkpoints_nodup. }
  assert (Hdef : scrape_nutrition_data urljoin net clock config true files menu_data
                 = match total_variations (checkpoints ++ enriched_data_json out) with
                   | inr _ => Ret (checkpoints ++ enriched_data_json out)
                   | inl e => Raise e
                   end).
  { unfold scrape_nutrition_data. fold checkpoints. rewrite Hin3.
    unfold NutritionScraper_scrape. rewrite Hrun, Hmerge. reflexivity. }
  cbv zeta. split; [|split; [exact Hdef|split]].
  - intros name data Hget. split.
    + apply get_none_not_in. apply Hpending. eapply get_some_in. exact Hget.
    + apply get_app_left. exact Hget.
  - intros Hcp Hitems. rewrite Hdef.
    destruct (scrape_loop_countable pending [] fresh_scraper Hitems)
      as (out' & s'' & Hrun' & Hcount); [intros ? ? ? []|].
    rewrite Hrun in Hrun'. inversion Hrun'; subst out' s''.
    destruct (sum_of_ok restaurant_variations
                        (Dict.values (checkpoints ++ enriched_data_json out)))
      as [n Hn].
    { intros x Hx. unfold Dict.values in Hx. rewrite map_app in Hx.
      apply in_app_or in Hx as [Hx|Hx].
      - apply in_map_iff in Hx as ([k v] & <- & Hin). exact (Hcp k v Hin).
      - apply in_map_iff in Hx as ([k v] & <- & Hin). cbn.
        unfold enriched_data_json in Hin.
        apply in_map_iff in Hin as ([k' e] & Heq & Hin). inversion Heq; subst.
        apply restaurant_variations_enriched. intros d Hd.
        eapply Hcount; eassumption. }
    unfold total_variations. rewrite Hn. reflexivity.
  - intros name data e Hin He. rewrite Hdef.
    destruct (sum_of_fails restaurant_variations
                           (Dict.values (checkpoints ++ enriched_data_json out))
                           data e) as [e' He'].
    + unfold Dict.values. rewrite map_app. apply in_or_app. left.
      apply in_map_iff. exists (name, data). split; [reflexivity | exact Hin].
    + exact He.
    + unfold total_variations. rewrite He'. eauto.
Qed.

End PipelineFacts.

(** ** Stage 2: the menu index *)

Section MenuFacts.
Variable urljoin : string -> string -> string.
Variable net : nat -> string -> string + node.
Variable clock : nat -> Q.
Variable config : ScraperConfig.

(** What the loop stores for a restaurant with a name and a url. *)
Lemma menu_step_valid menu_index restaurant s name url :
  Dict.get "name" restaurant = Some name ->
  Dict.get "url" restaurant = Some url ->
  Py.truthy name = true ->
  Py.truthy url = true ->
  exists o s',
    fetch_page net clock config url s = (o, s')
    /\ menu_step urljoin net clock config menu_index restaurant s
       = (Ret (Dict.set name
                 (match o with
                  | Ret doc =>
                      mkInfo (Some url) (Some (extract_logo_url urljoin config doc))
                             (Some (extract_menu_items urljoin config doc)) None
                  | Raise e =>
                      mkInfo (Some url) (Some "") (Some []) (Some (exn_str e))
                  end) menu_index), s').
Proof.
  intros Hn Hu Tn Tu. unfold menu_step. rewrite Hn, Hu.
  cbn [opt_truthy opt_or]. rewrite Tn, Tu. cbn [negb orb].
  unfold try_except, bind, scrape_restaurant_menu, bind.
  destruct (fetch_page net clock config url s) as [[doc|e] s1];
    eexists _, _; (split; [reflexivity|]); reflexivity.
Qed.

Lemma menu_step_keeps menu_index restaurant s :
  exists menu_index' s',
    menu_step urljoin net clock config menu_index restaurant s = (Ret menu_index', s')
    /\ (forall k, In k (Dict.keys menu_index) -> In k (Dict.keys menu_index'))
    /\ (forall k, Dict.get "name" restaurant <> Some k
                  \/ Dict.get "url" restaurant = None
                  \/ Dict.get "url" restaurant = Some "" ->
                  Dict.get k menu_index' = Dict.get k menu_index).
Proof.
  unfold menu_step.
  destruct (negb (opt_truthy (Dict.get "name" restaurant))
            || negb (opt_truthy (Dict.get "url" restaurant))) eqn:E.
  - exists menu_index, s. repeat split; auto.
  - apply orb_false_elim in E as [E1 E2]. apply negb_false_iff in E1, E2.
    destruct (Dict.get "name" restaurant) as [name|]; [|discriminate].
    destruct (Dict.get "url" restaurant) as [url|]; [|discriminate].
    cbn [opt_or]. unfold try_except, bind.
    destruct (scrape_restaurant_menu urljoin net clock config name url s)
      as [[r|e] s1]; unfold ret; eexists _, s1;
      (split; [reflexivity|]; split;
       [ intros k Hk; apply keys_set; right; exact Hk
       | intros k [Hk|[Hk|Hk]];
         [ apply get_set_other; congruence
         | discriminate Hk
         | inversion Hk; subst url; discriminate E2 ] ]).
Qed.

Lemma menu_loop_keeps restaurants :
  forall menu_index s,
  exists menu_index' s',
    menu_loop urljoin net clock config restaurants menu_index s = (Ret menu_index', s')
    /\ (forall k, In k (Dict.keys menu_index) -> In k (Dict.keys menu_index'))
    /\ (forall k, (forall r, In r restaurants ->
                             Dict.get "name" r <> Some k
                             \/ Dict.get "url" r = None
                             \/ Dict.get "url" r = Some "") ->
                  Dict.get k menu_index' = Dict.get k menu_index).
Proof.
  induction restaurants as [|r restaurants IH]; intros menu_index s.
  - exists menu_index, s. repeat split; auto.
  - cbn [menu_loop]. unfold bind.
    destruct (menu_step_keeps menu_index r s) as (m1 & s1 & E & K1 & G1).
    rewrite E. destruct (IH m1 s1) as (m2 & s2 & E2 & K2 & G2).
    exists m2, s2. split; [exact E2|]. split.
    + intros k Hk. apply K2, K1, Hk.
    + intros k Hk. rewrite G2 by (intros r' Hr'; apply Hk; right; exact Hr').
      apply G1. apply Hk. left. reflexivity.
Qed.

Lemma menu_loop_app pre post :
  forall menu_index s,
    menu_loop urljoin net clock config (pre ++ post) menu_index s
    = match menu_loop urljoin net clock config pre menu_index s with
      | (Ret m, s1) => menu_loop urljoin net clock config post m s1
      | (Raise e, s1) => (Raise e, s1)
      end.
Proof.
  induction pre as [|r pre IH]; intros menu_index s; [reflexivity|].
  cbn [app menu_loop]. unfold bind.
  destruct (menu_step urljoin net clock config menu_index r s) as [[m|e] s1];
    [apply IH | reflexivity].
Qed.

(** C9, as the code has it.  Every restaurant of the list with a
    non-empty name and url has its name among the keys of the result.
    The value under that name is the one written for the last restaurant
    of the list that bears the name and has a non-empty url: when the
    fetch of its page returned, its url with the logo and the items read
    from the page and no ['error']; when the fetch raised, the
    placeholder with its url, an empty logo, no items and the message of
    the exception. *)
Theorem menu_scrape_keeps_every_restaurant
        (pre post : list (Dict.t string)) (restaurant : Dict.t string)
        (name url : string) (s : scraper) :
  Dict.get "name" restaurant = Some name ->
  Dict.get "url" restaurant = Some url ->
  Py.truthy name = true ->
  Py.truthy url = true ->
  exists before s1 menu_index s',
    menu_loop urljoin net clock config pre [] s = (Ret before, s1)
    /\ MenuItemScraper_scrape urljoin net clock config (pre ++ restaurant :: post) s
       = (Ret menu_index, s')
    /\ In name (Dict.keys menu_index)
    /\ ((forall r, In r post ->
                   Dict.get "name" r <> Some name
                   \/ Dict.get "url" r = None
                   \/ Dict.get "url" r = Some "") ->
        (forall document s2,
            fetch_page net clock config url s1 = (Ret document, s2) ->
            Dict.get name menu_index
            = Some (mkInfo (Some url)
                           (Some (extract_logo_url urljoin config document))
                           (Some (extract_menu_items urljoin config document))
                           None))
        /\ (forall e s2,
               fetch_page net clock config url s1 = (Raise e, s2) ->
               Dict.get name menu_index
               = Some (mkInfo (Some url) (Some "") (Some [])
                              (Some (exn_str e))))).
Proof.
  intros Hn Hu Tn Tu. unfold MenuItemScraper_scrape.
  destruct (menu_loop_keeps pre [] s) as (before & s1 & E1 & _ & _).
  rewrite menu_loop_app, E1. cbn [menu_loop]. unfold bind.
  destruct (menu_step_valid before restaurant s1 name url Hn Hu Tn Tu)
    as (o & s2 & Hfetch & E2).
  rewrite E2.
  match goal with
  | |- context [menu_loop _ _ _ _ post ?m s2] =>
      destruct (menu_loop_keeps post m s2) as (menu_index & s' & E3 & K3 & G3)
  end.
  exists before, s1, menu_index, s'. split; [reflexivity|].
  split; [exact E3|]. split.
  - apply K3. apply keys_set. left. reflexivity.
  - intros Hlast. rewrite (G3 name Hlast), get_set_same. split.
    + intros document s2' H. rewrite Hfetch in H. inversion H; subst.
      reflexivity.
    + intros e s2' H. rewrite Hfetch in H. inversion H; subst. reflexivity.
Qed.

End MenuFacts.

(** ** The pipeline on sample sites *)

(** C1: what the code does.  When the requests for an item all fail,
    [process_menu_item] raises inside its decorator, which returns [{}]:
    [scrape] stores the empty dictionary for the item, without the item's
    keys, without [serving_sizes] and without ['error']; the placeholder
    of its [except] branch is never built. *)
Theorem scrape_failed_item_emits_empty_dict :
  fst (process_menu_item_body urljoin0 net_down clock0 config0 cheeseburger fresh_scraper)
  = Raise (NetworkException
             "Failed to fetch https://fastfoodnutrition.org/burger-barn/cheeseburger after 3 attempts: timed out")
  /\ fst (process_menu_item urljoin0 net_down clock0 config0 cheeseburger fresh_scraper)
     = Ret []
  /\ fst (NutritionScraper_scrape urljoin0 net_down clock0 config0 burger_barn_menu
                                  fresh_scraper)
     = Ret [ ("Burger Barn",
              mkEnriched "https://fastfoodnutrition.org/burger-barn" "" [ [] ]) ]
  /\ Dict.get "name" (placeholder_item cheeseburger (NetworkException "timed out"))
     = Some (JStr "Cheeseburger")
  /\ Dict.get "error" (placeholder_item cheeseburger (NetworkException "timed out"))
     = Some (JStr "timed out").
Proof. repeat split; vm_compute; reflexivity. Qed.

(** The first direct text node of the label, stripped, is the name. *)
Lemma label_name_direct_text (label : loc) (raw_name : string) :
  Soup.find_string_direct label = Some raw_name ->
  Py.truthy raw_name = true ->
  label_name label = Some (Py.strip raw_name).
Proof. intros H T. unfold label_name. rewrite H, T. reflexivity. Qed.

Lemma label_name_taco_bell : label_name (root taco_bell_label) = Some "Taco Bell".
Proof. reflexivity. Qed.

(** C8: what the code does.  The label below has no direct text node and
    its full text is ["Sports Nutrition Depot Nutrition"]; the fallback
    removes every [" Nutrition"], not only the trailing one, and the name
    becomes ["Sports Depot"]. *)
Theorem label_name_fallback_removes_every_occurrence :
  Soup.find_string_direct (root sports_label) = None
  /\ Soup.get_text " " (root sports_label) = "Sports Nutrition Depot Nutrition"
  /\ label_name (root sports_label) = Some "Sports Depot"
  /\ extract_restaurant_cards urljoin0 config0 (Some (root sports_listing))
     = [ [ ("name", "Sports Depot");
           ("url", "https://fastfoodnutrition.org/sports-nutrition-depot") ] ].
Proof. repeat split; vm_compute; reflexivity. Qed.

(** C9 fails for restaurants that share a name: the page of the first
    "Subway" is scraped, yet the value under "Subway" is the placeholder
    of the second one. *)
Lemma menu_scrape_same_name_overwrites :
  let scraped_logo := "https://fastfoodnutrition.org/logos/subway.png" in
  let scraped_items :=
    [ [ ("name", "BLT"); ("url", "https://fastfoodnutrition.org/subway/blt");
        ("category", "Sandwiches") ] ] in
  let out :=
    [ ("Subway",
       mkInfo (Some "https://fastfoodnutrition.org/subway-cafe") (Some "")
              (Some [])
              (Some "Failed to fetch https://fastfoodnutrition.org/subway-cafe after 3 attempts: timed out")) ] in
  fst (scrape_restaurant_menu urljoin0 net_first_only clock0 config0 "Subway"
         "https://fastfoodnutrition.org/subway" fresh_scraper)
  = Ret (scraped_logo, scraped_items)
  /\ fst (MenuItemScraper_scrape urljoin0 net_first_only clock0 config0
            [subway; subway_cafe] fresh_scraper)
     = Ret out
  /\ Dict.get "Subway" out
     <> Some (mkInfo (Some "https://fastfoodnutrition.org/subway")
                     (Some scraped_logo) (Some scraped_items) None).
Proof.
  cbv zeta. split; [vm_compute; reflexivity|].
  split; [vm_compute; reflexivity|]. cbn. discriminate.
Qed.


(** C6 fails in three ways.  A last variant whose allergens hold only
    an [allergy_information] text: that result is not empty, yet the
    item keeps the allergens of the first variant, and the text is lost.
    A page of a size that cannot be fetched: the first variant had
    allergens and ingredients, yet the item comes back as [{}], with no
    aggregate at all.  A negative [rate_limit_delay]: both pages are
    fetched, and the item comes back as [{}]. *)
Lemma process_menu_item_advisory_passed_over :
  (extract_allergens (Some (root small_page)) = mkAllergens ["Milk"] [] [] ""
   /\ extract_allergens (Some (root advisory_page))
      = mkAllergens [] [] [] "Allergy information: cooked in shared fryers"
   /\ exists item' s',
       process_menu_item urljoin0 net_advisory clock0 config0 cheeseburger
                         fresh_scraper
       = (Ret item', s')
       /\ outline (trace s')
          = [ Get "https://fastfoodnutrition.org/burger-barn/cheeseburger";
              Get small_url; Get large_url; Sleep (1 # 2) ]
       /\ Dict.get "allergens" item'
          = Some (JDict [ ("contains", JList [JStr "Milk"]);
                          ("does_not_contain", JList []);
                          ("unknown", JList []);
                          ("allergy_information", JStr "") ]))
  /\ (exists item',
         fst (process_menu_item urljoin0 net_large_down clock0 config0 cheeseburger
                                fresh_scraper)
         = Ret item'
         /\ Dict.get "allergens" item' = None
         /\ Dict.get "ingredients" item' = None)
  /\ (exists item',
         fst (process_menu_item urljoin0 net_sizes clock0 config_negative_rate
                                cheeseburger fresh_scraper)
         = Ret item'
         /\ failed_requests
              (stats (snd (process_menu_item urljoin0 net_sizes clock0
                                             config_negative_rate cheeseburger
                                             fresh_scraper))) = 0
         /\ Dict.get "allergens" item' = None
         /\ Dict.get "ingredients" item' = None).
Proof.
  split; [split; [|split]|split].
  - vm_compute. reflexivity.
  - vm_compute. reflexivity.
  - destruct (process_menu_item urljoin0 net_advisory clock0 config0 cheeseburger
                                fresh_scraper) as [o s'] eqn:E.
    vm_compute in E. inversion E; subst. eexists _, _.
    split; [reflexivity|]. split; reflexivity.
  - exists []. repeat split; vm_compute; reflexivity.
  - exists []. repeat split; vm_compute; reflexivity.
Qed.

(** ** The theorems at work on sample inputs *)

(** The sample clock never goes back, and a new scraper is calm. *)
Lemma clock0_steady : steady clock0.
Proof.
  intros n. unfold clock0. rewrite <- Zle_Qle. lia.
Qed.

Lemma fresh_scraper_calm (config : ScraperConfig) :
  (rate_limit_delay config <= sleep_limit)%Q ->
  calm clock0 config fresh_scraper.
Proof. intros H. split; [exact clock0_steady|]. split; [exact H | exact I]. Qed.

Lemma config0_calm : calm clock0 config0 fresh_scraper.
Proof. apply fresh_scraper_calm. vm_compute. discriminate. Qed.



Lemma fetch_page_retry_backoff_witness :
  (exists s',
      fetch_page net_flaky clock0 config0 "https://fastfoodnutrition.org/subway"
                 fresh_scraper
      = (Ret (Some (root (page []))), s')
      /\ total_retries (stats s') = 2
      /\ successful_requests (stats s') = 1
      /\ failed_requests (stats s') = 0
      /\ sleeps (trace s') = [1%Q * inject_Z (2 ^ 0); 1%Q * inject_Z (2 ^ 1)]%Q)
  /\ (exists e s',
         fetch_page net_down clock0 config0 "https://fastfoodnutrition.org/subway"
                    fresh_scraper
         = (Raise e, s')
         /\ failed_requests (stats s') = 1
         /\ sleeps (trace s') = [1%Q * inject_Z (2 ^ 0); 1%Q * inject_Z (2 ^ 1)]%Q).
Proof.
  split.
  - destruct (fetch_page_retry_backoff net_flaky clock0 config0
                "https://fastfoodnutrition.org/subway" fresh_scraper config0_calm)
      as [H _].
    destruct (H eq_refl) as [Hok _]; [split; vm_compute; discriminate ..|].
    destruct (Hok "timed out" "timed out" (page []) eq_refl eq_refl eq_refl)
      as (s' & w1 & w2 & w3 & Hrun & Hr & Hs & Hf & W1 & W2 & W3 & Htr).
    exists s'. repeat split; try assumption.
    rewrite Htr, !sleeps_app.
    rewrite (proj2 (limiter_wait_outline config0 w1 W1)),
            (proj2 (limiter_wait_outline config0 w2 W2)),
            (proj2 (limiter_wait_outline config0 w3 W3)).
    reflexivity.
  - destruct (fetch_page_retry_backoff net_down clock0 config0
                "https://fastfoodnutrition.org/subway" fresh_scraper config0_calm)
      as [_ H].
    destruct (H 2 eq_refl) as (e & s' & Hrun & Hf & _ & Hsl & _).
    + intros i Hi. destruct i as [|[|i]]; [split; vm_compute; discriminate ..|lia].
    + intros i _. exists "timed out". reflexivity.
    + exists (NetworkException
                (fetch_failure_message "https://fastfoodnutrition.org/subway"
                                       (max_retries config0) e)), s'.
      split; [exact Hrun|]. split; [exact Hf | exact Hsl].
Defined.

Lemma extract_nutrition_table_row_cells_witness :
  row_texts (root (tr [th "Calories"; td "250"])) = (Some "Calories", Some "250")
  /\ nutrition_row [] (root (tr [td "Sodium"; td "460mg"])) = [("sodium", "460mg")].
Proof.
  split.
  - destruct (extract_nutrition_table_row_cells
                (root (tr [th "Calories"; td "250"])) []) as [H _].
    exact (proj1 (H _ _ _ eq_refl eq_refl)).
  - destruct (extract_nutrition_table_row_cells
                (root (tr [td "Sodium"; td "460mg"])) []) as (_ & H & _).
    exact (proj2 (H _ _ _ eq_refl eq_refl) eq_refl).
Defined.

Lemma nutrition_rows_filtered_and_snake_cased_witness :
  nutrition_row [("calories", "250")]
                (root (tr [td "amount per serving"; td "1 burger"]))
  = [("calories", "250")]
  /\ nutrition_row [("calories", "250")] (root (tr [td "Iron"; td "-"]))
     = [("calories", "250")].
Proof.
  split.
  - exact (proj1 (nutrition_rows_filtered_and_snake_cased
                    (root (tr [td "amount per serving"; td "1 burger"]))
                    [("calories", "250")] "amount per serving" "1 burger"
                    eq_refl) eq_refl).
  - exact (proj1 (proj2 (nutrition_rows_filtered_and_snake_cased
                           (root (tr [td "Iron"; td "-"]))
                           [("calories", "250")] "Iron" "-" eq_refl)) eq_refl).
Defined.


Lemma process_menu_item_last_nonempty_wins_witness :
  exists item' s',
    process_menu_item urljoin0 net_sizes clock0 config0 cheeseburger fresh_scraper
    = (Ret item', s')
    /\ Dict.get "allergens" item'
       = Some (JDict [ ("contains", JList [JStr "Milk"]);
                       ("does_not_contain", JList []);
                       ("unknown", JList []);
                       ("allergy_information", JStr "") ])
    /\ Dict.get "ingredients" item' = Some (JStr "Beef, Bun").
Proof.
  set (u := "https://fastfoodnutrition.org/burger-barn/cheeseburger").
  set (s1 := snd (fetch_page net_sizes clock0 config0 u fresh_scraper)).
  set (s2 := snd (fetch_page net_sizes clock0 config0 small_url s1)).
  set (s3 := snd (fetch_page net_sizes clock0 config0 large_url s2)).
  assert (H1 : fetch_page net_sizes clock0 config0 u fresh_scraper
               = (Ret (Some (root sized_page)), s1))
    by (vm_compute; reflexivity).
  assert (Hf : fetched net_sizes clock0 config0 s1 [small_url; large_url]
                       [small_page; large_page] s3).
  { exists s2. split; [vm_compute; reflexivity|].
    exists s3. split; [vm_compute; reflexivity | reflexivity]. }
  destruct (process_menu_item_last_nonempty_wins urljoin0 net_sizes clock0 config0
              cheeseburger fresh_scraper s1 s3 sized_page [small_page; large_page]
              eq_refl ltac:(split; vm_compute; discriminate) H1
              ltac:(discriminate) Hf)
    as (item' & s' & Hrun & _ & _ & Ha & Hi & _).
  exists item', s'. split; [exact Hrun|]. split.
  - apply (Ha [] (mkAllergens ["Milk"] [] [] "") [no_allergens]).
    + vm_compute. reflexivity.
    + left. discriminate.
    + intros r [<-|[]]. repeat split; reflexivity.
  - apply (Hi [] "Beef, Bun" [""]).
    + vm_compute. reflexivity.
    + discriminate.
    + intros r [<-|[]]. reflexivity.
Defined.

Lemma process_menu_item_without_url_witness :
  process_menu_item urljoin0 net_down clock0 config0 [("name", "Mystery item")]
                    fresh_scraper
  = (Ret [("name", JStr "Mystery item")], fresh_scraper).
Proof.
  exact (proj1 (process_menu_item_without_url urljoin0 net_down clock0 config0
                  [("name", "Mystery item")] fresh_scraper
                  (or_introl eq_refl))).
Defined.

(** A resumed run with a checkpoint for "Burger Barn": "Taco Town" alone
    is scraped.  With a checkpoint that is a text, the run raises. *)
Lemma resumed_run_keeps_checkpoints_witness :
  (exists final,
      scrape_nutrition_data urljoin0 net_plain clock0 config0 true
        [Some [("Burger Barn", burger_barn_checkpoint)]] two_menus
      = Ret final
      /\ Dict.keys final = ["Burger Barn"; "Taco Town"]
      /\ Dict.get "Burger Barn" final = Some burger_barn_checkpoint)
  /\ (exists e,
         scrape_nutrition_data urljoin0 net_plain clock0 config0 true
           [Some [("Burger Barn", JStr "checkpointed")]] two_menus
         = Raise e).
Proof.
  assert (Hnd : NoDup (Dict.keys two_menus)).
  { constructor; [|constructor; [|constructor]]; cbn.
    - intros [H0|[]]. discriminate H0.
    - intros []. }
  split.
  - destruct (resumed_run_keeps_checkpoints urljoin0 net_plain clock0 config0
                [Some [("Burger Barn", burger_barn_checkpoint)]] two_menus Hnd)
      as (_ & out & s' & _ & Hkeys & Hget & _ & Hret & _).
    eexists. split; [apply Hret|split].
    + intros name data [Heq|[]]. inversion Heq; subst. exists 1. reflexivity.
    + intros name info item [Heq|[]] Hitem. inversion Heq; subst.
      destruct Hitem as [<-|[]]. discriminate.
    + unfold Dict.keys. rewrite map_app.
      fold (Dict.keys (enriched_data_json out)).
      rewrite keys_enriched_data_json, Hkeys. reflexivity.
    + exact (proj2 (Hget "Burger Barn" burger_barn_checkpoint eq_refl)).
  - destruct (resumed_run_keeps_checkpoints urljoin0 net_plain clock0 config0
                [Some [("Burger Barn", JStr "checkpointed")]] two_menus Hnd)
      as (_ & out & s' & _ & _ & _ & _ & _ & Hraise).
    exact (Hraise "Burger Barn" (JStr "checkpointed")
                  (AttributeError "'str' object has no attribute 'get'")
                  (or_introl eq_refl) eq_refl).
Defined.

(** "Subway" alone is scraped; followed by a second "Subway" whose page
    cannot be fetched, the name holds the placeholder of the second. *)
Lemma menu_scrape_keeps_every_restaurant_witness :
  (exists menu_index s',
      MenuItemScraper_scrape urljoin0 net_first_only clock0 config0 [subway]
                             fresh_scraper
      = (Ret menu_index, s')
      /\ Dict.get "Subway" menu_index
         = Some (mkInfo (Some "https://fastfoodnutrition.org/subway")
                        (Some "https://fastfoodnutrition.org/logos/subway.png")
                        (Some [ [ ("name", "BLT");
                                  ("url", "https://fastfoodnutrition.org/subway/blt");
                                  ("category", "Sandwiches") ] ])
                        None))
  /\ (exists menu_index s',
         MenuItemScraper_scrape urljoin0 net_first_only clock0 config0
                                [subway; subway_cafe] fresh_scraper
         = (Ret menu_index, s')
         /\ In "Subway" (Dict.keys menu_index)
         /\ Dict.get "Subway" menu_index
            = Some (mkInfo (Some "https://fastfoodnutrition.org/subway-cafe")
                           (Some "") (Some [])
                           (Some "Failed to fetch https://fastfoodnutrition.org/subway-cafe after 3 attempts: timed out"))).
Proof.
  split.
  - destruct (menu_scrape_keeps_every_restaurant urljoin0 net_first_only clock0
                config0 [] [] subway "Subway"
                "https://fastfoodnutrition.org/subway" fresh_scraper
                eq_refl eq_refl eq_refl eq_refl)
      as (before & s1 & menu_index & s' & Hpre & Hrun & _ & Hval).
    inversion Hpre; subst before s1.
    exists menu_index, s'. split; [exact Hrun|].
    destruct (Hval ltac:(intros r [])) as [Hok _].
    rewrite (Hok (Some (root subway_page))
                 (snd (fetch_page net_first_only clock0 config0
                         "https://fastfoodnutrition.org/subway" fresh_scraper)))
      by (vm_compute; reflexivity).
    vm_compute. reflexivity.
  - destruct (menu_scrape_keeps_every_restaurant urljoin0 net_first_only clock0
                config0 [subway] [] subway_cafe "Subway"
                "https://fastfoodnutrition.org/subway-cafe" fresh_scraper
                eq_refl eq_refl eq_refl eq_refl)
      as (before & s1 & menu_index & s' & Hpre & Hrun & Hin & Hval).
    exists menu_index, s'. split; [exact Hrun|]. split; [exact Hin|].
    destruct (Hval ltac:(intros r [])) as [_ Hraise].
    vm_compute in Hpre. inversion Hpre; subst before s1.
    eapply Hraise with
      (e := NetworkException
              "Failed to fetch https://fastfoodnutrition.org/subway-cafe after 3 attempts: timed out").
    vm_compute. reflexivity.
Defined.

(* ===================================================================== *)
(** * Further properties *)
(* ===================================================================== *)

(** ** fetch_page *)

Section MoreFetchFacts.
Variable urljoin : string -> string -> string.
Variable net : nat -> string -> string + node.
Variable clock : nat -> Q.
Variable config : ScraperConfig.

(** X1.  With a configured [max_retries] of zero or less the loop of
    [fetch_page] has no iteration: the call returns [None], sends no
    request, records nothing and does not sleep.  No scraper reports it:
    [RestaurantScraper.scrape] then returns no restaurant and
    [scrape_restaurant_menu] an empty logo and no item, both without a
    request and without an exception. *)
Theorem fetch_page_without_attempts (url : string) (s : scraper) :
  (max_retries config <= 0)%Z ->
  fetch_page net clock config url s = (Ret None, s)
  /\ RestaurantScraper_scrape urljoin net clock config s = (Ret [], s)
  /\ forall restaurant_name,
       scrape_restaurant_menu urljoin net clock config restaurant_name url s
       = (Ret ("", []), s).
Proof.
  intros H.
  assert (E : forall u, fetch_page net clock config u s = (Ret None, s)).
  { intros u. unfold fetch_page, fetch_page_with. cbn [or_int or_float].
    replace (Z.to_nat (max_retries config)) with 0 by lia. reflexivity. }
  split; [apply E|]. split.
  - unfold RestaurantScraper_scrape, bind. rewrite E. reflexivity.
  - intros restaurant_name. unfold scrape_restaurant_menu, bind. rewrite E.
    reflexivity.
Qed.






(** X25.  When the first attempt fails, more attempts remain and
    [time.sleep] refuses the first backoff delay, [fetch_page] leaves by
    the exception of [time.sleep], not by [NetworkException]: one request
    was sent and one retry is recorded, but neither a request nor a
    failure is counted, and no further attempt is made. *)
Theorem fetch_page_backoff_refused (url : string) (s : scraper) (e : string) :
  (1 < max_retries config)%Z ->
  calm clock config s ->
  ~ sleepable (retry_delay config * inject_Z (2 ^ 0)) ->
  net (sent s) url = inl e ->
  exists e' s',
    fetch_page net clock config url s = (Raise e', s')
    /\ (forall msg, e' <> NetworkException msg)
    /\ ((retry_delay config * inject_Z (2 ^ 0) < 0)%Q ->
        (sleep_floor <= retry_delay config * inject_Z (2 ^ 0))%Q ->
        e' = ValueError "sleep length must be non-negative")
    /\ sent s' = sent s + 1
    /\ total_retries (stats s') = total_retries (stats s) + 1
    /\ total_requests (stats s') = total_requests (stats s)
    /\ failed_requests (stats s') = failed_requests (stats s)
    /\ sleeps (trace s') = sleeps (trace s).
Proof.
  intros Hmr Hc Hno He.
  destruct (attempt_calm net clock config url s Hc)
    as (s1 & t & E & _ & Hst & Hse & Htr & Hw).
  rewrite He in E.
  unfold fetch_page, fetch_page_with. cbn [or_int or_float].
  destruct (Z.to_nat (max_retries config)) as [|k] eqn:Ek; [lia|].
  cbn [fetch_attempts]. unfold bind at 1. rewrite E.
  unfold bind at 1. cbn [record_retry update_stats fst snd].
  replace (Z.of_nat 0 <? max_retries config - 1)%Z with true
    by (symmetry; apply Z.ltb_lt; lia).
  unfold bind at 1, sleep, sleep_as. unfold backoff. cbn [Z.of_nat].
  assert (Hstate : forall x : exn,
             sent s1 = sent s + 1
             /\ total_retries (stats_record_retry (stats s1))
                = total_retries (stats s) + 1
             /\ total_requests (stats_record_retry (stats s1))
                = total_requests (stats s)
             /\ failed_requests (stats_record_retry (stats s1))
                = failed_requests (stats s)
             /\ sleeps (trace s1) = sleeps (trace s)).
  { intros _. rewrite Hst, Hse, Htr, !sleeps_app.
    rewrite (proj2 (limiter_wait_outline config t Hw)). cbn.
    rewrite app_nil_r. repeat split; lia. }
  destruct (Qle_bool sleep_floor (retry_delay config * inject_Z (2 ^ 0))
            && Qle_bool (retry_delay config * inject_Z (2 ^ 0)) sleep_limit)
    eqn:E1.
  - destruct (Qle_bool 0 (retry_delay config * inject_Z (2 ^ 0))) eqn:E0.
    + exfalso. apply Hno. apply andb_prop in E1 as [_ E1].
      split; apply Qle_bool_iff; assumption.
    + eexists _, _. split; [reflexivity|]. split; [discriminate|].
      split; [reflexivity|]. cbn [sent stats trace]. apply Hstate.
      exact (ValueError "").
  - eexists _, _. split; [reflexivity|]. split; [discriminate|]. split.
    + intros Hneg Hfloor. exfalso.
      apply andb_false_iff in E1 as [E1|E1].
      * apply Qle_bool_iff in Hfloor. congruence.
      * assert (Hle : (retry_delay config * inject_Z (2 ^ 0) <= sleep_limit)%Q).
        { apply Qle_trans with (y := 0%Q); [apply Qlt_le_weak, Hneg|].
          unfold sleep_limit, Qle. cbn. lia. }
        apply Qle_bool_iff in Hle. congruence.
    + cbn [sent stats trace]. apply Hstate. exact (ValueError "").
Qed.

End MoreFetchFacts.

(** ** The rate limiter and the statistics *)

(** X4.  The first [wait] of a rate limiter does not sleep.  A later
    [wait] sleeps only when less than [min_delay] has passed since the
    last request, and then for what is missing (at most [min_delay] when
    the clock has not gone back); if the clock has advanced by the time
    slept at least, the time it records is no less than [min_delay] after
    the previous one. *)
Theorem rate_limiter_spacing (rl : RateLimiter) (now after : Q) :
  (last_request_time rl = None -> fst (RateLimiter_wait rl now after) = None)
  /\ (forall last,
         last_request_time rl = Some last ->
         (forall d, limiter_sleep rl now = Some d ->
                    (0 < d)%Q /\ (d == min_delay rl - (now - last))%Q
                    /\ ((last <= now)%Q -> (d <= min_delay rl)%Q))
         /\ (limiter_sleep rl now = None -> (min_delay rl <= now - last)%Q)
         /\ ((match limiter_sleep rl now with
              | Some d => now + d <= after
              | None => now <= after
              end)%Q ->
             exists t, last_request_time (snd (RateLimiter_wait rl now after)) = Some t
                       /\ (min_delay rl <= t - last)%Q)).
Proof.
  split.
  - intros H. unfold RateLimiter_wait, limiter_sleep. rewrite H. reflexivity.
  - intros last H. unfold RateLimiter_wait, limiter_sleep. rewrite H.
    cbn [snd last_request_time].
    destruct (Qlt_le_dec (now - last) (min_delay rl)) as [Hlt|Hle].
    + split; [|split].
      * intros d Hd. inversion Hd; subst. repeat split; try lra; try reflexivity.
      * discriminate.
      * intros Hc. exists after. split; [reflexivity | lra].
    + split; [|split].
      * discriminate.
      * intros _. exact Hle.
      * intros Hc. exists after. split; [reflexivity | lra].
Qed.

Lemma rate_limiter_spacing_witness :
  exists t,
    last_request_time
      (snd (RateLimiter_wait (mkLimiter (1 # 2) (Some 10%Q)) (101 # 10) (21 # 2)))
    = Some t
    /\ (1 # 2 <= t - 10)%Q.
Proof.
  destruct (rate_limiter_spacing (mkLimiter (1 # 2) (Some 10%Q)) (101 # 10) (21 # 2))
    as [_ H].
  destruct (H 10%Q eq_refl) as (_ & _ & Hsp).
  apply Hsp. vm_compute. discriminate.
Defined.

Section StatsFacts.
Variable urljoin : string -> string -> string.
Variable net : nat -> string -> string + node.
Variable clock : nat -> Q.
Variable config : ScraperConfig.

Lemma keeps_ret P {A} (a : A) : keeps_stats P (ret a).
Proof. intros s H. exact H. Qed.

Lemma keeps_raise P {A} (e : exn) : keeps_stats P (@raise A e).
Proof. intros s H. exact H. Qed.

Lemma keeps_bind P {A B} (m : M A) (k : A -> M B) :
  keeps_stats P m -> (forall a, keeps_stats P (k a)) -> keeps_stats P (bind m k).
Proof.
  intros Hm Hk s H. unfold bind. specialize (Hm s H).
  destruct (m s) as [[a|e] s1]; cbn in *; [apply Hk; exact Hm | exact Hm].
Qed.

Lemma keeps_try_except P {A} (m : M A) (h : exn -> M A) :
  keeps_stats P m -> (forall e, keeps_stats P (h e)) ->
  keeps_stats P (try_except m h).
Proof.
  intros Hm Hh s H. unfold try_except. specialize (Hm s H).
  destruct (m s) as [[a|e] s1]; cbn in *; [exact Hm | apply Hh; exact Hm].
Qed.

Lemma keeps_emit P (e : event) : keeps_stats P (emit e).
Proof. intros s H. exact H. Qed.

Lemma keeps_sleep_as P (label : Q -> event) (seconds : Q) :
  keeps_stats P (sleep_as label seconds).
Proof.
  unfold sleep_as.
  destruct (Qle_bool sleep_floor seconds && Qle_bool seconds sleep_limit);
    [destruct (Qle_bool 0 seconds)|];
    [apply keeps_emit | apply keeps_raise | apply keeps_raise].
Qed.

Lemma keeps_rate_limiter_wait P : keeps_stats P (rate_limiter_wait clock config).
Proof.
  unfold rate_limiter_wait.
  apply keeps_bind; [apply keeps_emit|]. intros _.
  apply keeps_bind.
  - intros s H. destruct (limiter_last s) as [last|]; [|exact H].
    refine (keeps_bind P (read_clock clock) _ _ _ s H).
    + intros s0 H0. exact H0.
    + intros now. destruct (limiter_sleep _ now);
        [apply keeps_sleep_as | apply keeps_ret].
  - intros _. apply keeps_bind; [intros s0 H0; exact H0|].
    intros after s0 H0. exact H0.
Qed.

Lemma keeps_attempt P url : keeps_stats P (attempt net clock config url).
Proof.
  unfold attempt. apply keeps_try_except; [|intros e; apply keeps_ret].
  apply keeps_bind; [apply keeps_rate_limiter_wait|].
  intros _ s H. exact H.
Qed.

Lemma keeps_fetch_attempts url mr rd :
  forall k a, keeps_stats accounted (fetch_attempts net clock config url mr rd k a).
Proof.
  induction k as [|k IH]; intros a; [apply keeps_ret|].
  cbn [fetch_attempts]. apply keeps_bind; [apply keeps_attempt|].
  intros [e|soup].
  - apply keeps_bind; [intros s H; unfold accounted in *; cbn; exact H|].
    intros _. destruct (Z.of_nat a <? mr - 1)%Z.
    + apply keeps_bind; [apply keeps_sleep_as | intros _; apply IH].
    + apply keeps_bind; [|intros _; apply keeps_raise].
      intros s H. unfold accounted in *. cbn. lia.
  - apply keeps_bind; [|intros _; apply keeps_ret].
    intros s H. unfold accounted in *. cbn. lia.
Qed.

Lemma keeps_fetch_page url : keeps_stats accounted (fetch_page net clock config url).
Proof. apply keeps_fetch_attempts. Qed.

Lemma keeps_extract_item_nutrition_data u l f :
  keeps_stats accounted (extract_item_nutrition_data urljoin net clock config u l f).
Proof.
  unfold extract_item_nutrition_data. apply keeps_bind; [apply keeps_fetch_page|].
  intros doc. apply keeps_ret.
Qed.

Lemma keeps_variants_loop item_name options :
  forall acc, keeps_stats accounted
                (variants_loop urljoin net clock config item_name options acc).
Proof.
  induction options as [|opt options IH]; intros [[sz a] i]; cbn [variants_loop].
  - apply keeps_ret.
  - apply keeps_bind; [apply keeps_extract_item_nutrition_data|].
    intros [[[sv al] ing] img]. apply IH.
Qed.

Lemma keeps_process_menu_item item :
  keeps_stats accounted (process_menu_item urljoin net clock config item).
Proof.
  unfold process_menu_item, with_error_handling.
  apply keeps_try_except; [|intros e; apply keeps_ret].
  unfold process_menu_item_body.
  destruct (negb (Py.truthy (get_or "url" "" item))); [apply keeps_ret|].
  apply keeps_bind; [apply keeps_fetch_page|]. intros doc.
  apply keeps_bind.
  - destruct (nonempty (extract_dropdown_options urljoin config doc)).
    + apply keeps_bind; [apply keeps_variants_loop|].
      intros [[sz a] i]. apply keeps_ret.
    + apply keeps_bind; [apply keeps_extract_item_nutrition_data|].
      intros [[[sv al] ing] img]. apply keeps_ret.
  - intros item'. apply keeps_bind; [apply keeps_sleep_as | intros; apply keeps_ret].
Qed.

Lemma keeps_process_items items :
  forall processed,
    keeps_stats accounted (process_items urljoin net clock config items processed).
Proof.
  induction items as [|item items IH]; intros processed; cbn [process_items].
  - apply keeps_ret.
  - apply keeps_bind; [|intros entry; apply IH].
    apply keeps_try_except; [apply keeps_process_menu_item|].
    intros e. apply keeps_ret.
Qed.

Lemma keeps_scrape_loop entries :
  forall enriched_data,
    keeps_stats accounted (scrape_loop urljoin net clock config entries enriched_data).
Proof.
  induction entries as [|[name info] entries IH]; intros enriched_data;
    cbn [scrape_loop].
  - apply keeps_ret.
  - apply keeps_bind; [apply keeps_process_items|]. intros processed.
    apply keeps_bind; [apply keeps_sleep_as|]. intros _. apply IH.
Qed.

Lemma keeps_menu_loop restaurants :
  forall menu_index,
    keeps_stats accounted (menu_loop urljoin net clock config restaurants menu_index).
Proof.
  induction restaurants as [|r restaurants IH]; intros menu_index;
    cbn [menu_loop].
  - apply keeps_ret.
  - apply keeps_bind; [|intros m; apply IH].
    unfold menu_step.
    destruct (negb (opt_truthy (Dict.get "name" r))
              || negb (opt_truthy (Dict.get "url" r))); [apply keeps_ret|].
    apply keeps_try_except; [|intros e; apply keeps_ret].
    apply keeps_bind; [|intros x; apply keeps_ret].
    unfold scrape_restaurant_menu.
    apply keeps_bind; [apply keeps_fetch_page | intros d; apply keeps_ret].
Qed.

(** X5.  Whatever the network answers, after a run of any of the three
    scrapers that started with fresh statistics every counted request is
    counted once, as a success or as a failure:
    [total_requests = successful_requests + failed_requests]. *)
Theorem scrapers_account_for_every_request
        (restaurants : list (Dict.t string)) (menu_data : Dict.t menu_info) :
  accounted (stats (snd (RestaurantScraper_scrape urljoin net clock config fresh_scraper)))
  /\ accounted (stats (snd (MenuItemScraper_scrape urljoin net clock config restaurants
                                                   fresh_scraper)))
  /\ accounted (stats (snd (NutritionScraper_scrape urljoin net clock config menu_data
                                                    fresh_scraper))).
Proof.
  split; [|split].
  - apply (keeps_bind accounted); [apply keeps_fetch_page | intros d; apply keeps_ret |].
    reflexivity.
  - apply keeps_menu_loop. reflexivity.
  - apply keeps_scrape_loop. reflexivity.
Qed.

End StatsFacts.

(** ** De-duplication by URL *)

Lemma str_in_In (s : string) (l : list string) :
  Soup.str_in s l = true <-> In s l.
Proof.
  unfold Soup.str_in. rewrite existsb_exists. split.
  - intros (x & Hx & E). apply String.eqb_eq in E. subst. exact Hx.
  - intros H. exists s. split; [exact H | apply String.eqb_refl].
Qed.

Lemma str_in_not_In (s : string) (l : list string) :
  Soup.str_in s l = false <-> ~ In s l.
Proof.
  rewrite <- str_in_In. destruct (Soup.str_in s l); split; intros H.
  - discriminate.
  - exfalso. apply H. reflexivity.
  - intros H'. discriminate.
  - reflexivity.
Qed.


Section MoreExtractors.
Variable urljoin : string -> string -> string.
Variable config : ScraperConfig.


Lemma unique_items_facts (items : list (Dict.t string)) :
  forall seen,
    NoDup (map (get_or "url" "") (unique_items seen items))
    /\ (forall i, In i (unique_items seen items) ->
                  In i items /\ ~ In (get_or "url" "" i) seen)
    /\ (forall i, In i items ->
                  In (get_or "url" "" i) seen
                  \/ In (get_or "url" "" i)
                        (map (get_or "url" "") (unique_items seen items))).
Proof.
  induction items as [|o items IH]; intros seen.
  - cbn. repeat split; try constructor; tauto.
  - cbn [unique_items].
    destruct (Soup.str_in (get_or "url" "" o) seen) eqn:E.
    + apply str_in_In in E. destruct (IH seen) as (H1 & H2 & H3).
      split; [exact H1|]. split.
      * intros o' Ho'. destruct (H2 o' Ho'). split; [right|]; assumption.
      * intros o' [<-|Ho']; [left; exact E | apply H3; exact Ho'].
    + apply str_in_not_In in E.
      destruct (IH (get_or "url" "" o :: seen)) as (H1 & H2 & H3).
      split; [|split].
      * cbn. constructor; [|exact H1].
        intros Hin. apply in_map_iff in Hin as (o' & Eo & Ho').
        destruct (H2 o' Ho') as [_ Hn]. apply Hn. left. symmetry. exact Eo.
      * intros o' [<-|Ho']; [split; [left; reflexivity | exact E]|].
        destruct (H2 o' Ho') as [Hi Hn]. split; [right; exact Hi|].
        intros Hs. apply Hn. right. exact Hs.
      * intros o' [<-|Ho']; [right; left; reflexivity|].
        destruct (H3 o' Ho') as [[Hu|Hs]|Hr].
        -- right. left. exact Hu.
        -- left. exact Hs.
        -- right. right. exact Hr.
Qed.

(** X7.  The items [extract_menu_items] returns have pairwise distinct
    URLs, across all the categories of the page.  Each one is a
    dictionary with exactly the keys [name], [url] and [category], built
    from an item link of a category block; the category is the text of the
    block's heading, or ["Uncategorized"] when the block has none. *)
Theorem extract_menu_items_unique (document : loc) :
  let items := extract_menu_items urljoin config (Some document) in
  NoDup (map (get_or "url" "") items)
  /\ (forall item,
         In item items ->
         exists category_block anchor,
           In category_block
              (Soup.select [[Soup.tag_cls "div" ["category"]]] document)
           /\ In anchor (Soup.select category_items category_block)
           /\ Dict.keys item = ["name"; "url"; "category"]
           /\ Dict.get "url" item
              = Some (urljoin (base_url config) (href anchor))
           /\ Dict.get "category" item
              = Some (match Soup.select_one category_heading category_block with
                      | Some heading => Soup.get_text "" heading
                      | None => "Uncategorized"
                      end)).
Proof.
  intros items. unfold items, extract_menu_items.
  match goal with
  | |- context [unique_items [] ?l] =>
      destruct (unique_items_facts l []) as (H1 & H2 & _)
  end.
  split; [exact H1|].
  intros item Hin. destruct (H2 item Hin) as [Hi _].
  apply in_flat_map in Hi as (block & Hb & Hi).
  unfold category_block_items in Hi. apply in_map_iff in Hi as (anchor & <- & Ha).
  exists block, anchor. repeat split; assumption.
Qed.

Lemma in_set_inv {V : Type} (k : string) (v : V) (d : Dict.t V) (k' : string) (v' : V) :
  In (k', v') (Dict.set k v d) -> (k' = k /\ v' = v) \/ In (k', v') d.
Proof.
  induction d as [|[k0 v0] d IH]; cbn.
  - intros [E|[]]. inversion E. left. split; reflexivity.
  - destruct (String.eqb k k0) eqn:E; cbn.
    + intros [H|H]; [inversion H; left; split; reflexivity | right; right; exact H].
    + intros [H|H]; [right; left; exact H|].
      destruct (IH H) as [H'|H']; [left; exact H' | right; right; exact H'].
Qed.

Lemma restaurant_card_ok results card :
  cards_ok results -> cards_ok (restaurant_card urljoin config results card).
Proof.
  intros [Hnd Hall]. unfold restaurant_card.
  destruct (Soup.find (Soup.tag_attr "a" (Soup.HasAttr "href")) card) as [anchor|];
    [|split; assumption].
  destruct (opt_truthy (card_name card)
            && Py.truthy (urljoin (base_url config) (href anchor))) eqn:E;
    [|split; assumption].
  apply andb_prop in E as [En Eu]. split.
  - apply set_nodup. exact Hnd.
  - intros u r Hin. apply in_set_inv in Hin as [[-> ->]|Hin]; [|apply Hall; exact Hin].
    destruct (card_name card) as [n|]; [|discriminate].
    exists n. repeat split; assumption.
Qed.

(** X8.  Every restaurant [extract_restaurant_cards] returns is a
    dictionary of the form [{"name": n, "url": u}] with [n] and [u]
    non-empty, and the URLs of the restaurants are pairwise distinct. *)
Theorem extract_restaurant_cards_valid (document : option loc) :
  let restaurants := extract_restaurant_cards urljoin config document in
  NoDup (map (get_or "url" "") restaurants)
  /\ forall r, In r restaurants ->
               exists n u, r = [("name", n); ("url", u)]
                           /\ Py.truthy n = true /\ Py.truthy u = true.
Proof.
  intros restaurants. unfold restaurants, extract_restaurant_cards.
  assert (G : forall d : Dict.t (Dict.t string),
             cards_ok d ->
             NoDup (map (get_or "url" "") (Dict.values d))
             /\ forall r, In r (Dict.values d) ->
                          exists n u, r = [("name", n); ("url", u)]
                                      /\ Py.truthy n = true /\ Py.truthy u = true).
  { intros d [Hnd Hall].
    assert (Hv : forall r, In r (Dict.values d) -> exists u, In (u, r) d).
    { intros r Hr. unfold Dict.values in Hr. apply in_map_iff in Hr as ([u r'] & E & Hin).
      cbn in E. subst. eauto. }
    split.
    - assert (E : map (get_or "url" "") (Dict.values d) = Dict.keys d).
      { unfold Dict.values, Dict.keys. rewrite map_map. apply map_ext_in.
        intros [u r] Hin. cbn. destruct (Hall u r Hin) as (n & -> & _).
        reflexivity. }
      rewrite E. exact Hnd.
    - intros r Hr. destruct (Hv r Hr) as [u Hin].
      destruct (Hall u r Hin) as (n & E & Tn & Tu). eauto. }
  assert (F : forall cards d, cards_ok d ->
                              cards_ok (fold_left (restaurant_card urljoin config) cards d)).
  { induction cards as [|c cards IH]; intros d Hd; [exact Hd|].
    cbn. apply IH. apply restaurant_card_ok. exact Hd. }
  assert (E0 : cards_ok []).
  { split; [constructor | intros ? ? []]. }
  destruct document as [document|]; [|apply (G [] E0)].
  destruct (Soup.select_one [[Soup.cls_ ["rest_item_list"; "category"]]] document);
    [|apply (G [] E0)].
  apply G. apply F. exact E0.
Qed.

End MoreExtractors.

(** ** The shape of snake-cased names *)

Lemma fold_char_snake (c : ascii) : snake_char (fold_char c) = true.
Proof.
  destruct c as [[] [] [] [] [] [] [] []]; vm_compute; reflexivity.
Qed.

Lemma fold_char_fixed (c : ascii) : snake_char c = true -> fold_char c = c.
Proof.
  destruct c as [[] [] [] [] [] [] [] []]; vm_compute;
    solve [reflexivity | discriminate].
Qed.

Lemma all_chars_smap (q : ascii -> bool) (f : ascii -> ascii) (s : string) :
  (forall c, q (f c) = true) -> all_chars q (Py.smap f s) = true.
Proof.
  intros H. induction s as [|c r IH]; [reflexivity|].
  cbn. rewrite H, IH. reflexivity.
Qed.

Lemma all_chars_collapse (q : ascii -> bool) (s : string) :
  all_chars q s = true -> all_chars q (collapse_underscores s) = true.
Proof.
  induction s as [|c r IH]; [reflexivity|].
  cbn [all_chars collapse_underscores]. intros H.
  apply andb_prop in H as [Hc Hr].
  destruct (Ascii.eqb c "_" && Py.startswith r "_"); [apply IH; exact Hr|].
  cbn [all_chars]. rewrite Hc, (IH Hr). reflexivity.
Qed.

Lemma all_chars_lstrip (q p : ascii -> bool) (s : string) :
  all_chars q s = true -> all_chars q (Py.lstrip_with p s) = true.
Proof.
  induction s as [|c r IH]; [reflexivity|].
  cbn [Py.lstrip_with]. intros H. destruct (p c); [|exact H].
  apply IH. cbn in H. apply andb_prop in H as [_ H]. exact H.
Qed.

Lemma all_chars_rstrip (q p : ascii -> bool) (s : string) :
  all_chars q s = true -> all_chars q (Py.rstrip_with p s) = true.
Proof.
  induction s as [|c r IH]; [reflexivity|].
  cbn [Py.rstrip_with all_chars]. intros H. apply andb_prop in H as [Hc Hr].
  specialize (IH Hr).
  destruct (Py.rstrip_with p r) as [|d r'].
  - destruct (p c); [reflexivity|]. cbn. rewrite Hc. reflexivity.
  - cbn [all_chars] in *. rewrite Hc, IH. reflexivity.
Qed.

Lemma squeeze_loop_without_run (s : string) :
  Py.contains (squeeze_loop s) "__" = false.
Proof.
  funelim (squeeze_loop s).
  - exact H.
  - assumption.
Qed.

Lemma contains_lstrip (p : ascii -> bool) (sub s : string) :
  Py.contains s sub = false -> Py.contains (Py.lstrip_with p s) sub = false.
Proof.
  induction s as [|c r IH]; [intros H; exact H|].
  cbn [Py.lstrip_with]. intros H. destruct (p c); [|exact H].
  apply IH. cbn [Py.contains] in H. apply orb_false_elim in H as [_ H]. exact H.
Qed.

Lemma rstrip_prefix (p : ascii -> bool) (s : string) :
  exists t, s = (Py.rstrip_with p s ++ t)%string.
Proof.
  induction s as [|c r [t IH]]; [exists EmptyString; reflexivity|].
  cbn [Py.rstrip_with]. destruct (Py.rstrip_with p r) as [|d r'].
  - destruct (p c).
    + exists (String c r). reflexivity.
    + exists t. cbn in *. f_equal. exact IH.
  - exists t. cbn in *. f_equal. exact IH.
Qed.

Lemma startswith_app (a t p : string) :
  Py.startswith a p = true -> Py.startswith (a ++ t) p = true.
Proof.
  revert a. induction p as [|d p IH]; intros a; [reflexivity|].
  destruct a as [|c a]; cbn; [discriminate|].
  intros H. apply andb_prop in H as [H1 H2]. rewrite H1, (IH a H2). reflexivity.
Qed.

Lemma contains_prefix (a t : string) (d : ascii) (p : string) :
  Py.contains (a ++ t) (String d p) = false -> Py.contains a (String d p) = false.
Proof.
  induction a as [|c a IH]; [reflexivity|].
  intros H. change (String c a ++ t)%string with (String c (a ++ t)) in H.
  cbn [Py.contains] in *. apply orb_false_elim in H as [H1 H2].
  rewrite (IH H2), orb_false_r.
  destruct (Py.startswith (String c a) (String d p)) eqn:E; [|reflexivity].
  apply (startswith_app _ t) in E.
  change (String c a ++ t)%string with (String c (a ++ t)) in E. congruence.
Qed.

Lemma contains_rstrip (p : ascii -> bool) (s : string) (d : ascii) (sub : string) :
  Py.contains s (String d sub) = false ->
  Py.contains (Py.rstrip_with p s) (String d sub) = false.
Proof.
  intros H. destruct (rstrip_prefix p s) as [t E]. rewrite E in H.
  apply contains_prefix in H. exact H.
Qed.

Lemma lstrip_head (s : string) :
  Py.startswith (Py.lstrip_with is_underscore s) "_" = false.
Proof.
  induction s as [|c r IH]; [reflexivity|].
  cbn [Py.lstrip_with]. destruct (is_underscore c) eqn:E; [exact IH|].
  rewrite startswith_u_cons, <- is_underscore_eqb. exact E.
Qed.

Lemma rstrip_head (s : string) :
  Py.startswith s "_" = false ->
  Py.startswith (Py.rstrip_with is_underscore s) "_" = false.
Proof.
  intros H. destruct (Py.rstrip_with is_underscore s) as [|d r'] eqn:E;
    [reflexivity|].
  destruct (rstrip_keeps_head _ _ _ _ E) as [r0 ->].
  rewrite startswith_u_cons in *. exact H.
Qed.

Lemma rstrip_last (s : string) :
  last_char (Py.rstrip_with is_underscore s) <> Some "_"%char.
Proof.
  induction s as [|c r IH]; [discriminate|].
  cbn [Py.rstrip_with]. destruct (Py.rstrip_with is_underscore r) as [|d r'].
  - destruct (is_underscore c) eqn:E; [discriminate|].
    cbn. intros H. inversion H; subst. discriminate E.
  - exact IH.
Qed.

Lemma strip_underscores_eq (s : string) :
  Py.strip_chars "_" s = Py.rstrip_with is_underscore (Py.lstrip_with is_underscore s).
Proof. reflexivity. Qed.

(** X9.  A name produced by [_to_snake_case] is made of lower-case
    alphanumeric characters and underscores only, has no two underscores
    in a row, and neither starts nor ends with an underscore. *)
Theorem to_snake_case_shape (text : string) :
  let key := _to_snake_case text in
  all_chars snake_char key = true
  /\ Py.contains key "__" = false
  /\ Py.startswith key "_" = false
  /\ last_char key <> Some "_"%char.
Proof.
  cbn zeta. unfold _to_snake_case. rewrite strip_underscores_eq.
  unfold Py.lower. rewrite smap_smap.
  split; [|split; [|split]].
  - apply all_chars_rstrip, all_chars_lstrip.
    rewrite squeeze_loop_collapse. apply all_chars_collapse, all_chars_smap.
    intros c. apply (fold_char_snake c).
  - apply contains_rstrip, contains_lstrip, squeeze_loop_without_run.
  - apply rstrip_head, lstrip_head.
  - apply rstrip_last.
Qed.

Lemma smap_fixed (f : ascii -> ascii) (q : ascii -> bool) (s : string) :
  (forall c, q c = true -> f c = c) -> all_chars q s = true -> Py.smap f s = s.
Proof.
  intros Hf. induction s as [|c r IH]; [reflexivity|].
  cbn. intros H. apply andb_prop in H as [Hc Hr].
  rewrite (Hf c Hc), (IH Hr). reflexivity.
Qed.

Lemma lstrip_fixed (s : string) :
  Py.startswith s "_" = false -> Py.lstrip_with is_underscore s = s.
Proof.
  destruct s as [|c r]; [reflexivity|].
  rewrite startswith_u_cons, <- is_underscore_eqb. cbn [Py.lstrip_with].
  intros ->. reflexivity.
Qed.

Lemma rstrip_fixed (s : string) :
  last_char s <> Some "_"%char -> Py.rstrip_with is_underscore s = s.
Proof.
  induction s as [|c r IH]; [reflexivity|].
  intros H. cbn [Py.rstrip_with]. destruct r as [|d r'].
  - destruct (is_underscore c) eqn:E; [|reflexivity].
    rewrite is_underscore_eqb in E.
    apply Ascii.eqb_eq in E. subst. exfalso. apply H. reflexivity.
  - rewrite IH by exact H. reflexivity.
Qed.

(** Snake-casing leaves a name of that shape as it is. *)
Lemma to_snake_case_fixed (key : string) :
  all_chars snake_char key = true ->
  Py.contains key "__" = false ->
  Py.startswith key "_" = false ->
  last_char key <> Some "_"%char ->
  _to_snake_case key = key.
Proof.
  intros Hc Hr Hs Hl. rewrite to_snake_case_spec. unfold snake_case_spec.
  unfold Py.lower. rewrite smap_smap.
  rewrite (smap_fixed _ snake_char key);
    [| intros c H; exact (fold_char_fixed c H) | exact Hc].
  rewrite (collapse_without_run _ Hr), strip_underscores_eq.
  rewrite (lstrip_fixed _ Hs). apply rstrip_fixed. exact Hl.
Qed.

(** A snake-cased name is left as it is by every step of the
    snake-casing. *)
Lemma to_snake_case_shaped (text : string) :
  all_chars snake_char (_to_snake_case text) = true
  /\ Py.contains (_to_snake_case text) "__" = false
  /\ Py.startswith (_to_snake_case text) "_" = false
  /\ last_char (_to_snake_case text) <> Some "_"%char.
Proof.
  unfold _to_snake_case. rewrite strip_underscores_eq.
  unfold Py.lower. rewrite smap_smap.
  repeat split.
  - apply all_chars_rstrip, all_chars_lstrip.
    rewrite squeeze_loop_collapse. apply all_chars_collapse, all_chars_smap.
    intros c. apply (fold_char_snake c).
  - apply contains_rstrip, contains_lstrip, squeeze_loop_without_run.
  - apply rstrip_head, lstrip_head.
  - apply rstrip_last.
Qed.

(** X10.  Snake-casing is idempotent: a name that is already snake-cased
    is kept, so the keys of the nutrition table are their own
    snake-casing. *)
Theorem to_snake_case_idempotent (text : string) :
  _to_snake_case (_to_snake_case text) = _to_snake_case text.
Proof.
  destruct (to_snake_case_shaped text) as (Hc & Hr & Hs & Hl).
  apply to_snake_case_fixed; assumption.
Qed.

(** ** More on the extractors of an item page *)

Lemma nutrition_row_cases (nutrition : Dict.t string) (row : loc) :
  nutrition_row nutrition row = nutrition
  \/ exists key_text value_text,
      row_texts row = (Some key_text, Some value_text)
      /\ row_kept key_text value_text = true
      /\ nutrition_row nutrition row
         = Dict.set (_to_snake_case key_text) (Py.strip value_text) nutrition.
Proof.
  destruct (row_texts row) as [[key_text|] [value_text|]] eqn:E.
  - rewrite (nutrition_row_texts nutrition row key_text value_text E).
    destruct (row_kept key_text value_text) eqn:K; [|left; reflexivity].
    right. exists key_text, value_text. repeat split; [exact K].
  - left. unfold nutrition_row. rewrite E.
    destruct (Py.truthy key_text
              && negb (Py.startswith_any (Py.lower key_text) header_prefixes));
      reflexivity.
  - left. unfold nutrition_row. rewrite E. reflexivity.
  - left. unfold nutrition_row. rewrite E. reflexivity.
Qed.

Lemma nutrition_rows_nodup (rows : list loc) :
  forall nutrition,
    NoDup (Dict.keys nutrition) ->
    NoDup (Dict.keys (fold_left nutrition_row rows nutrition)).
Proof.
  induction rows as [|row rows IH]; intros nutrition H; [exact H|].
  cbn [fold_left]. apply IH.
  destruct (nutrition_row_cases nutrition row) as [->|(k & v & _ & _ & ->)];
    [exact H | apply set_nodup; exact H].
Qed.

Lemma nutrition_rows_keep (rows : list loc) :
  forall (nutrition : Dict.t string) (k v : string),
    Dict.get k nutrition = Some v ->
    (forall r key_text value_text,
        In r rows ->
        row_texts r = (Some key_text, Some value_text) ->
        row_kept key_text value_text = true ->
        _to_snake_case key_text <> k) ->
    Dict.get k (fold_left nutrition_row rows nutrition) = Some v.
Proof.
  induction rows as [|row rows IH]; intros nutrition k v Hg Hl; [exact Hg|].
  cbn [fold_left]. apply IH.
  - destruct (nutrition_row_cases nutrition row) as [->|(kt & vt & E & K & ->)];
      [exact Hg|].
    rewrite get_set_other; [exact Hg|].
    intros Heq. apply (Hl row kt vt (or_introl eq_refl) E K). symmetry. exact Heq.
  - intros r kt vt Hin. apply Hl. right. exact Hin.
Qed.

(** X11.  The nutrition table has one entry for each name.  A row that is
    kept is stored under its snake-cased key unless a later kept row has
    the same snake-cased key: of the rows that share a key the last one
    gives the value. *)
Theorem extract_nutrition_table_last_row_wins
        (document table : loc) (pre post : list loc) (row : loc)
        (key_text value_text : string) :
  first_hit nutrition_table_selectors document = Some table ->
  Soup.select [[Soup.tag_ "tr"]] table = pre ++ row :: post ->
  row_texts row = (Some key_text, Some value_text) ->
  row_kept key_text value_text = true ->
  (forall r k v,
      In r post -> row_texts r = (Some k, Some v) -> row_kept k v = true ->
      _to_snake_case k <> _to_snake_case key_text) ->
  NoDup (Dict.keys (extract_nutrition_table (Some document)))
  /\ Dict.get (_to_snake_case key_text) (extract_nutrition_table (Some document))
     = Some (Py.strip value_text).
Proof.
  intros Ht Hrows Hrow Hk Hlater. unfold extract_nutrition_table.
  rewrite Ht, Hrows. split.
  - apply nutrition_rows_nodup. constructor.
  - rewrite fold_left_app. cbn [fold_left].
    apply nutrition_rows_keep; [|exact Hlater].
    rewrite (nutrition_row_texts _ row key_text value_text Hrow), Hk.
    apply get_set_same.
Qed.

Lemma filter_truthy_forall (l : list string) :
  Forall (fun x => Py.truthy x = true) (filter Py.truthy l).
Proof.
  apply Forall_forall. intros x Hx. apply filter_In in Hx as [_ Hx]. exact Hx.
Qed.

Lemma allergen_column_wellformed (acc : ScrapedAllergens) (col : loc) :
  allergens_wellformed acc -> allergens_wellformed (allergen_column acc col).
Proof.
  intros (H1 & H2 & H3 & H4). unfold allergen_column.
  destruct (Soup.find (Soup.tag_ "strong") col) as [header|];
    [|repeat split; assumption].
  repeat match goal with
         | |- context [if ?b then _ else _] => destruct b
         end;
    unfold allergens_wellformed;
    cbn [contains does_not_contain unknown allergy_information];
    repeat split; try assumption; apply filter_truthy_forall.
Qed.

Lemma allergen_paragraph_wellformed (acc : ScrapedAllergens) (p : loc) :
  allergens_wellformed acc -> allergens_wellformed (allergen_paragraph acc p).
Proof.
  intros (H1 & H2 & H3 & H4). unfold allergen_paragraph.
  destruct (Py.truthy (Soup.get_text " " p)
            && (Py.contains (Py.lower (Soup.get_text " " p)) "allergy"
                || Py.contains (Py.lower (Soup.get_text " " p)) "allergen")) eqn:E;
    [|repeat split; assumption].
  apply andb_prop in E as [_ E]. apply orb_prop in E.
  unfold allergens_wellformed.
  cbn [contains does_not_contain unknown allergy_information].
  repeat split; try assumption. right. exact E.
Qed.

Lemma fold_wellformed (f : ScrapedAllergens -> loc -> ScrapedAllergens) (l : list loc) :
  (forall a x, allergens_wellformed a -> allergens_wellformed (f a x)) ->
  forall a, allergens_wellformed a -> allergens_wellformed (fold_left f l a).
Proof.
  intros Hf. induction l as [|x l IH]; intros a Ha; [exact Ha|].
  cbn. apply IH, Hf, Ha.
Qed.

(** X12.  Whatever the page, the allergens [extract_allergens] returns
    list no empty name, and their note is empty or a text that mentions
    "allergy" or "allergen" (in any case). *)
Theorem extract_allergens_wellformed (document : option loc) :
  allergens_wellformed (extract_allergens document).
Proof.
  assert (H0 : allergens_wellformed no_allergens).
  { repeat split; try (left; reflexivity); constructor. }
  unfold extract_allergens. destruct document as [document|]; [|exact H0].
  destruct (Soup.select_one [[Soup.id_ "allergens"]] document); [|exact H0].
  apply fold_wellformed; [exact allergen_paragraph_wellformed|].
  apply fold_wellformed; [exact allergen_column_wellformed | exact H0].
Qed.

Lemma select_one_in (sel : Soup.selector) (l x : loc) :
  Soup.select_one sel l = Some x -> In x (Soup.select sel l).
Proof.
  unfold Soup.select_one. destruct (Soup.select sel l); cbn; [discriminate|].
  intros H. inversion H. left. reflexivity.
Qed.

Lemma select_single_matches (c : Soup.simple) (l x : loc) :
  In x (Soup.select [[c]] l) ->
  In x (Soup.descendants l) /\ Soup.matches c (snd x) = true.
Proof.
  unfold Soup.select. intros H. apply filter_In in H as [Hin H].
  split; [exact Hin|]. cbn in H. rewrite orb_false_r in H.
  apply andb_prop in H as [H _]. exact H.
Qed.

Lemma matches_attr_prefix (t name p : string) (n : node) :
  Soup.matches (Soup.tag_attr t (Soup.AttrPrefix name p)) n = true ->
  exists v, Soup.attr name n = Some v /\ Py.startswith v p = true.
Proof.
  destruct n as [s|tag classes attrs kids]; cbn; [discriminate|].
  rewrite !andb_true_r. intros H. apply andb_prop in H as [_ H].
  destruct (Dict.get name attrs) as [v|]; [|discriminate]. eauto.
Qed.

Lemma matches_tag_attr_tag (t : string) (a : Soup.attr_test) (n : node) :
  Soup.matches (Soup.tag_attr t a) n = true ->
  exists classes attrs kids, n = Elem t classes attrs kids.
Proof.
  destruct n as [s|tag classes attrs kids]; cbn; [discriminate|].
  intros H. apply andb_prop in H as [H _]. apply andb_prop in H as [H _].
  apply andb_prop in H as [H _]. apply String.eqb_eq in H. subst tag. eauto.
Qed.

Section ImageFacts.
Variable urljoin : string -> string -> string.
Variable config : ScraperConfig.

Lemma first_content_image_inv (imgs : list loc) (u : string) :
  first_content_image urljoin config imgs = Some u ->
  exists img src,
    In img imgs
    /\ Soup.attr "src" (snd img) = Some src
    /\ Py.truthy src = true
    /\ Py.contains src "/logos/" = false
    /\ Py.contains src "/icons/" = false
    /\ u = urljoin (base_url config) src.
Proof.
  induction imgs as [|img imgs IH]; cbn [first_content_image]; [discriminate|].
  destruct (Soup.attr "src" (snd img)) as [src|] eqn:E.
  - destruct (Py.truthy src && negb (Py.contains src "/logos/")
              && negb (Py.contains src "/icons/")) eqn:T.
    + intros H. inversion H. exists img, src.
      apply andb_prop in T as [T T3]. apply andb_prop in T as [T1 T2].
      apply negb_true_iff in T2, T3.
      repeat split; try assumption. left. reflexivity.
    + intros H. destruct (IH H) as (i & s & Hin & R). exists i, s.
      split; [right; exact Hin | exact R].
  - cbn. intros H. destruct (IH H) as (i & s & Hin & R). exists i, s.
    split; [right; exact Hin | exact R].
Qed.

(** X13.  The image URL of an item page, when there is one, is the [src]
    of an image of the page joined to the base URL, and that [src] is not
    empty.  It is the [src] of an [img] element and starts with
    ["/item-photos/"], or else the image is one of the content columns
    whose [src] has neither ["/logos/"] nor ["/icons/"] in it: a logo or
    an icon is never returned for an item. *)
Theorem extract_item_image_provenance (document : loc) (u : string) :
  extract_item_image urljoin config (Some document) = Some u ->
  exists img src,
    Soup.attr "src" (snd img) = Some src
    /\ Py.truthy src = true
    /\ u = urljoin (base_url config) src
    /\ ((In img (Soup.descendants document)
         /\ (exists classes attrs kids, snd img = Elem "img" classes attrs kids)
         /\ Py.startswith src "/item-photos/" = true)
        \/ (In img (Soup.select content_images document)
            /\ Py.contains src "/logos/" = false
            /\ Py.contains src "/icons/" = false)).
Proof.
  unfold extract_item_image.
  assert (F : first_content_image urljoin config (Soup.select content_images document)
              = Some u ->
              exists img src,
                Soup.attr "src" (snd img) = Some src
                /\ Py.truthy src = true
                /\ u = urljoin (base_url config) src
                /\ ((In img (Soup.descendants document)
                     /\ (exists classes attrs kids,
                            snd img = Elem "img" classes attrs kids)
                     /\ Py.startswith src "/item-photos/" = true)
                    \/ (In img (Soup.select content_images document)
                        /\ Py.contains src "/logos/" = false
                        /\ Py.contains src "/icons/" = false))).
  { intros H. apply first_content_image_inv in H
      as (img & src & Hin & Hs & Ht & Hl & Hi & Hu).
    exists img, src. repeat split; try assumption. right. repeat split; assumption. }
  destruct (Soup.select_one
              [[Soup.tag_attr "img" (Soup.AttrPrefix "src" "/item-photos/")]]
              document) as [img|] eqn:E; [|exact F].
  destruct (Soup.attr "src" (snd img)) as [src|] eqn:Es; [|exact F].
  destruct (Py.truthy src) eqn:T; [|exact F].
  intros H. inversion H. exists img, src.
  apply select_one_in, select_single_matches in E as [Hin Hm].
  pose proof (matches_tag_attr_tag _ _ _ Hm) as Htag.
  apply matches_attr_prefix in Hm as (v & Hv & Hp).
  rewrite Es in Hv. inversion Hv; subst v.
  repeat split; try assumption. left. split; [|split]; assumption.
Qed.

End ImageFacts.

(** ** The three stages *)

Section StageFacts.
Variable urljoin : string -> string -> string.
Variable net : nat -> string -> string + node.
Variable clock : nat -> Q.
Variable config : ScraperConfig.


Lemma get_set_inv {V : Type} (k k' : string) (v v' : V) (d : Dict.t V) :
  Dict.get k (Dict.set k' v' d) = Some v ->
  (k = k' /\ v = v') \/ (k <> k' /\ Dict.get k d = Some v).
Proof.
  destruct (string_dec k k') as [->|Hne].
  - rewrite get_set_same. intros H. inversion H. left. split; reflexivity.
  - rewrite get_set_other by exact Hne. intros H. right. split; assumption.
Qed.

Lemma index_of_more (done : list (Dict.t string)) (r : Dict.t string)
      (menu_index : Dict.t menu_info) :
  index_of done menu_index ->
  (negb (opt_truthy (Dict.get "name" r)) || negb (opt_truthy (Dict.get "url" r)))
  = true ->
  index_of (done ++ [r]) menu_index.
Proof.
  intros (Hnd & Hk & Hv) Hskip. split; [exact Hnd|]. split.
  - intros k. rewrite Hk. split.
    + intros (r0 & url & Hin & R). exists r0, url. split; [|exact R].
      apply in_or_app. left. exact Hin.
    + intros (r0 & url & Hin & Hn & Hu & Tn & Tu).
      apply in_app_or in Hin as [Hin|[<-|[]]].
      * exists r0, url. repeat split; assumption.
      * rewrite Hn, Hu in Hskip. cbn in Hskip. rewrite Tn, Tu in Hskip.
        discriminate.
  - intros k info Hg. destruct (Hv k info Hg) as (r0 & url & Hin & R).
    exists r0, url. split; [|exact R]. apply in_or_app. left. exact Hin.
Qed.

Lemma index_of_set (done : list (Dict.t string)) (r : Dict.t string)
      (menu_index : Dict.t menu_info) (name url : string) (info : menu_info) :
  index_of done menu_index ->
  Dict.get "name" r = Some name ->
  Dict.get "url" r = Some url ->
  Py.truthy name = true ->
  Py.truthy url = true ->
  (exists logo items, info = mkInfo (Some url) (Some logo) (Some items) None)
  \/ (exists msg, info = mkInfo (Some url) (Some "") (Some []) (Some msg)) ->
  index_of (done ++ [r]) (Dict.set name info menu_index).
Proof.
  intros (Hnd & Hk & Hv) Hn Hu Tn Tu Hinfo. split; [|split].
  - apply set_nodup. exact Hnd.
  - intros k. rewrite keys_set, Hk. split.
    + intros [->|(r0 & u0 & Hin & R)].
      * exists r, url. repeat split; try assumption.
        apply in_or_app. right. left. reflexivity.
      * exists r0, u0. split; [|exact R]. apply in_or_app. left. exact Hin.
    + intros (r0 & u0 & Hin & Hn0 & Hu0 & Tn0 & Tu0).
      apply in_app_or in Hin as [Hin|[<-|[]]].
      * right. exists r0, u0. repeat split; assumption.
      * left. congruence.
  - intros k info' Hg. apply get_set_inv in Hg as [[-> ->]|[Hne Hg]].
    + exists r, url. repeat split; try assumption.
      apply in_or_app. right. left. reflexivity.
    + destruct (Hv k info' Hg) as (r0 & u0 & Hin & R).
      exists r0, u0. split; [|exact R]. apply in_or_app. left. exact Hin.
Qed.

Lemma menu_step_index (done : list (Dict.t string)) (r : Dict.t string)
      (menu_index : Dict.t menu_info) (s : scraper) :
  index_of done menu_index ->
  exists menu_index' s',
    menu_step urljoin net clock config menu_index r s = (Ret menu_index', s')
    /\ index_of (done ++ [r]) menu_index'.
Proof.
  intros Hinv. unfold menu_step.
  destruct (negb (opt_truthy (Dict.get "name" r))
            || negb (opt_truthy (Dict.get "url" r))) eqn:E.
  - exists menu_index, s. split; [reflexivity|].
    apply index_of_more; assumption.
  - apply orb_false_elim in E as [E1 E2]. apply negb_false_iff in E1, E2.
    destruct (Dict.get "name" r) as [name|] eqn:Hn; [|discriminate].
    destruct (Dict.get "url" r) as [url|] eqn:Hu; [|discriminate].
    cbn [opt_or opt_truthy] in *. unfold try_except, bind.
    destruct (scrape_restaurant_menu urljoin net clock config name url s)
      as [[[logo items]|e] s1]; unfold ret; eexists _, s1;
      (split; [reflexivity|]); apply (index_of_set done r menu_index name url);
      try assumption.
    + left. exists logo, items. reflexivity.
    + right. exists (exn_str e). reflexivity.
Qed.

Lemma menu_loop_index (restaurants : list (Dict.t string)) :
  forall done menu_index s,
    index_of done menu_index ->
    exists menu_index' s',
      menu_loop urljoin net clock config restaurants menu_index s = (Ret menu_index', s')
      /\ index_of (done ++ restaurants) menu_index'.
Proof.
  induction restaurants as [|r restaurants IH]; intros done menu_index s Hinv.
  - exists menu_index, s. rewrite app_nil_r. split; [reflexivity | exact Hinv].
  - cbn [menu_loop]. unfold bind.
    destruct (menu_step_index done r menu_index s Hinv) as (m1 & s1 & E & H1).
    rewrite E. destruct (IH (done ++ [r]) m1 s1 H1) as (m2 & s2 & E2 & H2).
    exists m2, s2. split; [exact E2|]. rewrite <- app_assoc in H2. exact H2.
Qed.

(** X15.  [MenuItemScraper.scrape] never raises.  The keys of its result
    are the names of the restaurants of the list that have a non-empty
    name and a non-empty url, each once: an entry without name or url is
    skipped and adds nothing.  Every value carries the url of a
    restaurant of that name and is either a scraped entry, with a logo and
    a list of items and no ['error'], or the placeholder with an empty
    logo, no item and the error message. *)
Theorem menu_scrape_index (restaurants : list (Dict.t string)) (s : scraper) :
  exists menu_index s',
    MenuItemScraper_scrape urljoin net clock config restaurants s = (Ret menu_index, s')
    /\ NoDup (Dict.keys menu_index)
    /\ (forall k,
           In k (Dict.keys menu_index) <->
           exists r url,
             In r restaurants
             /\ Dict.get "name" r = Some k /\ Dict.get "url" r = Some url
             /\ Py.truthy k = true /\ Py.truthy url = true)
    /\ (forall k info,
           Dict.get k menu_index = Some info ->
           exists r url,
             In r restaurants
             /\ Dict.get "name" r = Some k /\ Dict.get "url" r = Some url
             /\ ((exists logo items,
                     info = mkInfo (Some url) (Some logo) (Some items) None)
                 \/ (exists msg,
                        info = mkInfo (Some url) (Some "") (Some []) (Some msg)))).
Proof.
  unfold MenuItemScraper_scrape.
  assert (H0 : index_of [] []).
  { split; [constructor|]. split.
    - intros k. split; [intros [] | intros (r & u & [] & _)].
    - intros k info H. discriminate H. }
  destruct (menu_loop_index restaurants [] [] s H0) as (m & s' & E & H).
  exists m, s'. split; [exact E | exact H].
Qed.

(** X16.  [NutritionScraper.scrape] never raises, whatever the network
    answers.  Its result has the restaurants of the menu data, in the
    same order; each keeps its url and its logo (the empty string when
    the key is absent) and has as many items as it came with: an item that
    could not be scraped still takes its place in the list. *)
Theorem nutrition_scrape_shape (menu_data : Dict.t menu_info) (s : scraper) :
  NoDup (Dict.keys menu_data) ->
  exists enriched_data s',
    NutritionScraper_scrape urljoin net clock config menu_data s = (Ret enriched_data, s')
    /\ Dict.keys enriched_data = Dict.keys menu_data
    /\ (forall restaurant_name info,
           In (restaurant_name, info) menu_data ->
           exists e,
             Dict.get restaurant_name enriched_data = Some e
             /\ enriched_url e = opt_or (info_url info) ""
             /\ enriched_logo e = opt_or (info_logo info) ""
             /\ length (enriched_items e)
                = length (opt_or (info_items info) [])).
Proof.
  intros Hnd. unfold NutritionScraper_scrape.
  destruct (scrape_loop_shape urljoin net clock config menu_data [] s Hnd)
    as (out & s' & E & Hk & _ & Hall).
  { intros k _ []. }
  exists out, s'. split; [exact E|]. split; [exact Hk | exact Hall].
Qed.

Lemma keys_update {V : Type} (other : Dict.t V) :
  forall (d : Dict.t V) k,
    In k (Dict.keys (Dict.update d other))
    <-> In k (Dict.keys d) \/ In k (Dict.keys other).
Proof.
  unfold Dict.update.
  induction other as [|[k' v'] other IH]; intros d k; cbn [fold_left].
  - cbn. tauto.
  - rewrite IH, keys_set. cbn. intuition congruence.
Qed.

(** The count of the serving sizes of a scraped result succeeds when no
    item without url carries a [nutritional_values] of its own. *)
Lemma scraped_countable (menu_data : Dict.t menu_info) (s : scraper) :
  (forall name info item,
      In (name, info) menu_data -> In item (opt_or (info_items info) []) ->
      Py.truthy (get_or "url" "" item) = false ->
      Dict.get "nutritional_values" item = None) ->
  exists out s',
    NutritionScraper_scrape urljoin net clock config menu_data s = (Ret out, s')
    /\ forall x, In x (Dict.values (enriched_data_json out)) ->
                 exists n, restaurant_variations x = inr n.
Proof.
  intros Hitems. unfold NutritionScraper_scrape.
  destruct (scrape_loop_countable urljoin net clock config menu_data [] s Hitems)
    as (out & s' & Hrun & Hcount); [intros ? ? ? []|].
  exists out, s'. split; [exact Hrun|].
  intros x Hx. unfold Dict.values, enriched_data_json in Hx. rewrite map_map in Hx.
  apply in_map_iff in Hx as ([k e] & <- & Hin). cbn.
  apply restaurant_variations_enriched. intros d Hd. eapply Hcount; eassumption.
Qed.

(** X17.  Stage 3 loses no restaurant, and it returns when the count of
    the serving sizes that ends it succeeds: on a resumed run every entry
    of the checkpoints can be counted, and no item without url carries a
    [nutritional_values] of its own.  Every restaurant of the menu data
    is then a key of the result, taken from a checkpoint or scraped.
    Without resuming, the checkpoint files are not read and the result
    has exactly the restaurants of the menu data, in their order. *)
Theorem stage3_keeps_every_restaurant
        (resume_from_checkpoint : bool) (files : list (option (Dict.t json)))
        (menu_data : Dict.t menu_info) :
  NoDup (Dict.keys menu_data) ->
  (resume_from_checkpoint = true ->
   forall restaurant_name data,
     In (restaurant_name, data) (load_checkpoints files) ->
     exists n, restaurant_variations data = inr n) ->
  (forall restaurant_name info item,
      In (restaurant_name, info) menu_data ->
      In item (opt_or (info_items info) []) ->
      Py.truthy (get_or "url" "" item) = false ->
      Dict.get "nutritional_values" item = None) ->
  exists final,
    scrape_nutrition_data urljoin net clock config resume_from_checkpoint files menu_data
    = Ret final
    /\ (forall restaurant_name,
           In restaurant_name (Dict.keys menu_data) ->
           In restaurant_name (Dict.keys final))
    /\ (resume_from_checkpoint = false -> Dict.keys final = Dict.keys menu_data).
Proof.
  intros Hnd Hcp Hitems. unfold scrape_nutrition_data.
  destruct resume_from_checkpoint.
  - set (checkpoints := load_checkpoints files).
    set (pending := stage3_input true checkpoints menu_data).
    assert (Hsub : forall x, In x pending -> In x menu_data).
    { intros x. unfold pending, stage3_input.
      destruct (true && nonempty checkpoints); [|tauto].
      rewrite drop_checkpointed_filter. intros Hx.
      apply filter_In in Hx. tauto. }
    assert (Hpnd : NoDup (Dict.keys pending)).
    { unfold pending, stage3_input. destruct (true && nonempty checkpoints);
        [rewrite drop_checkpointed_filter; apply keys_filter_nodup|]; exact Hnd. }
    destruct (scraped_countable pending fresh_scraper) as (out & s' & E & Hcount).
    { intros name info item Hin. apply (Hitems name info item), Hsub, Hin. }
    destruct (scrape_loop_shape urljoin net clock config pending [] fresh_scraper
                                Hpnd)
      as (out' & s'' & E' & Hk & _); [intros k _ []|].
    unfold NutritionScraper_scrape in E. rewrite E' in E.
    inversion E; subst out' s''. clear E.
    unfold NutritionScraper_scrape. rewrite E'.
    destruct (sum_of_ok restaurant_variations
                (Dict.values (Dict.merge checkpoints (enriched_data_json out))))
      as [n Hn].
    { intros x Hx. unfold Dict.values in Hx.
      apply in_map_iff in Hx as ([k v] & <- & Hin). cbn.
      unfold Dict.merge in Hin.
      assert (G : forall (other d : Dict.t json),
                 In (k, v) (Dict.update d other) ->
                 In (k, v) d \/ In (k, v) other).
      { unfold Dict.update. induction other as [|[k0 v0] other IH]; intros d H0;
          cbn [fold_left] in H0; [left; exact H0|].
        destruct (IH _ H0) as [H1|H1]; [|right; right; exact H1].
        apply in_set_cases in H1 as [H1|H1];
          [right; left; symmetry; exact H1 | left; exact H1]. }
      apply G in Hin as [Hin|Hin].
      - apply G in Hin as [[]|Hin]. exact (Hcp eq_refl k v Hin).
      - apply Hcount. unfold Dict.values. apply in_map_iff.
        exists (k, v). split; [reflexivity | exact Hin]. }
    unfold total_variations. rewrite Hn.
    eexists. split; [reflexivity|]. split; [|discriminate].
    intros name Hin. unfold Dict.merge. apply keys_update.
    destruct (in_dec string_dec name (Dict.keys checkpoints)) as [Hc|Hc].
    + left. apply keys_update. right. exact Hc.
    + right. rewrite keys_enriched_data_json, Hk. cbn [Dict.keys map app].
      fold (Dict.keys pending).
      unfold pending, stage3_input. destruct (true && nonempty checkpoints);
        [|exact Hin].
      rewrite drop_checkpointed_filter. unfold Dict.keys in *.
      apply in_map_iff in Hin as ([k v] & Ek & Hin). cbn in Ek. subst k.
      apply in_map_iff. exists (name, v). split; [reflexivity|].
      apply filter_In. split; [exact Hin|]. cbn.
      destruct (Dict.mem name checkpoints) eqn:Em; [|reflexivity].
      apply mem_in in Em. contradiction.
  - unfold stage3_input. cbn [andb].
    destruct (scraped_countable menu_data fresh_scraper Hitems)
      as (out & s' & E & Hcount).
    destruct (scrape_loop_shape urljoin net clock config menu_data [] fresh_scraper
                                Hnd)
      as (out' & s'' & E' & Hk & _); [intros k _ []|].
    unfold NutritionScraper_scrape in E. rewrite E' in E.
    inversion E; subst out' s''. clear E.
    unfold NutritionScraper_scrape. rewrite E'.
    destruct (sum_of_ok restaurant_variations
                        (Dict.values (enriched_data_json out)) Hcount) as [n Hn].
    unfold total_variations. rewrite Hn.
    eexists. split; [reflexivity|].
    rewrite keys_enriched_data_json, Hk. split; [tauto | reflexivity].
Qed.

Lemma process_menu_item_urlless (item : Dict.t string) (s : scraper) :
  Py.truthy (get_or "url" "" item) = false ->
  process_menu_item urljoin net clock config item s = (Ret (as_json item), s).
Proof.
  intros H. unfold process_menu_item, with_error_handling, try_except,
    process_menu_item_body. rewrite H. reflexivity.
Qed.

Lemma process_items_urlless (items : list (Dict.t string)) :
  forall (processed : list (Dict.t json)) s,
  exists l s',
    process_items urljoin net clock config items processed s = (Ret l, s')
    /\ (forall d, In d processed -> In d l)
    /\ (forall item, In item items ->
                     Py.truthy (get_or "url" "" item) = false ->
                     In (as_json item) l).
Proof.
  induction items as [|item items IH]; intros processed s; cbn [process_items].
  - exists processed, s. split; [reflexivity|]. split; [tauto | intros ? []].
  - unfold bind, try_except.
    destruct (process_menu_item_returns urljoin net clock config item s)
      as (d & s1 & E).
    rewrite E. destruct (IH (processed ++ [d]) s1) as (l & s' & Hrun & Hkeep & Hall).
    exists l, s'. split; [exact Hrun|]. split.
    + intros d' Hd'. apply Hkeep, in_or_app. left. exact Hd'.
    + intros item' [<-|Hin] Hurl; [|exact (Hall item' Hin Hurl)].
      rewrite (process_menu_item_urlless item s Hurl) in E.
      inversion E; subst. apply Hkeep, in_or_app. right. left. reflexivity.
Qed.

Lemma in_set_other {V : Type} (k k' : string) (v v' : V) (d : Dict.t V) :
  k <> k' -> In (k, v) d -> In (k, v) (Dict.set k' v' d).
Proof.
  intros Hne. induction d as [|[k0 v0] d IH]; cbn; [tauto|].
  destruct (String.eqb k' k0) eqn:E.
  - apply String.eqb_eq in E. subst k0.
    intros [H|H]; [inversion H; congruence | right; exact H].
  - intros [H|H]; [left; exact H | right; apply IH; exact H].
Qed.

Lemma in_set_same {V : Type} (k : string) (v : V) (d : Dict.t V) :
  In (k, v) (Dict.set k v d).
Proof.
  induction d as [|[k0 v0] d IH]; cbn; [left; reflexivity|].
  destruct (String.eqb k k0); [left; reflexivity | right; exact IH].
Qed.

Lemma scrape_loop_urlless (entries : list (string * menu_info)) :
  forall enriched_data s,
    NoDup (Dict.keys entries) ->
    exists out s',
      scrape_loop urljoin net clock config entries enriched_data s = (Ret out, s')
      /\ (forall name e, In (name, e) enriched_data ->
                         ~ In name (Dict.keys entries) -> In (name, e) out)
      /\ (forall name info item,
             In (name, info) entries ->
             In item (opt_or (info_items info) []) ->
             Py.truthy (get_or "url" "" item) = false ->
             exists e, In (name, e) out /\ In (as_json item) (enriched_items e)).
Proof.
  induction entries as [|[name info] entries IH]; intros enriched_data s Hnd.
  - exists enriched_data, s. split; [reflexivity|]. split; [tauto | intros ? ? ? []].
  - cbn [scrape_loop]. unfold bind at 1.
    destruct (process_items_urlless (opt_or (info_items info) []) [] s)
      as (l & s1 & E & _ & Hl). rewrite E.
    unfold bind. rewrite sleep_2.
    cbn [Dict.keys map fst] in Hnd. inversion Hnd as [|? ? Hno Hnd']; subst.
    match goal with
    | |- context [scrape_loop _ _ _ _ entries ?d ?st] =>
        destruct (IH d st Hnd') as (out & s' & Hrun & Hkeep & Hall)
    end.
    exists out, s'. split; [exact Hrun|]. split.
    + intros n e Hin Hn. cbn in Hn. apply Hkeep; [|tauto].
      apply in_set_other; [intros ->; tauto | exact Hin].
    + intros n i item [Heq|Hin] Hitem Hurl.
      * inversion Heq; subst n i. eexists. split.
        -- apply Hkeep; [apply in_set_same | exact Hno].
        -- cbn [enriched_items]. apply Hl; assumption.
      * exact (Hall n i item Hin Hitem Hurl).
Qed.

Lemma sum_of_inl_inv {A : Type} (f : A -> exn + nat) (l : list A) (e : exn) :
  sum_of f l = inl e -> exists x, In x l /\ f x = inl e.
Proof.
  induction l as [|y l IH]; cbn; [discriminate|].
  destruct (f y) as [e'|n] eqn:Ey.
  - intros H. inversion H; subst. exists y. split; [left; reflexivity | exact Ey].
  - destruct (sum_of f l) as [e'|m]; [|discriminate].
    intros H. inversion H; subst. destruct (IH eq_refl) as (x & Hx & Hfx).
    exists x. split; [right; exact Hx | exact Hfx].
Qed.

Lemma sum_of_fails_same {A : Type} (f : A -> exn + nat) (l : list A) (x : A)
      (e : exn) :
  (forall y e', In y l -> f y = inl e' -> e' = e) ->
  In x l -> f x = inl e -> sum_of f l = inl e.
Proof.
  intros Hall Hin Hx.
  destruct (sum_of_fails f l x e Hin Hx) as [e' He'].
  destruct (sum_of_inl_inv f l e' He') as (y & Hy & Hfy).
  rewrite He', (Hall y e' Hy Hfy). reflexivity.
Qed.

(** The count of a processed item fails in one way only. *)
Lemma process_menu_item_count (item : Dict.t string) (s : scraper) :
  exists d s',
    process_menu_item urljoin net clock config item s = (Ret d, s')
    /\ forall e, item_variations (JDict d) = inl e ->
                 e = AttributeError "'str' object has no attribute 'get'".
Proof.
  destruct (Py.truthy (get_or "url" "" item)) eqn:Hurl.
  - destruct (process_menu_item_countable urljoin net clock config item s)
      as (d & s' & n & E & Hn); [congruence|].
    exists d, s'. split; [exact E|]. intros e He. congruence.
  - destruct (Dict.get "nutritional_values" item) as [v|] eqn:Hnv.
    + exists (as_json item), s. split; [apply process_menu_item_urlless, Hurl|].
      unfold item_variations. rewrite as_json_get, Hnv. cbn.
      intros e He. inversion He. reflexivity.
    + destruct (process_menu_item_countable urljoin net clock config item s)
        as (d & s' & n & E & Hn); [intros _; exact Hnv|].
      exists d, s'. split; [exact E|]. intros e He. congruence.
Qed.

Lemma process_items_count (items : list (Dict.t string)) :
  forall (processed : list (Dict.t json)) s,
    (forall d e, In d processed -> item_variations (JDict d) = inl e ->
                 e = AttributeError "'str' object has no attribute 'get'") ->
    exists l s',
      process_items urljoin net clock config items processed s = (Ret l, s')
      /\ forall d e, In d l -> item_variations (JDict d) = inl e ->
                     e = AttributeError "'str' object has no attribute 'get'".
Proof.
  induction items as [|item items IH]; intros processed s Hdone;
    cbn [process_items].
  - exists processed, s. split; [reflexivity | exact Hdone].
  - unfold bind, try_except.
    destruct (process_menu_item_count item s) as (d & s1 & E & Hd).
    rewrite E. apply IH.
    intros d' e Hin. apply in_app_or in Hin as [Hin|[<-|[]]];
      [apply (Hdone d' e Hin) | apply Hd].
Qed.

Lemma scrape_loop_count (entries : list (string * menu_info)) :
  forall enriched_data s,
    (forall name x d e,
        In (name, x) enriched_data -> In d (enriched_items x) ->
        item_variations (JDict d) = inl e ->
        e = AttributeError "'str' object has no attribute 'get'") ->
    exists out s',
      scrape_loop urljoin net clock config entries enriched_data s = (Ret out, s')
      /\ forall name x d e,
           In (name, x) out -> In d (enriched_items x) ->
           item_variations (JDict d) = inl e ->
           e = AttributeError "'str' object has no attribute 'get'".
Proof.
  induction entries as [|[name info] entries IH]; intros enriched_data s Hacc.
  - exists enriched_data, s. split; [reflexivity | exact Hacc].
  - cbn [scrape_loop]. unfold bind at 1.
    destruct (process_items_count (opt_or (info_items info) []) [] s)
      as (l & s1 & E & Hl); [intros ? ? []|].
    rewrite E. unfold bind. rewrite sleep_2. apply IH.
    intros name' x d e Hin Hd. apply in_set_cases in Hin as [Heq|Hin].
    + inversion Heq; subst. apply Hl. exact Hd.
    + exact (Hacc name' x d e Hin Hd).
Qed.

(** X26.  The count of the serving sizes that ends stage 3 makes the
    stage raise, after everything has been scraped, when the menu data
    holds an item without url that carries a [nutritional_values] of its
    own: the item is returned as it is and its [nutritional_values] is a
    text, which has no [get]. *)
Theorem stage3_count_raises
        (files : list (option (Dict.t json))) (menu_data : Dict.t menu_info)
        (restaurant_name : string) (info : menu_info) (item : Dict.t string)
        (v : string) :
  NoDup (Dict.keys menu_data) ->
  In (restaurant_name, info) menu_data ->
  In item (opt_or (info_items info) []) ->
  Dict.get "url" item = None \/ Dict.get "url" item = Some "" ->
  Dict.get "nutritional_values" item = Some v ->
  exists enriched_data s',
    NutritionScraper_scrape urljoin net clock config menu_data fresh_scraper
    = (Ret enriched_data, s')
    /\ scrape_nutrition_data urljoin net clock config false files menu_data
       = Raise (AttributeError "'str' object has no attribute 'get'").
Proof.
  intros Hnd Hin Hitem Hurl Hnv.
  assert (Hfalsy : Py.truthy (get_or "url" "" item) = false).
  { unfold get_or. destruct Hurl as [H|H]; rewrite H; reflexivity. }
  assert (Hbad : item_variations (JDict (as_json item))
                 = inl (AttributeError "'str' object has no attribute 'get'")).
  { unfold item_variations. rewrite as_json_get, Hnv. reflexivity. }
  unfold scrape_nutrition_data, stage3_input, NutritionScraper_scrape.
  cbn [andb].
  destruct (scrape_loop_urlless menu_data [] fresh_scraper Hnd)
    as (out & s' & Hrun & _ & Hall).
  destruct (scrape_loop_count menu_data [] fresh_scraper)
    as (out' & s'' & Hrun' & Hcount); [intros ? ? ? ? []|].
  rewrite Hrun in Hrun'. inversion Hrun'; subst out' s''. clear Hrun'.
  destruct (Hall restaurant_name info item Hin Hitem Hfalsy) as (x & Hx & Hd).
  exists out, s'. split; [exact Hrun|]. rewrite Hrun.
  assert (Hrest : forall name y e,
             In (name, y) out ->
             restaurant_variations (enriched_json y) = inl e ->
             e = AttributeError "'str' object has no attribute 'get'").
  { intros name y e Hy He. unfold restaurant_variations, enriched_json in He.
    cbn in He. apply sum_of_inl_inv in He as (j & Hj & Hfj).
    apply in_map_iff in Hj as (d & <- & Hdy).
    exact (Hcount name y d e Hy Hdy Hfj). }
  assert (Hx' : restaurant_variations (enriched_json x)
                = inl (AttributeError "'str' object has no attribute 'get'")).
  { unfold restaurant_variations, enriched_json. cbn.
    apply (sum_of_fails_same item_variations _ (JDict (as_json item))).
    - intros j e' Hj Hfj. apply in_map_iff in Hj as (d & <- & Hdx).
      exact (Hcount restaurant_name x d e' Hx Hdx Hfj).
    - apply in_map. exact Hd.
    - exact Hbad. }
  unfold total_variations.
  rewrite (sum_of_fails_same restaurant_variations
             (Dict.values (enriched_data_json out)) (enriched_json x)
             (AttributeError "'str' object has no attribute 'get'")).
  - reflexivity.
  - intros j e' Hj Hfj. unfold Dict.values, enriched_data_json in Hj.
    rewrite map_map in Hj. apply in_map_iff in Hj as ([name y] & <- & Hy).
    exact (Hrest name y e' Hy Hfj).
  - unfold Dict.values, enriched_data_json. rewrite map_map.
    apply in_map_iff. exists (restaurant_name, x). split; [reflexivity | exact Hx].
  - exact Hx'.
Qed.

End StageFacts.

(** ** Checkpoint files *)




(** ** File names *)

Lemma smap_ext (f g : ascii -> ascii) (s : string) :
  (forall c, f c = g c) -> Py.smap f s = Py.smap g s.
Proof.
  intros H. induction s as [|c r IH]; [reflexivity|].
  cbn. rewrite H, IH. reflexivity.
Qed.

Lemma smap_id (s : string) : Py.smap (fun c => c) s = s.
Proof. induction s as [|c r IH]; [reflexivity|]. cbn. rewrite IH. reflexivity. Qed.

Lemma smap_length (f : ascii -> ascii) (s : string) :
  String.length (Py.smap f s) = String.length s.
Proof. induction s as [|c r IH]; [reflexivity|]. cbn. rewrite IH. reflexivity. Qed.

Lemma replace_char (c : ascii) (s : string) :
  Py.replace (String c EmptyString) "_" s
  = Py.smap (fun x => if Ascii.eqb x c then "_"%char else x) s.
Proof.
  unfold Py.replace. induction s as [|x r IH]; [reflexivity|].
  cbn [Py.replace_from Py.smap Py.startswith]. rewrite andb_true_r.
  destruct (Ascii.eqb x c); cbn [String.length Nat.sub append];
    rewrite IH; reflexivity.
Qed.

Lemma safe_name_smap (checkpoint_name : string) :
  safe_name checkpoint_name
  = Py.smap (fun c => if Py.mem_char c path_chars then "_"%char else c) checkpoint_name.
Proof.
  unfold safe_name, backslash. rewrite !replace_char, !smap_smap. apply smap_ext.
  intros c. destruct c as [[] [] [] [] [] [] [] []]; reflexivity.
Qed.

Lemma all_chars_app (q : ascii -> bool) (a b : string) :
  all_chars q (a ++ b) = all_chars q a && all_chars q b.
Proof.
  induction a as [|c a IH]; [reflexivity|].
  cbn. rewrite IH, andb_assoc. reflexivity.
Qed.

Lemma length_app_str (a b : string) :
  String.length (a ++ b) = String.length a + String.length b.
Proof. induction a as [|c a IH]; [reflexivity|]. cbn. rewrite IH. reflexivity. Qed.

Lemma endswith_refl (p : string) : endswith p p = true.
Proof. destruct p; cbn; [reflexivity|]. rewrite Ascii.eqb_refl, String.eqb_refl. reflexivity. Qed.

Lemma endswith_app (a s p : string) :
  endswith s p = true -> endswith (a ++ s) p = true.
Proof.
  intros H. induction a as [|c a IH]; [exact H|].
  change (String c a ++ s)%string with (String c (a ++ s)).
  cbn [endswith]. rewrite IH. apply orb_true_r.
Qed.

(** X19.  The file [save_checkpoint] writes for a restaurant matches the
    pattern ["checkpoint_*.json"] that [load_checkpoints] reads, and its
    name has no space, slash or backslash, whatever the name of the
    restaurant.  Sanitising keeps the length of the name and changes
    nothing in a sanitised name, so that a name and its sanitised form
    are written to the same file. *)
Theorem checkpoint_filename_safe (checkpoint_name : string) :
  matches_checkpoint_pattern (checkpoint_filename checkpoint_name) = true
  /\ all_chars (fun c => negb (Py.mem_char c path_chars))
               (checkpoint_filename checkpoint_name) = true
  /\ String.length (safe_name checkpoint_name) = String.length checkpoint_name
  /\ checkpoint_filename (safe_name checkpoint_name)
     = checkpoint_filename checkpoint_name.
Proof.
  split; [|split; [|split]].
  - unfold matches_checkpoint_pattern, checkpoint_filename.
    rewrite (startswith_app "checkpoint_" _ "checkpoint_" eq_refl).
    rewrite (endswith_app "checkpoint_" _ ".json"
               (endswith_app (safe_name checkpoint_name) ".json" ".json"
                             (endswith_refl ".json"))).
    rewrite !length_app_str. cbn [andb]. apply Nat.leb_le. lia.
  - unfold checkpoint_filename. rewrite !all_chars_app, safe_name_smap.
    rewrite all_chars_smap; [reflexivity|].
    intros c. destruct c as [[] [] [] [] [] [] [] []]; reflexivity.
  - rewrite safe_name_smap. apply smap_length.
  - unfold checkpoint_filename. f_equal. f_equal.
    rewrite !safe_name_smap, smap_smap. apply smap_ext.
    intros c. destruct c as [[] [] [] [] [] [] [] []]; reflexivity.
Qed.

Lemma replace_each_smap (chars : string) :
  Py.mem_char "_" chars = false ->
  forall s,
    replace_each chars s
    = Py.smap (fun x => if Py.mem_char x chars then "_"%char else x) s.
Proof.
  induction chars as [|c rest IH]; intros H s.
  - cbn. symmetry. apply smap_id.
  - cbn [Py.mem_char] in H. apply orb_false_elim in H as [_ H].
    cbn [replace_each]. rewrite replace_char, (IH H), smap_smap.
    apply smap_ext. intros x. cbn [Py.mem_char].
    destruct (Ascii.eqb x c); cbn [orb]; [rewrite H|]; reflexivity.
Qed.

Lemma take_str_length (n : nat) (s : string) : String.length (take_str n s) <= n.
Proof.
  revert s. induction n as [|n IH]; intros [|c r]; cbn; try lia.
  specialize (IH r). lia.
Qed.

Lemma all_chars_take (q : ascii -> bool) (n : nat) (s : string) :
  all_chars q s = true -> all_chars q (take_str n s) = true.
Proof.
  revert s. induction n as [|n IH]; intros [|c r]; cbn; try reflexivity.
  intros H. apply andb_prop in H as [Hc Hr]. rewrite Hc, (IH r Hr). reflexivity.
Qed.

Lemma lstrip_first (p : ascii -> bool) (s : string) :
  match Py.lstrip_with p s with
  | String c _ => p c = false
  | EmptyString => True
  end.
Proof.
  induction s as [|c r IH]; [exact I|].
  cbn [Py.lstrip_with]. destruct (p c) eqn:E; [exact IH | exact E].
Qed.

Lemma strip_first (p : ascii -> bool) (s : string) :
  match Py.strip_with p s with
  | String c _ => p c = false
  | EmptyString => True
  end.
Proof.
  unfold Py.strip_with.
  destruct (Py.rstrip_with p (Py.lstrip_with p s)) as [|d r'] eqn:E; [exact I|].
  destruct (rstrip_keeps_head _ _ _ _ E) as [r0 E0].
  pose proof (lstrip_first p s) as H. rewrite E0 in H. exact H.
Qed.

(** X20.  Whatever the string, [sanitize_filename] returns at most 200
    characters, none of them one of the characters it replaces (angle
    brackets, colon, double quote, slash, backslash, bar, question mark,
    star), and the result does not start with a dot or a space. *)
Theorem sanitize_filename_safe (filename : string) :
  String.length (sanitize_filename filename) <= 200
  /\ all_chars (fun c => negb (Py.mem_char c unsafe_chars))
               (sanitize_filename filename) = true
  /\ Py.startswith (sanitize_filename filename) "." = false
  /\ Py.startswith (sanitize_filename filename) " " = false.
Proof.
  unfold sanitize_filename. cbn zeta.
  set (stripped := Py.strip_chars ". " (replace_each unsafe_chars filename)).
  assert (Hall : all_chars (fun c => negb (Py.mem_char c unsafe_chars)) stripped = true).
  { unfold stripped, Py.strip_chars, Py.strip_with.
    apply all_chars_rstrip, all_chars_lstrip.
    rewrite (replace_each_smap unsafe_chars eq_refl).
    apply all_chars_smap. intros c.
    destruct (Py.mem_char c unsafe_chars) eqn:E; [reflexivity | rewrite E; reflexivity]. }
  assert (Hhead : match stripped with
                  | String c _ => Py.mem_char c ". " = false
                  | EmptyString => True
                  end).
  { unfold stripped, Py.strip_chars. apply (strip_first (fun c => Py.mem_char c ". ")). }
  assert (Hstart : forall out,
             match out with
             | String c _ => Py.mem_char c ". " = false
             | EmptyString => True
             end ->
             Py.startswith out "." = false /\ Py.startswith out " " = false).
  { intros [|c r]; [split; reflexivity|]. cbn [Py.mem_char Py.startswith].
    intros H. apply orb_false_elim in H as [H1 H2].
    apply orb_false_elim in H2 as [H2 _]. rewrite H1, H2. split; reflexivity. }
  destruct (200 <? String.length stripped) eqn:E.
  - split; [apply take_str_length|]. split; [apply all_chars_take; exact Hall|].
    apply Hstart. destruct stripped as [|c r]; [exact I|].
    change 200 with (S 199). exact Hhead.
  - apply Nat.ltb_ge in E. split; [exact E|]. split; [exact Hall|].
    apply Hstart. exact Hhead.
Qed.

(** ** The filters of main.py *)

Lemma keep_specific_filter (specific_restaurants : list string)
      (restaurants : list (Dict.t string)) :
  (forall r, In r restaurants -> Dict.get "name" r <> None) ->
  keep_specific specific_restaurants restaurants
  = Some (filter (fun r => match Dict.get "name" r with
                           | Some name => Soup.str_in name specific_restaurants
                           | None => false
                           end) restaurants).
Proof.
  induction restaurants as [|r rs IH]; intros H; [reflexivity|].
  cbn [keep_specific filter].
  destruct (Dict.get "name" r) as [name|] eqn:E.
  - rewrite IH by (intros r' Hr'; apply H; right; exact Hr'). reflexivity.
  - exfalso. apply (H r (or_introl eq_refl)). exact E.
Qed.

Lemma firstn_in {A : Type} (n : nat) (l : list A) (x : A) :
  In x (firstn n l) -> In x l.
Proof.
  revert l. induction n as [|n IH]; intros [|y l]; cbn; try tauto.
  intros [H|H]; [left; exact H | right; apply IH; exact H].
Qed.

Lemma slice_to_in {A : Type} (m : Z) (l : list A) (x : A) :
  In x (slice_to m l) -> In x l.
Proof. unfold slice_to. destruct (0 <=? m)%Z; apply firstn_in. Qed.

Lemma slice_to_length {A : Type} (m : Z) (l : list A) :
  (0 < m)%Z -> length (slice_to m l) <= Z.to_nat m.
Proof.
  intros H. unfold slice_to. replace (0 <=? m)%Z with true by (symmetry; apply Z.leb_le; lia).
  rewrite length_firstn. lia.
Qed.

(** X21.  What [scrape_restaurants] of main.py keeps of the scraped
    restaurants, all of which have a name.  The restaurants kept are
    scraped ones; with a non-empty list of names only restaurants with
    one of these names are kept; a positive [max_restaurants] bounds
    their number.  Neither [None] nor an empty list filters, and neither
    [None] nor a [max_restaurants] of zero caps: then every restaurant
    with a wanted name is kept. *)
Theorem select_restaurants_filter_and_cap
        (specific_restaurants : option (list string)) (max_restaurants : option Z)
        (restaurants : list (Dict.t string)) :
  (forall r, In r restaurants -> Dict.get "name" r <> None) ->
  exists selected,
    select_restaurants specific_restaurants max_restaurants restaurants
    = Some selected
    /\ (forall r, In r selected -> In r restaurants)
    /\ (forall n l,
           specific_restaurants = Some (n :: l) ->
           forall r, In r selected ->
                     exists name, Dict.get "name" r = Some name /\ In name (n :: l))
    /\ (forall m, max_restaurants = Some m -> (0 < m)%Z ->
                  length selected <= Z.to_nat m)
    /\ (max_restaurants = None \/ max_restaurants = Some 0%Z ->
        forall r name,
          In r restaurants ->
          Dict.get "name" r = Some name ->
          match specific_restaurants with
          | Some (n :: l) => In name (n :: l)
          | _ => True
          end ->
          In r selected).
Proof.
  intros Hnames. unfold select_restaurants.
  set (wanted := fun sp (r : Dict.t string) =>
                   match Dict.get "name" r with
                   | Some name => Soup.str_in name sp
                   | None => false
                   end).
  assert (E : exists kept,
             match specific_restaurants with
             | Some (n :: l) => keep_specific (n :: l) restaurants
             | _ => Some restaurants
             end = Some kept
             /\ (forall r, In r kept -> In r restaurants)
             /\ (forall n l,
                    specific_restaurants = Some (n :: l) ->
                    forall r, In r kept ->
                              exists name, Dict.get "name" r = Some name
                                           /\ In name (n :: l))
             /\ (forall r name,
                    In r restaurants ->
                    Dict.get "name" r = Some name ->
                    match specific_restaurants with
                    | Some (n :: l) => In name (n :: l)
                    | _ => True
                    end ->
                    In r kept)).
  { destruct specific_restaurants as [[|n l]|].
    - exists restaurants. repeat split; try tauto; discriminate.
    - exists (filter (wanted (n :: l)) restaurants).
      split; [apply keep_specific_filter; exact Hnames|]. split; [|split].
      + intros r Hr. apply filter_In in Hr as [Hr _]. exact Hr.
      + intros n' l' Heq r Hr. inversion Heq; subst n' l'.
        apply filter_In in Hr as [_ Hr]. unfold wanted in Hr.
        destruct (Dict.get "name" r) as [name|]; [|discriminate].
        exists name. split; [reflexivity|]. apply str_in_In. exact Hr.
      + intros r name Hr Hn Hw. apply filter_In. split; [exact Hr|].
        unfold wanted. rewrite Hn. apply str_in_In. exact Hw.
    - exists restaurants. repeat split; try tauto; discriminate. }
  destruct E as (kept & -> & Hsub & Hsp & Hall).
  eexists. split; [reflexivity|].
  destruct max_restaurants as [m|].
  - destruct (m =? 0)%Z eqn:Em.
    + apply Z.eqb_eq in Em. subst m. split; [exact Hsub|]. split; [exact Hsp|].
      split; [intros m Hm Hpos; inversion Hm; subst; lia|].
      intros _. exact Hall.
    + apply Z.eqb_neq in Em. split; [|split; [|split]].
      * intros r Hr. apply Hsub. eapply slice_to_in. exact Hr.
      * intros n l Heq r Hr. apply (Hsp n l Heq). eapply slice_to_in. exact Hr.
      * intros m' Hm Hpos. inversion Hm; subst m'. apply slice_to_length. exact Hpos.
      * intros [H|H]; [discriminate | inversion H; contradiction].
  - split; [exact Hsub|]. split; [exact Hsp|].
    split; [discriminate|]. intros _. exact Hall.
Qed.

Lemma limit_items_get (m : Z) (menu_data : Dict.t menu_info) (k : string) :
  Dict.get k (map (fun kv => (fst kv, limit_entry m (snd kv))) menu_data)
  = option_map (limit_entry m) (Dict.get k menu_data).
Proof.
  induction menu_data as [|[k' v'] d IH]; [reflexivity|].
  cbn. destruct (String.eqb k k'); [reflexivity | exact IH].
Qed.

Lemma limit_entry_capped (m : Z) (data : menu_info) :
  (0 < m)%Z ->
  info_url (limit_entry m data) = info_url data
  /\ info_logo (limit_entry m data) = info_logo data
  /\ info_error (limit_entry m data) = info_error data
  /\ opt_or (info_items (limit_entry m data)) []
     = firstn (Z.to_nat m) (opt_or (info_items data) []).
Proof.
  intros Hpos. unfold limit_entry.
  destruct (m <? Z.of_nat (length (opt_or (info_items data) [])))%Z eqn:E.
  - cbn. unfold slice_to.
    replace (0 <=? m)%Z with true by (symmetry; apply Z.leb_le; lia).
    repeat split; reflexivity.
  - apply Z.ltb_ge in E. repeat split; try reflexivity.
    symmetry. apply firstn_all2. lia.
Qed.

Section CapFacts.
Variable urljoin : string -> string -> string.
Variable net : nat -> string -> string + node.
Variable clock : nat -> Q.
Variable config : ScraperConfig.

(** X22.  Stage 2 as main.py runs it never raises.  Its result has the
    same restaurants as the index the scraper built.  With a positive
    [max_items_per_restaurant] every restaurant keeps its url, logo and
    error and the first [max_items_per_restaurant] of its items, in
    order; with [None] or zero nothing is cut. *)
Theorem scrape_menu_items_capped
        (max_items_per_restaurant : option Z) (restaurants : list (Dict.t string)) :
  exists menu_index s' menu_data,
    MenuItemScraper_scrape urljoin net clock config restaurants fresh_scraper
    = (Ret menu_index, s')
    /\ scrape_menu_items urljoin net clock config max_items_per_restaurant restaurants
       = Ret menu_data
    /\ Dict.keys menu_data = Dict.keys menu_index
    /\ (forall m,
           max_items_per_restaurant = Some m -> (0 < m)%Z ->
           forall k data,
             Dict.get k menu_index = Some data ->
             exists capped,
               Dict.get k menu_data = Some capped
               /\ info_url capped = info_url data
               /\ info_logo capped = info_logo data
               /\ info_error capped = info_error data
               /\ opt_or (info_items capped) []
                  = firstn (Z.to_nat m) (opt_or (info_items data) [])
               /\ length (opt_or (info_items capped) []) <= Z.to_nat m)
    /\ (max_items_per_restaurant = None \/ max_items_per_restaurant = Some 0%Z ->
        menu_data = menu_index).
Proof.
  unfold scrape_menu_items.
  destruct (menu_loop_keeps urljoin net clock config restaurants [] fresh_scraper)
    as (menu_index & s' & E & _).
  unfold MenuItemScraper_scrape. rewrite E.
  exists menu_index, s'. eexists. split; [reflexivity|]. split; [reflexivity|].
  unfold limit_items. destruct max_items_per_restaurant as [m|].
  - destruct (m =? 0)%Z eqn:Em.
    + apply Z.eqb_eq in Em. subst m. split; [reflexivity|].
      split; [intros m Hm Hpos; inversion Hm; subst; lia | reflexivity].
    + apply Z.eqb_neq in Em. split; [|split].
      * unfold Dict.keys. rewrite map_map. reflexivity.
      * intros m' Hm Hpos k data Hg. inversion Hm; subst m'.
        exists (limit_entry m data). rewrite limit_items_get, Hg.
        split; [reflexivity|].
        destruct (limit_entry_capped m data Hpos) as (H1 & H2 & H3 & H4).
        repeat split; try assumption.
        rewrite H4, length_firstn. lia.
      * intros [H|H]; [discriminate | inversion H; contradiction].
  - split; [reflexivity|]. split; [discriminate | reflexivity].
Qed.




End CapFacts.

(** ** The success rate *)

(** X24.  When every counted request is counted as a success or as a
    failure, as it is after a run of a scraper, the success rate is a
    percentage: it lies between 0 and 100, and it is 100 when requests
    were counted and none failed. *)
Theorem success_rate_is_a_percentage (st : ScraperStats) :
  accounted st ->
  (0 <= get_success_rate st)%Q
  /\ (get_success_rate st <= 100)%Q
  /\ (0 < total_requests st -> failed_requests st = 0 ->
      (get_success_rate st == 100)%Q).
Proof.
  unfold accounted, get_success_rate. intros H.
  destruct (total_requests st =? 0) eqn:E.
  - apply Nat.eqb_eq in E. repeat split; try lra. intros H0. lia.
  - apply Nat.eqb_neq in E.
    assert (Ht : (0 < inject_Z (Z.of_nat (total_requests st)))%Q).
    { rewrite <- (Zlt_Qlt 0). lia. }
    assert (Hs : (0 <= inject_Z (Z.of_nat (successful_requests st)))%Q).
    { rewrite <- (Zle_Qle 0). lia. }
    assert (Hle : (inject_Z (Z.of_nat (successful_requests st))
                   <= inject_Z (Z.of_nat (total_requests st)))%Q).
    { rewrite <- Zle_Qle. lia. }
    set (x := (inject_Z (Z.of_nat (successful_requests st))
               / inject_Z (Z.of_nat (total_requests st)))%Q).
    assert (H0 : (0 <= x)%Q).
    { unfold x. apply Qle_shift_div_l; [exact Ht|]. lra. }
    assert (H1 : (x <= 1)%Q).
    { unfold x. apply Qle_shift_div_r; [exact Ht|]. lra. }
    repeat split; try lra.
    intros _ Hf. assert (Heq : successful_requests st = total_requests st) by lia.
    unfold x. rewrite Heq. field. lra.
Qed.

(** ** The theorems at work on sample inputs, continued *)

Lemma fetch_page_without_attempts_witness :
  fetch_page net_flaky clock0 (mkConfig "https://fastfoodnutrition.org" 0 1 30 (1 # 2))
             "https://fastfoodnutrition.org/subway" fresh_scraper
  = (Ret None, fresh_scraper).
Proof.
  refine (proj1 (fetch_page_without_attempts
                   urljoin0 net_flaky clock0
                   (mkConfig "https://fastfoodnutrition.org" 0 1 30 (1 # 2))
                   "https://fastfoodnutrition.org/subway" fresh_scraper _)).
  cbn. lia.
Defined.



Lemma fetch_page_backoff_refused_witness :
  exists s',
    fetch_page net_down clock0 config_negative_retry
               "https://fastfoodnutrition.org/subway" fresh_scraper
    = (Raise (ValueError "sleep length must be non-negative"), s')
    /\ sent s' = 1
    /\ total_requests (stats s') = 0
    /\ failed_requests (stats s') = 0.
Proof.
  destruct (fetch_page_backoff_refused net_down clock0 config_negative_retry
              "https://fastfoodnutrition.org/subway" fresh_scraper "timed out"
              eq_refl
              (fresh_scraper_calm config_negative_retry
                 ltac:(vm_compute; discriminate)))
    as (e' & s' & Hrun & _ & He & Hsent & _ & Htot & Hfail & _).
  - intros [H _]. vm_compute in H. exact (H eq_refl).
  - reflexivity.
  - rewrite (He ltac:(vm_compute; reflexivity) ltac:(vm_compute; discriminate))
      in Hrun.
    exists s'. split; [exact Hrun|]. split; [exact Hsent|].
    split; [exact Htot | exact Hfail].
Defined.


Lemma extract_nutrition_table_last_row_wins_witness :
  Dict.get (_to_snake_case "total-fat")
           (extract_nutrition_table
              (nutrition_page [ tr [td "Total Fat"; td "10g"];
                                tr [td "total-fat"; td "12g"] ]))
  = Some "12g".
Proof.
  exact (proj2 (extract_nutrition_table_last_row_wins
                  (root (page [Elem "table" ["item_nutrition"] []
                                    [ tr [td "Total Fat"; td "10g"];
                                      tr [td "total-fat"; td "12g"] ]]))
                  _ [_] [] _ "total-fat" "12g"
                  eq_refl eq_refl eq_refl eq_refl
                  (fun r k v H => match H with end))).
Defined.

Lemma extract_item_image_provenance_witness :
  exists (img : loc) (src : string),
    Soup.attr "src" (snd img) = Some src
    /\ Py.truthy src = true
    /\ "https://fastfoodnutrition.org/item-photos/blt.jpg"
       = urljoin0 (base_url config0) src.
Proof.
  destruct (extract_item_image_provenance urljoin0 config0
              (root (page [Elem "img" [] [("src", "/item-photos/blt.jpg")] []]))
              "https://fastfoodnutrition.org/item-photos/blt.jpg" eq_refl)
    as (img & src & H1 & H2 & H3 & _).
  exists img, src. split; [exact H1|]. split; [exact H2 | exact H3].
Defined.


Lemma nutrition_scrape_shape_witness :
  exists enriched_data s',
    NutritionScraper_scrape urljoin0 net_down clock0 config0 burger_barn_menu fresh_scraper
    = (Ret enriched_data, s')
    /\ Dict.keys enriched_data = ["Burger Barn"].
Proof.
  destruct (nutrition_scrape_shape urljoin0 net_down clock0 config0 burger_barn_menu
              fresh_scraper)
    as (enriched_data & s' & Hrun & Hkeys & _).
  - constructor; [intros [] | constructor].
  - exists enriched_data, s'. split; [exact Hrun | exact Hkeys].
Defined.

Lemma stage3_keeps_every_restaurant_witness :
  exists final,
    scrape_nutrition_data urljoin0 net_down clock0 config0 false [] burger_barn_menu
    = Ret final
    /\ Dict.keys final = ["Burger Barn"].
Proof.
  destruct (stage3_keeps_every_restaurant urljoin0 net_down clock0 config0 false []
              burger_barn_menu)
    as (final & Hrun & _ & Hkeys).
  - constructor; [intros [] | constructor].
  - discriminate.
  - intros name info item [Heq|[]] Hitem. inversion Heq; subst.
    destruct Hitem as [<-|[]]. discriminate.
  - exists final. split; [exact Hrun | exact (Hkeys eq_refl)].
Defined.

Lemma stage3_count_raises_witness :
  scrape_nutrition_data urljoin0 net_down clock0 config0 false [] odd_menu
  = Raise (AttributeError "'str' object has no attribute 'get'").
Proof.
  destruct (stage3_count_raises urljoin0 net_down clock0 config0 [] odd_menu
              "Burger Barn"
              (mkInfo (Some "https://fastfoodnutrition.org/burger-barn") (Some "")
                      (Some [ [ ("name", "Cheeseburger");
                                ("nutritional_values", "n/a") ] ])
                      None)
              [ ("name", "Cheeseburger"); ("nutritional_values", "n/a") ] "n/a")
    as (out & s' & _ & Hrun).
  - constructor; [intros [] | constructor].
  - left. reflexivity.
  - left. reflexivity.
  - left. reflexivity.
  - reflexivity.
  - exact Hrun.
Defined.


Lemma select_restaurants_filter_and_cap_witness :
  exists selected,
    select_restaurants (Some ["Subway"]) (Some 1%Z) [subway; subway_cafe]
    = Some selected
    /\ length selected <= 1.
Proof.
  destruct (select_restaurants_filter_and_cap (Some ["Subway"]) (Some 1%Z)
              [subway; subway_cafe])
    as (selected & Hrun & _ & _ & Hcap & _).
  - intros r [<-|[<-|[]]]; discriminate.
  - exists selected. split; [exact Hrun|]. exact (Hcap 1%Z eq_refl eq_refl).
Defined.


Lemma success_rate_is_a_percentage_witness :
  (get_success_rate (mkStats 4 3 1 5) <= 100)%Q.
Proof.
  exact (proj1 (proj2 (success_rate_is_a_percentage (mkStats 4 3 1 5) eq_refl))).
Defined.

